(** * Research session pipeline: Gradio and Streamlit front ends

    A shallow embedding of the result formatting, history, chart and export
    code of [src/ui/gradio_app.py] and [src/ui/streamlit_app.py], with the
    Python operations that code relies on, and the theorems that settle the
    specification's claims against it. *)

From Stdlib Require Import String Ascii List ZArith Lia Bool Permutation.
From Stdlib Require Import DecimalString DecimalZ.
From Stdlib Require DecimalPos DecimalFacts.
From Stdlib Require Import SpecFloat.
Import ListNotations.

Set Warnings "-register-all".

Local Open Scope string_scope.

(** ** Python text primitives

    A Python [str] is modelled as a Rocq [string] holding the UTF-8 encoding
    of its characters. *)
Module PyStr.

Definition nl : string := String "010"%char EmptyString.
Definition dquote : string := String "034"%char EmptyString.

(** [str(n)] for an integer. *)
Definition of_Z (z : Z) : string := NilZero.string_of_int (Z.to_int z).

(** [s.startswith(p)] *)
Definition startswith (s p : string) : bool := String.prefix p s.

(** [sub in s] *)
Fixpoint contains (sub s : string) : bool :=
  String.prefix sub s ||
  match s with
  | EmptyString => false
  | String _ s' => contains sub s'
  end.

(** [not s]: the empty string is the only falsy one. *)
Definition is_empty (s : string) : bool :=
  match s with EmptyString => true | _ => false end.

Fixpoint rev (s : string) : string :=
  match s with
  | EmptyString => EmptyString
  | String c s' => rev s' ++ String c EmptyString
  end.

(** [sep.join(l)] *)
Fixpoint join (sep : string) (l : list string) : string :=
  match l with
  | [] => ""
  | x :: tl =>
      match tl with
      | [] => x
      | _ :: _ => x ++ sep ++ join sep tl
      end
  end.

(** [s.split(sep)] for a non-empty separator: the text is scanned from the
    left, every occurrence of [sep] closes the current piece, and the scan
    resumes after the occurrence ([skip] counts the characters of it still to
    pass). *)
Fixpoint split_go (sep : string) (skip : nat) (cur s : string) : list string :=
  match s with
  | EmptyString => [cur]
  | String c s' =>
      match skip with
      | S k => split_go sep k cur s'
      | O =>
          if String.prefix sep s
          then cur :: split_go sep (String.length sep - 1) "" s'
          else split_go sep 0 (cur ++ String c "") s'
      end
  end.

Definition split (sep s : string) : list string := split_go sep 0 "" s.

(** No occurrence of [sep] starts inside [a] when [rest] follows it. *)
Definition clear_before (sep a rest : string) : Prop :=
  forall a1 a2, a = a1 ++ a2 -> a2 <> "" -> String.prefix sep (a2 ++ rest) = false.

(** [s.replace(old, new)] for a non-empty [old]. *)
Definition replace (old new s : string) : string := join new (split old s).

(** The characters [str.isspace] accepts, in UTF-8: U+0009..U+000D,
    U+001C..U+0020, U+0085, U+00A0, U+1680, U+2000..U+200A, U+2028, U+2029,
    U+202F, U+205F, U+3000. *)
Definition byte (n : nat) : string := String (ascii_of_nat n) "".

Definition whitespace : list string :=
  map byte [9; 10; 11; 12; 13; 28; 29; 30; 31; 32] ++
  [byte 194 ++ byte 133; byte 194 ++ byte 160; byte 225 ++ byte 154 ++ byte 128] ++
  map (fun n => byte 226 ++ byte 128 ++ byte n)
      [128; 129; 130; 131; 132; 133; 134; 135; 136; 137; 138; 168; 169; 175] ++
  [byte 226 ++ byte 129 ++ byte 159; byte 227 ++ byte 128 ++ byte 128].

(** Length in bytes of the entry of [pats] that [s] starts with, 0 when there
    is none. *)
Fixpoint match_len (pats : list string) (s : string) : nat :=
  match pats with
  | [] => 0
  | p :: tl => if String.prefix p s then String.length p else match_len tl s
  end.

Fixpoint lstrip_go (pats : list string) (skip : nat) (s : string) : string :=
  match s with
  | EmptyString => EmptyString
  | String _ s' =>
      match skip with
      | S k => lstrip_go pats k s'
      | O =>
          match match_len pats s with
          | O => s
          | S k => lstrip_go pats k s'
          end
      end
  end.

Definition lstrip (s : string) : string := lstrip_go whitespace 0 s.
Definition rstrip (s : string) : string :=
  rev (lstrip_go (map rev whitespace) 0 (rev s)).

(** [s.strip()] *)
Definition strip (s : string) : string := rstrip (lstrip s).

Definition is_upper (c : ascii) : bool :=
  (65 <=? nat_of_ascii c)%nat && (nat_of_ascii c <=? 90)%nat.
Definition is_lower (c : ascii) : bool :=
  (97 <=? nat_of_ascii c)%nat && (nat_of_ascii c <=? 122)%nat.
Definition to_upper (c : ascii) : ascii :=
  if is_lower c then ascii_of_nat (nat_of_ascii c - 32) else c.
Definition to_lower (c : ascii) : ascii :=
  if is_upper c then ascii_of_nat (nat_of_ascii c + 32) else c.

(** [s.title()] on ASCII text: a letter that follows a letter is put in lower
    case, any other letter in upper case.  The case tables cover the ASCII
    letters only; a byte outside them is copied and counts as uncased, so for
    a text with non-ASCII letters, which Python cases too (and may lengthen),
    this is not [str.title]. *)
Fixpoint title_go (prev_cased : bool) (s : string) : string :=
  match s with
  | EmptyString => EmptyString
  | String c s' =>
      if is_lower c || is_upper c
      then String (if prev_cased then to_lower c else to_upper c) (title_go true s')
      else String c (title_go false s')
  end.

Definition title (s : string) : string := title_go false s.

(** [s[:n]], counted in characters: a UTF-8 continuation byte stays with the
    character it belongs to. *)
Definition is_continuation (c : ascii) : bool :=
  (128 <=? nat_of_ascii c)%nat && (nat_of_ascii c <? 192)%nat.

Fixpoint take (n : nat) (s : string) : string :=
  match s with
  | EmptyString => EmptyString
  | String c s' =>
      if is_continuation c then String c (take n s')
      else match n with
           | O => EmptyString
           | S k => String c (take k s')
           end
  end.

(** [''.join(l)] *)
Fixpoint cat (l : list string) : string :=
  match l with
  | [] => EmptyString
  | x :: tl => x ++ cat tl
  end.

(** [s * n] *)
Fixpoint repeat (s : string) (n : nat) : string :=
  match n with
  | O => EmptyString
  | S k => s ++ repeat s k
  end.

End PyStr.

(** ** Python floats: IEEE 754 binary64

    Floats are the standard library's [spec_float] at precision 53 and
    exponent bound 1024, with its correctly rounded operations. *)
Module PyFloat.

Local Open Scope Z_scope.

Definition prec : Z := 53.
Definition emax : Z := 1024.

Definition mul : spec_float -> spec_float -> spec_float := SFmul prec emax.
Definition div : spec_float -> spec_float -> spec_float := SFdiv prec emax.
Definition add : spec_float -> spec_float -> spec_float := SFadd prec emax.

Definition is_zero (f : spec_float) : bool :=
  match f with S754_zero _ => true | _ => false end.
Definition is_inf (f : spec_float) : bool :=
  match f with S754_infinity _ => true | _ => false end.
Definition is_nan (f : spec_float) : bool :=
  match f with S754_nan => true | _ => false end.

(** The float nearest to [a / b] (ties to even), for [0 <= a] and [0 < b],
    with sign [sgn]. *)
Definition of_ratio (sgn : bool) (a b : Z) : spec_float :=
  match a with
  | Z0 => S754_zero sgn
  | _ =>
      let '(q, e, l) := SFdiv_core_binary prec emax a 0 b 0 in
      binary_round_aux prec emax sgn q e l
  end.

(** [float(z)] *)
Definition of_Z (z : Z) : spec_float := binary_normalize prec emax z 0 false.

(** [digits * 10 ** exp10], correctly rounded: what [float(text)] computes
    from a decimal literal. *)
Definition of_decimal (sgn : bool) (digits exp10 : Z) : spec_float :=
  if 0 <=? exp10 then of_ratio sgn (digits * 10 ^ exp10) 1
  else of_ratio sgn digits (10 ^ (- exp10)).

(** Exact comparison of an integer with a float; [None] for NaN. *)
Definition compare_Z (z : Z) (f : spec_float) : option comparison :=
  match f with
  | S754_nan => None
  | S754_infinity s => Some (if s then Gt else Lt)
  | S754_zero _ => Some (z ?= 0)
  | S754_finite s m e =>
      let v := if s then Zneg m else Zpos m in
      if 0 <=? e then Some (z ?= v * 2 ^ e)
      else Some (z * 2 ^ (- e) ?= v)
  end.

(** Numerator and denominator of the absolute value of a finite float. *)
Definition abs_ratio (m : positive) (e : Z) : Z * Z :=
  if 0 <=? e then (Zpos m * 2 ^ e, 1) else (Zpos m, 2 ^ (- e)).

(** [n] rounded to the nearest integer quotient by [d], ties to even. *)
Definition div_half_even (n d : Z) : Z :=
  let q := n / d in
  let r := n mod d in
  match 2 * r ?= d with
  | Lt => q
  | Gt => q + 1
  | Eq => if Z.even q then q else q + 1
  end.

Definition pad_left (width : nat) (s : string) : string :=
  PyStr.repeat "0" (width - String.length s) ++ s.

Definition sign_text (s : bool) : string := if s then "-" else "".

(** [format(f, '.2f')] *)
Definition format_2f (f : spec_float) : string :=
  match f with
  | S754_nan => "nan"
  | S754_infinity s => sign_text s ++ "inf"
  | S754_zero s => sign_text s ++ "0.00"
  | S754_finite s m e =>
      let '(n, d) := abs_ratio m e in
      let h := div_half_even (n * 100) d in
      sign_text s ++ PyStr.of_Z (h / 100) ++ "." ++ pad_left 2 (PyStr.of_Z (h mod 100))
  end.

(** [10 ** k <= n / d] *)
Definition pow10_le (k n d : Z) : bool :=
  if 0 <=? k then 10 ^ k * d <=? n else d <=? n * 10 ^ (- k).

Fixpoint climb (fuel : nat) (k n d : Z) : Z :=
  match fuel with
  | O => k
  | S fuel' => if pow10_le (k + 1) n d then climb fuel' (k + 1) n d else k
  end.

(** The decimal exponent of [n / d]: the [k] with [10 ** k <= n / d < 10 ** (k + 1)]. *)
Definition exponent10 (m : positive) (e : Z) : Z :=
  let '(n, d) := abs_ratio m e in
  let bits := Zpos (digits2_pos m) + e in
  climb 4 ((bits - 1) * 30103 / 100000 - 1) n d.

Definition same (f g : spec_float) : bool := SFeqb f g.

(** The [ndig]-digit decimals next to [n / d] scaled by the exponent [k]: the
    one that reads back as [f], the nearer when both do. *)
Definition candidate (f : spec_float) (k : Z) (n d : Z) (ndig : Z) : option Z :=
  let sh := k + 1 - ndig in
  let a := if 0 <=? sh then n else n * 10 ^ (- sh) in
  let b := if 0 <=? sh then d * 10 ^ sh else d in
  let lo := a / b in
  let r := a mod b in
  let ok c := same (of_decimal false c sh) f in
  if r =? 0 then (if ok lo then Some lo else None)
  else
    match ok lo, ok (lo + 1) with
    | true, true =>
        match 2 * r ?= b with
        | Lt => Some lo
        | Gt => Some (lo + 1)
        | Eq => Some (if Z.even lo then lo else lo + 1)
        end
    | true, false => Some lo
    | false, true => Some (lo + 1)
    | false, false => None
    end.

Fixpoint shortest (fuel : nat) (f : spec_float) (k n d ndig : Z) : Z * Z :=
  match fuel with
  | O => (div_half_even (if 0 <=? k + 1 - ndig then n else n * 10 ^ (- (k + 1 - ndig)))
                        (if 0 <=? k + 1 - ndig then d * 10 ^ (k + 1 - ndig) else d), ndig)
  | S fuel' =>
      match candidate f k n d ndig with
      | Some c => (c, ndig)
      | None => shortest fuel' f k n d (ndig + 1)
      end
  end.

Fixpoint strip_zeros_rev (s : string) : string :=
  match s with
  | String "0" s' => strip_zeros_rev s'
  | _ => s
  end.

(** The shortest digit string that reads back as the float, and the position
    of the decimal point relative to its start. *)
Definition digits_of (m : positive) (e : Z) : string * Z :=
  let f := S754_finite false m e in
  let '(n, d) := abs_ratio m e in
  let k := exponent10 m e in
  let '(c, ndig) := shortest 16 f k n d 1 in
  let text := PyStr.of_Z c in
  let decpt := k + 1 + (Z.of_nat (String.length text) - ndig) in
  (PyStr.rev (strip_zeros_rev (PyStr.rev text)), decpt).

Definition head_tail (s : string) : string * string :=
  match s with
  | EmptyString => (EmptyString, EmptyString)
  | String c s' => (String c EmptyString, s')
  end.

(** [repr(f)], which is also [str(f)]. *)
Definition repr (f : spec_float) : string :=
  match f with
  | S754_nan => "nan"
  | S754_infinity s => sign_text s ++ "inf"
  | S754_zero s => sign_text s ++ "0.0"
  | S754_finite s m e =>
      let '(ds, decpt) := digits_of m e in
      let nd := Z.of_nat (String.length ds) in
      sign_text s ++
      (if (decpt <=? -4) || (16 <? decpt) then
         let '(d1, rest) := head_tail ds in
         let x := decpt - 1 in
         d1 ++ (if PyStr.is_empty rest then "" else "." ++ rest) ++ "e" ++
         (if x <? 0 then "-" else "+") ++ pad_left 2 (PyStr.of_Z (Z.abs x))
       else if decpt <=? 0 then
         "0." ++ PyStr.repeat "0" (Z.to_nat (- decpt)) ++ ds
       else if nd <=? decpt then
         ds ++ PyStr.repeat "0" (Z.to_nat (decpt - nd)) ++ ".0"
       else
         String.substring 0 (Z.to_nat decpt) ds ++ "." ++
         String.substring (Z.to_nat decpt) (Z.to_nat (nd - decpt)) ds)
  end.

End PyFloat.

(** ** Python values, exceptions and built-in operations *)
Module Py.

(** An object of a class the model does not look into (a chat message left in
    the agent state, for one): its class name, its [str()] and [repr()] texts
    and its truth value. *)
Record object := {
  ob_type : string;
  ob_str : string;
  ob_repr : string;
  ob_true : bool
}.

(** The dict-shaped payload the agent returns.  Dict keys are strings and a
    dict keeps its insertion order. *)
Inductive value :=
| VNone
| VBool (b : bool)
| VInt (z : Z)
| VFloat (f : spec_float)
| VStr (s : string)
| VList (l : list value)
| VDict (d : list (string * value))
| VObj (o : object).

Inductive exn_class :=
| AttributeError
| KeyError
| TypeError
| ValueError
| ZeroDivisionError
| OverflowError
| OtherException (name : string).

(** An instance of [Exception]: its class and [str(e)]. *)
Record exn := { exn_type : exn_class; exn_text : string }.

Inductive outcome (A : Type) :=
| Ok (a : A)
| Raise (e : exn).
Arguments Ok {A} a.
Arguments Raise {A} e.

Definition bind {A B : Type} (r : outcome A) (k : A -> outcome B) : outcome B :=
  match r with
  | Ok a => k a
  | Raise e => Raise e
  end.

Definition raise {A : Type} (c : exn_class) (text : string) : outcome A :=
  Raise {| exn_type := c; exn_text := text |}.

Definition type_name (v : value) : string :=
  match v with
  | VNone => "NoneType"
  | VBool _ => "bool"
  | VInt _ => "int"
  | VFloat _ => "float"
  | VStr _ => "str"
  | VList _ => "list"
  | VDict _ => "dict"
  | VObj o => ob_type o
  end.

(** [bool(v)] *)
Definition truthy (v : value) : bool :=
  match v with
  | VNone => false
  | VBool b => b
  | VInt z => negb (Z.eqb z 0)
  | VFloat f => negb (PyFloat.is_zero f)
  | VStr s => negb (PyStr.is_empty s)
  | VList l => match l with [] => false | _ => true end
  | VDict d => match d with [] => false | _ => true end
  | VObj o => ob_true o
  end.

Fixpoint lookup (k : string) (d : list (string * value)) : option value :=
  match d with
  | [] => None
  | (k', v) :: tl => if String.eqb k k' then Some v else lookup k tl
  end.

Definition hex_digit (n : nat) : string :=
  String.substring n 1 "0123456789abcdef".

Definition squote : string := "'".

(** [repr(s)] for a string.  Bytes above the ASCII range belong to encoded
    characters and are copied. *)
Definition repr_char (quote : ascii) (c : ascii) : string :=
  let n := nat_of_ascii c in
  if Ascii.eqb c "\" then "\\"
  else if Ascii.eqb c quote then "\" ++ String c ""
  else if Nat.eqb n 10 then "\n"
  else if Nat.eqb n 13 then "\r"
  else if Nat.eqb n 9 then "\t"
  else if Nat.ltb n 32 || Nat.eqb n 127
       then "\x" ++ hex_digit (n / 16) ++ hex_digit (n mod 16)
  else String c "".

Fixpoint repr_body (quote : ascii) (s : string) : string :=
  match s with
  | EmptyString => EmptyString
  | String c s' => repr_char quote c ++ repr_body quote s'
  end.

Definition repr_str (s : string) : string :=
  if PyStr.contains squote s && negb (PyStr.contains PyStr.dquote s)
  then PyStr.dquote ++ repr_body "034" s ++ PyStr.dquote
  else squote ++ repr_body "'" s ++ squote.

(** [repr(v)] *)
Fixpoint repr (v : value) : string :=
  match v with
  | VNone => "None"
  | VBool b => if b then "True" else "False"
  | VInt z => PyStr.of_Z z
  | VFloat f => PyFloat.repr f
  | VStr s => repr_str s
  | VList l => "[" ++ PyStr.join ", " (map repr l) ++ "]"
  | VDict d =>
      "{" ++ PyStr.join ", " (map (fun kv => repr_str (fst kv) ++ ": " ++ repr (snd kv)) d) ++ "}"
  | VObj o => ob_repr o
  end.

(** [str(v)], which is also what [f"{v}"] inserts. *)
Definition str (v : value) : string :=
  match v with
  | VStr s => s
  | VObj o => ob_str o
  | _ => repr v
  end.

(** [d.get(k, default)] *)
Definition get (d : value) (k : string) (default : value) : outcome value :=
  match d with
  | VDict kvs => Ok (match lookup k kvs with Some v => v | None => default end)
  | _ => raise AttributeError ("'" ++ type_name d ++ "' object has no attribute 'get'")
  end.

(** [d[k]] for a string key. *)
Definition getitem (d : value) (k : string) : outcome value :=
  match d with
  | VDict kvs =>
      match lookup k kvs with
      | Some v => Ok v
      | None => raise KeyError (repr_str k)
      end
  | VList _ => raise TypeError "list indices must be integers or slices, not str"
  | VStr _ => raise TypeError "string indices must be integers, not 'str'"
  | _ => raise TypeError ("'" ++ type_name d ++ "' object is not subscriptable")
  end.

(** [d.items()] *)
Definition items (d : value) : outcome (list (string * value)) :=
  match d with
  | VDict kvs => Ok kvs
  | _ => raise AttributeError ("'" ++ type_name d ++ "' object has no attribute 'items'")
  end.

(** The characters of a string, each as a string. *)
Fixpoint chars_go (cur : string) (s : string) : list string :=
  match s with
  | EmptyString => match cur with EmptyString => [] | _ => [cur] end
  | String c s' =>
      if PyStr.is_continuation c then chars_go (cur ++ String c "") s'
      else match cur with
           | EmptyString => chars_go (String c "") s'
           | _ => cur :: chars_go (String c "") s'
           end
  end.

Definition chars (s : string) : list string := chars_go "" s.

(** What a [for] loop over [v] visits. *)
Definition iterate (v : value) : outcome (list value) :=
  match v with
  | VList l => Ok l
  | VStr s => Ok (map VStr (chars s))
  | VDict kvs => Ok (map (fun kv => VStr (fst kv)) kvs)
  | _ => raise TypeError ("'" ++ type_name v ++ "' object is not iterable")
  end.

(** [len(v)] *)
Definition len (v : value) : outcome Z :=
  match v with
  | VList l => Ok (Z.of_nat (List.length l))
  | VStr s => Ok (Z.of_nat (List.length (chars s)))
  | VDict kvs => Ok (Z.of_nat (List.length kvs))
  | _ => raise TypeError ("object of type '" ++ type_name v ++ "' has no len()")
  end.

(** Numbers: [bool] is a subclass of [int]. *)
Inductive number :=
| NInt (z : Z)
| NFloat (f : spec_float).

Definition to_number (v : value) : option number :=
  match v with
  | VBool b => Some (NInt (if b then 1 else 0))
  | VInt z => Some (NInt z)
  | VFloat f => Some (NFloat f)
  | _ => None
  end.

(** [float(z)], which overflows for an integer beyond the float range. *)
Definition float_of_int (z : Z) : outcome spec_float :=
  let f := PyFloat.of_Z z in
  if PyFloat.is_inf f then raise OverflowError "int too large to convert to float"
  else Ok f.

Definition float_of_number (n : number) : outcome spec_float :=
  match n with
  | NInt z => float_of_int z
  | NFloat f => Ok f
  end.

Definition unsupported {A : Type} (op : string) (a b : value) : outcome A :=
  raise TypeError ("unsupported operand type(s) for " ++ op ++ ": '" ++
                   type_name a ++ "' and '" ++ type_name b ++ "'").

Definition is_zero_number (n : number) : bool :=
  match n with
  | NInt z => Z.eqb z 0
  | NFloat f => PyFloat.is_zero f
  end.

(** [a / b].  Two integers divide exactly, rounded once; otherwise both sides
    become floats first and the divisor is then tested for zero (an integer
    converts to zero only when it is zero). *)
Definition truediv (a b : value) : outcome value :=
  match to_number a, to_number b with
  | Some (NInt x), Some (NInt y) =>
      if Z.eqb y 0 then raise ZeroDivisionError "division by zero"
      else
        let f := PyFloat.of_ratio (negb (Bool.eqb (Z.ltb x 0) (Z.ltb y 0)))
                                  (Z.abs x) (Z.abs y) in
        if PyFloat.is_inf f
        then raise OverflowError "integer division result too large for a float"
        else Ok (VFloat f)
  | Some x, Some y =>
      bind (float_of_number x) (fun fx =>
      bind (float_of_number y) (fun fy =>
      if is_zero_number y then raise ZeroDivisionError "float division by zero"
      else Ok (VFloat (PyFloat.div fx fy))))
  | _, _ => unsupported "/" a b
  end.

Definition repeat_list (l : list value) (n : Z) : list value :=
  List.concat (List.repeat l (Z.to_nat n)).

Definition int_like (v : value) : option Z :=
  match v with
  | VBool b => Some (if b then 1 else 0)%Z
  | VInt z => Some z
  | _ => None
  end.

(** [a * b] *)
Definition mul (a b : value) : outcome value :=
  match to_number a, to_number b with
  | Some (NInt x), Some (NInt y) => Ok (VInt (x * y))
  | Some x, Some y =>
      bind (float_of_number x) (fun fx =>
      bind (float_of_number y) (fun fy =>
      Ok (VFloat (PyFloat.mul fx fy))))
  | _, _ =>
      match a, int_like b, int_like a, b with
      | VStr s, Some n, _, _ => Ok (VStr (PyStr.repeat s (Z.to_nat n)))
      | VList l, Some n, _, _ => Ok (VList (repeat_list l n))
      | _, _, Some n, VStr s => Ok (VStr (PyStr.repeat s (Z.to_nat n)))
      | _, _, Some n, VList l => Ok (VList (repeat_list l n))
      | VStr _, _, _, VFloat _ | VList _, _, _, VFloat _ | VFloat _, _, _, VStr _
      | VFloat _, _, _, VList _ =>
          raise TypeError "can't multiply sequence by non-int of type 'float'"
      | _, _, _, _ => unsupported "*" a b
      end
  end.

(** [a + b] *)
Definition add (a b : value) : outcome value :=
  match to_number a, to_number b with
  | Some (NInt x), Some (NInt y) => Ok (VInt (x + y))
  | Some x, Some y =>
      bind (float_of_number x) (fun fx =>
      bind (float_of_number y) (fun fy =>
      Ok (VFloat (PyFloat.add fx fy))))
  | _, _ =>
      match a, b with
      | VStr s, VStr t => Ok (VStr (s ++ t))
      | VList l, VList m => Ok (VList (l ++ m)%list)
      | VStr _, _ =>
          raise TypeError ("can only concatenate str (not " ++ PyStr.dquote ++ type_name b ++
                           PyStr.dquote ++ ") to str")
      | VList _, _ =>
          raise TypeError ("can only concatenate list (not " ++ PyStr.dquote ++ type_name b ++
                           PyStr.dquote ++ ") to list")
      | _, _ => unsupported "+" a b
      end
  end.

Definition is_lt (c : option comparison) : bool :=
  match c with Some Lt => true | _ => false end.

Definition compare_numbers (x y : number) : option comparison :=
  match x, y with
  | NInt a, NInt b => Some (Z.compare a b)
  | NInt a, NFloat g => PyFloat.compare_Z a g
  | NFloat f, NInt b => option_map CompOpp (PyFloat.compare_Z b f)
  | NFloat f, NFloat g => SFcompare f g
  end.

(** [a < b] where a number is involved; the order of two strings is the
    lexicographic one.  The code compares against integer literals only, and
    the order of two containers is left out. *)
Definition lt (op : string) (a b : value) : outcome bool :=
  match to_number a, to_number b with
  | Some x, Some y => Ok (is_lt (compare_numbers x y))
  | _, _ =>
      match a, b with
      | VStr s, VStr t => Ok (String.ltb s t)
      | _, _ =>
          raise TypeError ("'" ++ op ++ "' not supported between instances of '" ++
                           (if String.eqb op "<" then type_name a else type_name b) ++
                           "' and '" ++
                           (if String.eqb op "<" then type_name b else type_name a) ++ "'")
      end
  end.

(** [min(a, b)]: [b] when [b < a], else [a]. *)
Definition min (a b : value) : outcome value :=
  bind (lt "<" b a) (fun c => Ok (if c then b else a)).

(** [max(a, b)]: [b] when [b > a], else [a]. *)
Definition max (a b : value) : outcome value :=
  bind (lt ">" a b) (fun c => Ok (if c then b else a)).

(** [format(v, '.2f')], what [f"{v:.2f}"] inserts. *)
Definition format_2f (v : value) : outcome string :=
  match to_number v with
  | Some n => bind (float_of_number n) (fun f => Ok (PyFloat.format_2f f))
  | None =>
      match v with
      | VStr _ => raise ValueError "Unknown format code 'f' for object of type 'str'"
      | _ => raise TypeError ("unsupported format string passed to " ++ type_name v ++
                              ".__format__")
      end
  end.

(** [l[-n:]] *)
Definition last_n {A : Type} (n : nat) (l : list A) : list A :=
  skipn (List.length l - n) l.

(** [v == s] for a text [s]: a value of another type equals no text. *)
Definition eq_text (v : value) (s : string) : bool :=
  match v with
  | VStr t => String.eqb t s
  | _ => false
  end.

(** [a += b]: numbers add, texts concatenate and a list is extended by
    whatever the right-hand side iterates over. *)
Definition iadd (a b : value) : outcome value :=
  match to_number a, to_number b with
  | Some (NInt x), Some (NInt y) => Ok (VInt (x + y))
  | Some x, Some y =>
      bind (float_of_number x) (fun fx =>
      bind (float_of_number y) (fun fy =>
      Ok (VFloat (PyFloat.add fx fy))))
  | _, _ =>
      match a, b with
      | VStr s, VStr t => Ok (VStr (s ++ t))
      | VStr _, _ =>
          raise TypeError ("can only concatenate str (not " ++ PyStr.dquote ++ type_name b ++
                           PyStr.dquote ++ ") to str")
      | VList l, _ => bind (iterate b) (fun m => Ok (VList (l ++ m)%list))
      | _, _ => unsupported "+=" a b
      end
  end.

End Py.

Import PyStr.

(** ** Control-flow helpers shared by the two front ends *)
Module Flow.
Import Py.

Declare Scope py_scope.
Delimit Scope py_scope with py.
Notation "x <- e ;; k" := (bind e (fun x => k))
  (at level 61, e at next level, right associativity) : py_scope.
Local Open Scope py_scope.

(** A [for] loop that updates an accumulator and stops at the first
    exception. *)
Fixpoint for_each {A S : Type} (xs : list A) (acc : S) (body : S -> A -> outcome S)
  : outcome S :=
  match xs with
  | [] => Ok acc
  | x :: tl => acc' <- body acc x ;; for_each tl acc' body
  end.

(** [enumerate(xs, start)] *)
Fixpoint enumerate {A : Type} (start : Z) (xs : list A) : list (Z * A) :=
  match xs with
  | [] => []
  | x :: tl => (start, x) :: enumerate (start + 1) tl
  end.

(** The agent: a black box whose one operation may raise. *)
Record agent := { invoke : value -> outcome value }.

(** What a run did to the collaborators. *)
Inductive event :=
| CreateAgent
| Invoke (initial_state : value).

(** The state handed to [agent.invoke]. *)
Definition initial_state (question : string) : value :=
  VDict [("messages", VList []);
         ("research_question", VStr question);
         ("research_plan", VList []);
         ("current_step", VInt 0);
         ("findings", VList []);
         ("final_answer", VStr "");
         ("iteration_count", VInt 0);
         ("hypotheses", VList []);
         ("multi_agent_analysis", VDict []);
         ("quality_assessment", VDict []);
         ("intelligence_insights", VDict [])].

(** The history record both front ends append. *)
Definition record_of (question : string) (result : value) (now_iso : string) (score : value)
  : value :=
  VDict [("question", VStr question);
         ("result", result);
         ("timestamp", VStr now_iso);
         ("quality_score", score)].

Definition research_record (question : string) (result : value) (now_iso : string)
  : outcome value :=
  qa <- get result "quality_assessment" (VDict []) ;;
  score <- get qa "overall_quality_score" (VStr "N/A") ;;
  Ok (record_of question result now_iso score).

End Flow.

(** ** Gradio front end, [src/ui/gradio_app.py] *)
Module Gradio.
Import Py Flow.
Local Open Scope py_scope.

(** [GradioResearchInterface]: the cached agent and the history list. *)
Record interface := {
  self_agent : option agent;
  research_history : list value
}.

(** The four texts [conduct_research] returns; the first is whatever the
    result holds under [final_answer]. *)
Definition outputs : Type := value * string * string * string.

(** Lines 82-89: the research process summary. *)
Definition process_summary (result : value) : outcome string :=
  research_plan <- get result "research_plan" (VList []) ;;
  findings <- get result "findings" (VList []) ;;
  let text := "## Research Process" ++ nl ++ nl in
  let text := text ++ "### Research Plan:" ++ nl in
  steps <- iterate research_plan ;;
  text <- for_each (enumerate 1 steps) text
            (fun text '(i, step) => Ok (text ++ PyStr.of_Z i ++ ". " ++ str step ++ nl)) ;;
  let text := text ++ nl ++ "### Findings Summary:" ++ nl in
  total <- len findings ;;
  let text := text ++ "- Total research steps completed: " ++ PyStr.of_Z total ++ nl in
  fs <- iterate findings ;;
  consulted <- for_each fs 0%Z
                 (fun n f =>
                    ext <- get f "external_research" VNone ;;
                    Ok (if truthy ext then (n + 1)%Z else n)) ;;
  Ok (text ++ "- External sources consulted: " ++ PyStr.of_Z consulted ++ nl).

(** Lines 92-110: the intelligence analysis summary. *)
Definition intelligence_summary (result : value) : outcome string :=
  let text := "## Intelligence Analysis" ++ nl ++ nl in
  multi_agent_analysis <- get result "multi_agent_analysis" (VDict []) ;;
  text <-
    (if truthy multi_agent_analysis then
       confidence_scores <- get multi_agent_analysis "confidence_scores" (VDict []) ;;
       let text := text ++ "### Multi-Agent Collaboration:" ++ nl in
       v <- get confidence_scores "researcher_avg" (VInt 0) ;;
       s <- format_2f v ;;
       let text := text ++ "- Researcher Confidence: " ++ s ++ nl in
       v <- get confidence_scores "critic_avg" (VInt 0) ;;
       s <- format_2f v ;;
       let text := text ++ "- Critic Confidence: " ++ s ++ nl in
       v <- get confidence_scores "synthesis_confidence" (VInt 0) ;;
       s <- format_2f v ;;
       Ok (text ++ "- Synthesizer Confidence: " ++ s ++ nl)
     else Ok text) ;;
  hypotheses <- get result "hypotheses" (VList []) ;;
  if truthy hypotheses then
    let text := text ++ nl ++ "### Generated Hypotheses:" ++ nl in
    hyps <- iterate hypotheses ;;
    for_each (enumerate 1 hyps) text
      (fun text '(i, hyp) =>
         v <- getitem hyp "statement" ;;
         let text := text ++ PyStr.of_Z i ++ ". **" ++ str v ++ "**" ++ nl in
         v <- getitem hyp "type" ;;
         let text := text ++ "   - Type: " ++ str v ++ nl in
         v <- getitem hyp "confidence" ;;
         s <- format_2f v ;;
         Ok (text ++ "   - Confidence: " ++ s ++ nl ++ nl))
  else Ok text.

(** Lines 113-127: the quality assessment summary. *)
Definition quality_summary (result : value) : outcome string :=
  quality_assessment <- get result "quality_assessment" (VDict []) ;;
  let text := "## Quality Assessment" ++ nl ++ nl in
  if truthy quality_assessment then
    v <- get quality_assessment "overall_quality_score" (VStr "N/A") ;;
    let text := text ++ "- **Overall Quality Score:** " ++ str v ++ "/10" ++ nl in
    v <- get quality_assessment "confidence_assessment" (VStr "N/A") ;;
    s <- format_2f v ;;
    let text := text ++ "- **Confidence Level:** " ++ s ++ nl in
    v <- get quality_assessment "total_findings" (VInt 0) ;;
    let text := text ++ "- **Total Findings:** " ++ str v ++ nl in
    v <- get quality_assessment "external_sources_used" (VInt 0) ;;
    let text := text ++ "- **External Sources Used:** " ++ str v ++ nl in
    v <- get quality_assessment "source_diversity" (VInt 0) ;;
    let text := text ++ "- **Source Diversity:** " ++ str v ++ nl in
    quality_indicators <- get quality_assessment "quality_indicators" (VDict []) ;;
    let text := text ++ nl ++ "### Quality Indicators:" ++ nl in
    indicators <- items quality_indicators ;;
    for_each indicators text
      (fun text '(indicator, status) =>
         let icon := if truthy status then "✅" else "❌" in
         Ok (text ++ icon ++ " " ++ PyStr.title (PyStr.replace "_" " " indicator) ++ nl))
  else Ok text.

(** [initialize_agent], lines 31-35: the agent is created once and kept. *)
Definition initialize_agent (create_agent : outcome agent) (self : interface)
  : outcome agent * interface * list event :=
  match self_agent self with
  | Some a => (Ok a, self, [])
  | None =>
      match create_agent with
      | Ok a => (Ok a, {| self_agent := Some a; research_history := research_history self |},
                 [CreateAgent])
      | Raise e => (Raise e, self, [CreateAgent])
      end
  end.

(** The body of the [try] block of [conduct_research], lines 45-129, after the
    agent is at hand. *)
Definition research_body (now_iso : string) (a : agent) (self : interface) (question : string)
  : outcome outputs * interface :=
  match invoke a (initial_state question) with
  | Raise e => (Raise e, self)
  | Ok result =>
      match research_record question result now_iso with
      | Raise e => (Raise e, self)
      | Ok record =>
          let self' := {| self_agent := self_agent self;
                          research_history := List.app (research_history self) [record] |} in
          (final_answer <- get result "final_answer" (VStr "No final answer generated") ;;
           process <- process_summary result ;;
           intelligence <- intelligence_summary result ;;
           quality <- quality_summary result ;;
           Ok (final_answer, process, intelligence, quality),
           self')
      end
  end.

(** [conduct_research], lines 37-133.  [create_agent] is the outcome of the
    imported factory and [now_iso] the reading of
    [datetime.now().isoformat()]. *)
Definition conduct_research (create_agent : outcome agent) (now_iso : string)
    (self : interface) (question : string)
  : outputs * interface * list event :=
  if PyStr.is_empty (PyStr.strip question) then
    ((VStr "Please enter a research question.", "", "", ""), self, [])
  else
    let '(made, self1, ev1) := initialize_agent create_agent self in
    let '(body, self2, ev2) :=
      match made with
      | Raise e => (Raise e, self1, [])
      | Ok a =>
          let '(r, s) := research_body now_iso a self1 question in
          (r, s, [Invoke (initial_state question)])
      end in
    match body with
    | Ok out => (out, self2, List.app ev1 ev2)
    | Raise e =>
        ((VStr ("Research failed: " ++ exn_text e), "", "", ""), self2, List.app ev1 ev2)
    end.

(** [get_research_history], lines 169-182. *)
Definition get_research_history (self : interface) : outcome string :=
  match research_history self with
  | [] => Ok "No research history available."
  | _ =>
      let text := "## Recent Research History" ++ nl ++ nl in
      for_each (enumerate 1 (last_n 5 (research_history self))) text
        (fun text '(i, research) =>
           let text := text ++ "### Research " ++ PyStr.of_Z i ++ nl in
           q <- getitem research "question" ;;
           let text := text ++ "- **Question:** " ++ str q ++ nl in
           s <- get research "quality_score" (VStr "N/A") ;;
           let text := text ++ "- **Quality Score:** " ++ str s ++ nl in
           t <- get research "timestamp" (VStr "Unknown") ;;
           Ok (text ++ "- **Timestamp:** " ++ str t ++ nl ++ nl))
  end.

Definition NO_RESULTS : string := "No research results to export.".

(** The fixed text around the sections of the exported report. *)
Definition report_head (now : string) : string :=
  "# AI Research Agent - Research Report" ++ nl ++
  nl ++
  "Generated on: " ++ now ++ nl ++
  nl ++
  "## Final Answer" ++ nl ++
  nl.

Definition report_foot : string :=
  nl ++
  nl ++
  "---" ++ nl ++
  nl ++
  "*This report was generated by the AI Research Agent - Phase 5 User Experience*" ++ nl.

(** [export_research_results], lines 184-210.  [now] is the text of
    [datetime.now().strftime('%Y-%m-%d %H:%M:%S')]. *)
Definition export_research_results
    (now final_answer process_summary intelligence_summary quality_summary : string)
  : string :=
  if is_empty final_answer
     || startswith final_answer "Please enter"
     || startswith final_answer "Research failed"
  then NO_RESULTS
  else
    report_head now ++
    final_answer ++ (nl ++ nl) ++
    process_summary ++ (nl ++ nl) ++
    intelligence_summary ++ (nl ++ nl) ++
    quality_summary ++ report_foot.

(** [get_memory_statistics], lines 150-167.  [stats] is the outcome of
    [self.memory_manager.hierarchical_memory.get_memory_statistics()]. *)
Definition get_memory_statistics (stats : outcome value) : string :=
  match
    (stats <- stats ;;
     let stats_text := "## Memory System Statistics" ++ nl ++ nl in
     v <- get stats "short_term_count" (VInt 0) ;;
     let stats_text := stats_text ++ "- **Short-term Memory:** " ++ str v ++ " items" ++ nl in
     v <- get stats "long_term_count" (VInt 0) ;;
     let stats_text := stats_text ++ "- **Long-term Memory:** " ++ str v ++ " items" ++ nl in
     v <- get stats "episodic_count" (VInt 0) ;;
     let stats_text := stats_text ++ "- **Episodic Memory:** " ++ str v ++ " episodes" ++ nl in
     v <- get stats "knowledge_graph_nodes" (VInt 0) ;;
     let stats_text := stats_text ++ "- **Knowledge Graph Nodes:** " ++ str v ++ nl in
     v <- get stats "knowledge_graph_edges" (VInt 0) ;;
     let stats_text := stats_text ++ "- **Knowledge Graph Edges:** " ++ str v ++ nl in
     v <- get stats "concepts_tracked" (VInt 0) ;;
     let stats_text := stats_text ++ "- **Concepts Tracked:** " ++ str v ++ nl in
     v <- get stats "citations_tracked" (VInt 0) ;;
     Ok (stats_text ++ "- **Citations Tracked:** " ++ str v ++ nl))
  with
  | Ok stats_text => stats_text
  | Raise e => "Error retrieving memory statistics: " ++ exn_text e
  end.

End Gradio.

(** ** The [json] module: [json.dumps(v, indent=2, default=str)] and
    [json.loads] *)
Module Json.
Import Py.

Local Open Scope Z_scope.

Definition code (c : ascii) : Z := Z.of_nat (nat_of_ascii c).
Definition chr (n : Z) : ascii := ascii_of_nat (Z.to_nat n).

Definition is_continuation (n : Z) : bool := (128 <=? n) && (n <=? 191).

(** The character at the head of a UTF-8 text: its code point and the number
    of bytes it takes.  Overlong forms, surrogates and values past U+10FFFF
    are not characters. *)
Definition scalar_at (s : string) : option (Z * nat) :=
  match s with
  | EmptyString => None
  | String b0 s1 =>
      let n0 := code b0 in
      if n0 <? 128 then Some (n0, 1%nat)
      else
        match s1 with
        | EmptyString => None
        | String b1 s2 =>
            let n1 := code b1 in
            if (194 <=? n0) && (n0 <=? 223) then
              if is_continuation n1 then Some ((n0 - 192) * 64 + (n1 - 128), 2%nat)
              else None
            else
              match s2 with
              | EmptyString => None
              | String b2 s3 =>
                  let n2 := code b2 in
                  if (224 <=? n0) && (n0 <=? 239) then
                    let cp := (n0 - 224) * 4096 + (n1 - 128) * 64 + (n2 - 128) in
                    if is_continuation n1 && is_continuation n2 && (2048 <=? cp)
                       && negb ((55296 <=? cp) && (cp <=? 57343))
                    then Some (cp, 3%nat) else None
                  else
                    match s3 with
                    | EmptyString => None
                    | String b3 _ =>
                        let n3 := code b3 in
                        let cp := (n0 - 240) * 262144 + (n1 - 128) * 4096
                                  + (n2 - 128) * 64 + (n3 - 128) in
                        if (240 <=? n0) && (n0 <=? 244)
                           && is_continuation n1 && is_continuation n2
                           && is_continuation n3
                           && (65536 <=? cp) && (cp <=? 1114111)
                        then Some (cp, 4%nat) else None
                    end
              end
        end
  end.

(** The code points of a text; [skip] counts the bytes of the current
    character still to pass.  A byte that starts no character stands for
    itself. *)
Fixpoint decode_go (skip : nat) (s : string) : list Z :=
  match s with
  | EmptyString => []
  | String b s' =>
      match skip with
      | S k => decode_go k s'
      | O =>
          match scalar_at s with
          | Some (cp, len) => cp :: decode_go (len - 1) s'
          | None => code b :: decode_go 0 s'
          end
      end
  end.

Definition decode (s : string) : list Z := decode_go 0 s.

(** Well-formed UTF-8. *)
Fixpoint valid_go (skip : nat) (s : string) : bool :=
  match s with
  | EmptyString => Nat.eqb skip 0
  | String b s' =>
      match skip with
      | S k => valid_go k s'
      | O =>
          match scalar_at s with
          | Some (_, len) => valid_go (len - 1) s'
          | None => false
          end
      end
  end.

Definition valid_utf8 (s : string) : bool := valid_go 0 s.

Definition byte (n : Z) : string := String (chr n) "".

(** A Unicode scalar value: a code point that is not a surrogate. *)
Definition scalar (cp : Z) : Prop :=
  0 <= cp <= 1114111 /\ ~ (55296 <= cp <= 57343).

(** The UTF-8 bytes of a code point. *)
Definition encode_cp (cp : Z) : string :=
  if cp <? 128 then byte cp
  else if cp <? 2048 then
    byte (192 + cp / 64) ++ byte (128 + cp mod 64)
  else if cp <? 65536 then
    byte (224 + cp / 4096) ++ byte (128 + (cp / 64) mod 64) ++ byte (128 + cp mod 64)
  else
    byte (240 + cp / 262144) ++ byte (128 + (cp / 4096) mod 64)
    ++ byte (128 + (cp / 64) mod 64) ++ byte (128 + cp mod 64).

Definition hex_digit (d : Z) : string :=
  String.substring (Z.to_nat d) 1 "0123456789abcdef".

(** ['{0:04x}'.format(n)] *)
Definition hex4 (n : Z) : string :=
  hex_digit (n / 4096) ++ hex_digit ((n / 256) mod 16)
  ++ hex_digit ((n / 16) mod 16) ++ hex_digit (n mod 16).

(** What [encode_basestring_ascii] writes for one character. *)
Definition escape_cp (cp : Z) : string :=
  if cp =? 34 then "\" ++ PyStr.dquote
  else if cp =? 92 then "\\"
  else if cp =? 10 then "\n"
  else if cp =? 13 then "\r"
  else if cp =? 9 then "\t"
  else if cp =? 8 then "\b"
  else if cp =? 12 then "\f"
  else if (32 <=? cp) && (cp <=? 126) then byte cp
  else if cp <? 65536 then "\u" ++ hex4 cp
  else "\u" ++ hex4 (55296 + (cp - 65536) / 1024)
       ++ "\u" ++ hex4 (56320 + (cp - 65536) mod 1024).

Definition encode_basestring_ascii (s : string) : string :=
  PyStr.dquote ++ PyStr.cat (map escape_cp (decode s)) ++ PyStr.dquote.

(** [floatstr]: the float's [repr], with the three JavaScript names for the
    values that have none. *)
Definition floatstr (f : spec_float) : string :=
  match f with
  | S754_nan => "NaN"
  | S754_infinity false => "Infinity"
  | S754_infinity true => "-Infinity"
  | _ => PyFloat.repr f
  end.

Definition newline_indent (level : nat) : string :=
  PyStr.nl ++ PyStr.repeat " " (2 * level).

(** The encoder at nesting depth [level], with [indent=2] and [default=str]:
    an object the encoder does not know is replaced by its [str()]. *)
Fixpoint encode (level : nat) (v : value) : string :=
  match v with
  | VNone => "null"
  | VBool b => if b then "true" else "false"
  | VInt z => PyStr.of_Z z
  | VFloat f => floatstr f
  | VStr s => encode_basestring_ascii s
  | VList l =>
      match l with
      | [] => "[]"
      | _ :: _ =>
          "[" ++ newline_indent (S level) ++
          PyStr.join ("," ++ newline_indent (S level)) (map (encode (S level)) l) ++
          newline_indent level ++ "]"
      end
  | VDict d =>
      match d with
      | [] => "{}"
      | _ :: _ =>
          "{" ++ newline_indent (S level) ++
          PyStr.join ("," ++ newline_indent (S level))
            (map (fun kv => encode_basestring_ascii (fst kv) ++ ": " ++
                            encode (S level) (snd kv)) d) ++
          newline_indent level ++ "}"
      end
  | VObj o => encode_basestring_ascii (ob_str o)
  end.

(** [json.dumps(v, indent=2, default=str)] *)
Definition dumps (v : value) : string := encode 0 v.


(** *** Reading JSON text *)

Definition is_ws (c : ascii) : bool :=
  Ascii.eqb c " " || Ascii.eqb c "009" || Ascii.eqb c "010" || Ascii.eqb c "013".

Fixpoint skip_ws (s : string) : string :=
  match s with
  | EmptyString => EmptyString
  | String c s' => if is_ws c then skip_ws s' else s
  end.

Definition is_digit (c : ascii) : bool := (48 <=? code c) && (code c <=? 57).

Definition is_number_char (c : ascii) : bool :=
  is_digit c || Ascii.eqb c "-" || Ascii.eqb c "+" || Ascii.eqb c "."
  || Ascii.eqb c "e" || Ascii.eqb c "E".

(** A text that begins a value: its first character is no blank and closes
    nothing. *)
Definition begins_value (s : string) : Prop :=
  exists c t, s = String c t /\ is_ws c = false
              /\ Ascii.eqb c "]" = false /\ Ascii.eqb c "}" = false.

(** What may follow a value in a text: its end, or a character no number
    contains. *)
Definition ends_number (rest : string) : Prop :=
  match rest with
  | EmptyString => True
  | String c _ => is_number_char c = false
  end.

(** The longest prefix whose characters satisfy [p], and what follows it. *)
Fixpoint span (p : ascii -> bool) (s : string) : string * string :=
  match s with
  | EmptyString => (EmptyString, EmptyString)
  | String c s' =>
      if p c then let '(a, b) := span p s' in (String c a, b)
      else (EmptyString, s)
  end.

Definition hex_value (c : ascii) : option Z :=
  let n := code c in
  if (48 <=? n) && (n <=? 57) then Some (n - 48)
  else if (97 <=? n) && (n <=? 102) then Some (n - 87)
  else if (65 <=? n) && (n <=? 70) then Some (n - 55)
  else None.

Definition is_high (u : Z) : bool := (55296 <=? u) && (u <=? 56319).
Definition is_low (u : Z) : bool := (56320 <=? u) && (u <=? 57343).

(** Where the string scanner stands: in plain text, after a backslash, inside
    the four digits of a [\u] escape, or after a high surrogate that a low
    one may complete. *)
Inductive scan_state :=
| Plain
| Escape (high : option Z)
| Hex (high : option Z) (todo : nat) (acc : Z)
| High (h : Z).

Definition simple_escape (c : ascii) : option string :=
  if Ascii.eqb c "034" then Some PyStr.dquote
  else if Ascii.eqb c "\" then Some "\"
  else if Ascii.eqb c "/" then Some "/"
  else if Ascii.eqb c "b" then Some (byte 8)
  else if Ascii.eqb c "f" then Some (byte 12)
  else if Ascii.eqb c "n" then Some (byte 10)
  else if Ascii.eqb c "r" then Some (byte 13)
  else if Ascii.eqb c "t" then Some (byte 9)
  else None.

Definition pending (high : option Z) : string :=
  match high with
  | Some h => encode_cp h
  | None => EmptyString
  end.

(** A [\u] escape of value [u] is complete. *)
Definition finish_unit (high : option Z) (u : Z) (out : string) : string * scan_state :=
  match high with
  | Some h =>
      if is_low u
      then (out ++ encode_cp (65536 + (h - 55296) * 1024 + (u - 56320)), Plain)
      else if is_high u then (out ++ encode_cp h, High u)
      else (out ++ encode_cp h ++ encode_cp u, Plain)
  | None =>
      if is_high u then (out, High u) else (out ++ encode_cp u, Plain)
  end.

(** [scanstring], strict: the text after an opening quote up to the closing
    one, with its escapes resolved, and what follows. *)
Fixpoint scan (st : scan_state) (out : string) (s : string) : option (string * string) :=
  match s with
  | EmptyString => None
  | String c s' =>
      match st with
      | Plain =>
          if Ascii.eqb c "034" then Some (out, s')
          else if Ascii.eqb c "\" then scan (Escape None) out s'
          else if code c <? 32 then None
          else scan Plain (out ++ String c "") s'
      | High h =>
          if Ascii.eqb c "034" then Some (out ++ encode_cp h, s')
          else if Ascii.eqb c "\" then scan (Escape (Some h)) out s'
          else if code c <? 32 then None
          else scan Plain (out ++ encode_cp h ++ String c "") s'
      | Escape high =>
          if Ascii.eqb c "u" then scan (Hex high 4 0) out s'
          else
            match simple_escape c with
            | Some t => scan Plain (out ++ pending high ++ t) s'
            | None => None
            end
      | Hex high todo acc =>
          match hex_value c with
          | None => None
          | Some d =>
              match todo with
              | O => None
              | S O => let '(out', st') := finish_unit high (acc * 16 + d) out in
                       scan st' out' s'
              | S k => scan (Hex high k (acc * 16 + d)) out s'
              end
          end
      end
  end.

Fixpoint digits_value_go (acc : Z) (s : string) : Z :=
  match s with
  | EmptyString => acc
  | String c s' => digits_value_go (acc * 10 + (code c - 48)) s'
  end.

Definition digits_value (s : string) : Z := digits_value_go 0 s.

(** The integer part of a number: [0] or a digit run that does not start
    with [0]. *)
Definition int_part_ok (ip : string) : bool :=
  match ip with
  | EmptyString => false
  | String c rest => negb (Ascii.eqb c "0") || PyStr.is_empty rest
  end.

(** The exponent part, when there is one: [e] or [E], a sign, digits. *)
Definition exponent_of (s : string) : option Z :=
  match s with
  | EmptyString => Some 0
  | String c s1 =>
      if Ascii.eqb c "e" || Ascii.eqb c "E" then
        let '(neg, s2) :=
          match s1 with
          | String "-" r => (true, r)
          | String "+" r => (false, r)
          | _ => (false, s1)
          end in
        let '(ed, rest) := span is_digit s2 in
        if PyStr.is_empty ed || negb (PyStr.is_empty rest) then None
        else Some (if neg then - digits_value ed else digits_value ed)
      else None
  end.

(** The value of a number token: an [int] when it has neither fraction nor
    exponent, else the [float] nearest to the decimal. *)
Definition number_of_token (t : string) : option value :=
  let '(neg, body) :=
    match t with
    | String "-" b => (true, b)
    | _ => (false, t)
    end in
  let '(ip, r1) := span is_digit body in
  if negb (int_part_ok ip) then None
  else
    match r1 with
    | EmptyString => option_map (fun d => VInt (Z.of_int d)) (NilZero.int_of_string t)
    | String c r =>
        let '(fp, r2) :=
          if Ascii.eqb c "." then span is_digit r else (EmptyString, r1) in
        if Ascii.eqb c "." && PyStr.is_empty fp then None
        else
          match exponent_of r2 with
          | None => None
          | Some x =>
              Some (VFloat (PyFloat.of_decimal neg (digits_value (ip ++ fp))
                              (x - Z.of_nat (String.length fp))))
          end
    end.

Fixpoint drop (n : nat) (s : string) : string :=
  match n, s with
  | S k, String _ s' => drop k s'
  | _, _ => s
  end.

(** [d[k] = v] on a dict under construction. *)
Fixpoint dict_set (d : list (string * value)) (k : string) (v : value)
  : list (string * value) :=
  match d with
  | [] => [(k, v)]
  | (k', v') :: tl =>
      if String.eqb k k' then (k, v) :: tl else (k', v') :: dict_set tl k v
  end.

(** The items of an array after its first item is known to exist. *)
Fixpoint parse_items (parse : string -> option (value * string)) (fuel : nat)
    (s : string) (acc : list value) : option (value * string) :=
  match fuel with
  | O => None
  | S fuel' =>
      match parse s with
      | None => None
      | Some (v, r) =>
          match skip_ws r with
          | EmptyString => None
          | String c r' =>
              if Ascii.eqb c "," then parse_items parse fuel' (skip_ws r') (acc ++ [v])
              else if Ascii.eqb c "]" then Some (VList (acc ++ [v]), r')
              else None
          end
      end
  end.

(** One member of an object: a key in quotes, a colon, a value. *)
Definition parse_member (parse : string -> option (value * string)) (s : string)
  : option (string * value * string) :=
  match s with
  | EmptyString => None
  | String q s1 =>
      if Ascii.eqb q "034" then
        match scan Plain "" s1 with
        | None => None
        | Some (k, r) =>
            match skip_ws r with
            | EmptyString => None
            | String c r1 =>
                if Ascii.eqb c ":" then
                  match parse (skip_ws r1) with
                  | None => None
                  | Some (v, r2) => Some (k, v, r2)
                  end
                else None
            end
        end
      else None
  end.

(** The members of an object after its first key is known to exist. *)
Fixpoint parse_members (parse : string -> option (value * string)) (fuel : nat)
    (s : string) (acc : list (string * value)) : option (value * string) :=
  match fuel with
  | O => None
  | S fuel' =>
      match parse_member parse s with
      | None => None
      | Some (k, v, r) =>
          match skip_ws r with
          | EmptyString => None
          | String c r' =>
              if Ascii.eqb c ","
              then parse_members parse fuel' (skip_ws r') (dict_set acc k v)
              else if Ascii.eqb c "}" then Some (VDict (dict_set acc k v), r')
              else None
          end
      end
  end.

(** An array or object with nothing between its brackets. *)
Definition closes (bracket : ascii) (s : string) : option string :=
  match s with
  | EmptyString => None
  | String c r => if Ascii.eqb c bracket then Some r else None
  end.

Definition literal (name : string) (v : value) (s : string) : option (value * string) :=
  if String.prefix name s then Some (v, drop (String.length name) s) else None.

(** One JSON value at the head of [s], and what follows it. *)
Fixpoint parse_value (fuel : nat) (s : string) : option (value * string) :=
  match fuel with
  | O => None
  | S fuel' =>
      match s with
      | EmptyString => None
      | String c s1 =>
          if Ascii.eqb c "034" then
            match scan Plain "" s1 with
            | Some (t, r) => Some (VStr t, r)
            | None => None
            end
          else if Ascii.eqb c "[" then
            match closes "]" (skip_ws s1) with
            | Some r => Some (VList [], r)
            | None => parse_items (parse_value fuel') fuel' (skip_ws s1) []
            end
          else if Ascii.eqb c "{" then
            match closes "}" (skip_ws s1) with
            | Some r => Some (VDict [], r)
            | None => parse_members (parse_value fuel') fuel' (skip_ws s1) []
            end
          else if Ascii.eqb c "n" then literal "null" VNone s
          else if Ascii.eqb c "t" then literal "true" (VBool true) s
          else if Ascii.eqb c "f" then literal "false" (VBool false) s
          else if Ascii.eqb c "N" then literal "NaN" (VFloat S754_nan) s
          else if Ascii.eqb c "I" then literal "Infinity" (VFloat (S754_infinity false)) s
          else if String.prefix "-Infinity" s
               then literal "-Infinity" (VFloat (S754_infinity true)) s
          else
            let '(t, r) := span is_number_char s in
            match number_of_token t with
            | Some v => Some (v, r)
            | None => None
            end
      end
  end.

(** [json.loads(text)]; [None] stands for [JSONDecodeError]. *)
Definition loads (text : string) : option value :=
  match parse_value (S (String.length text)) (skip_ws text) with
  | Some (v, r) => if PyStr.is_empty (skip_ws r) then Some v else None
  | None => None
  end.

(** What the text of a value stands for: a foreign object has become its
    [str()]. *)
Fixpoint document (v : value) : value :=
  match v with
  | VList l => VList (map document l)
  | VDict d => VDict (map (fun kv => (fst kv, document (snd kv))) d)
  | VObj o => VStr (ob_str o)
  | _ => v
  end.

Definition float_eqb (f g : spec_float) : bool :=
  match f, g with
  | S754_zero a, S754_zero b => Bool.eqb a b
  | S754_infinity a, S754_infinity b => Bool.eqb a b
  | S754_nan, S754_nan => true
  | S754_finite a m e, S754_finite b n x => Bool.eqb a b && Pos.eqb m n && Z.eqb e x
  | _, _ => false
  end.

Fixpoint all_chars (p : ascii -> bool) (s : string) : bool :=
  match s with
  | EmptyString => true
  | String c s' => p c && all_chars p s'
  end.

(** The float is read back from its [repr]. *)
Definition reads_back (f : spec_float) : bool :=
  match f with
  | S754_nan | S754_infinity _ => true
  | _ =>
      all_chars is_number_char (PyFloat.repr f) &&
      match number_of_token (PyFloat.repr f) with
      | Some (VFloat g) => float_eqb g f
      | _ => false
      end
  end.

Fixpoint distinct (keys : list string) : bool :=
  match keys with
  | [] => true
  | k :: tl => negb (existsb (String.eqb k) tl) && distinct tl
  end.

(** A well-formed payload: texts are UTF-8, the keys of a dict are distinct,
    and floats are read back from their [repr]. *)
Fixpoint well_formed (v : value) : bool :=
  match v with
  | VNone | VBool _ | VInt _ => true
  | VFloat f => reads_back f
  | VStr s => valid_utf8 s
  | VList l => forallb well_formed l
  | VDict d =>
      distinct (map fst d) &&
      forallb (fun kv => valid_utf8 (fst kv) && well_formed (snd kv)) d
  | VObj o => valid_utf8 (ob_str o)
  end.

(** No foreign object anywhere in the value. *)
Fixpoint plain (v : value) : bool :=
  match v with
  | VList l => forallb plain l
  | VDict d => forallb (fun kv => plain (snd kv)) d
  | VObj _ => false
  | _ => true
  end.

(** A payload whose text, at any depth and before any text a number cannot
    run into, is read back as its document. *)
Definition reads_back_at (v : value) : Prop :=
  forall level fuel rest,
    (String.length (encode level v) < fuel)%nat ->
    ends_number rest ->
    parse_value fuel (encode level v ++ rest) = Some (document v, rest).

End Json.

(** ** Streamlit front end, [src/ui/streamlit_app.py] *)
Module Streamlit.
Import Py Flow.
Local Open Scope py_scope.

(** [st.session_state]: the history list and the record on display. *)
Record session_state := {
  research_history : list value;
  current_research : option value
}.

(** What a script run puts on the page.  [ResultsPage result question]
    records the call [render_research_results(result, question)], not what
    that call shows: its tabs are modelled in [Page]. *)
Inductive widget :=
| Info (text : string)
| Error (text : string)
| Expander (label : string) (lines : list string)
| ResultsPage (result : value) (question : string).

(** [s[:n]] *)
Definition slice_to (n : nat) (v : value) : outcome value :=
  match v with
  | VStr s => Ok (VStr (PyStr.take n s))
  | VList l => Ok (VList (firstn n l))
  | _ => raise TypeError ("'" ++ type_name v ++ "' object is not subscriptable")
  end.

(** The history part of [render_sidebar], lines 139-147. *)
Definition render_history (st : session_state) : outcome (list widget) :=
  match research_history st with
  | [] => Ok [Info "No research history yet"]
  | _ =>
      let total := Z.of_nat (List.length (research_history st)) in
      for_each (enumerate 0 (last_n 5 (research_history st))) []
        (fun shown '(i, research) =>
           q <- getitem research "question" ;;
           q <- slice_to 100 q ;;
           s <- get research "quality_score" (VStr "N/A") ;;
           t <- get research "timestamp" (VStr "Unknown") ;;
           Ok (List.app shown
                 [Expander ("Research " ++ PyStr.of_Z (total - i))
                           ["**Question:** " ++ str q ++ "...";
                            "**Quality Score:** " ++ str s;
                            "**Date:** " ++ str t]]))
  end.

(** [run_research_with_progress] with [execute_research_with_updates],
    lines 218-331: the progress widgets aside, one agent is created and invoked
    once, and any exception becomes an error box and [None]. *)
Definition run_research_with_progress (create_agent : outcome agent) (question : string)
  : value * list widget * list event :=
  match create_agent with
  | Raise e => (VNone, [Error ("Research failed: " ++ exn_text e)], [CreateAgent])
  | Ok a =>
      match invoke a (initial_state question) with
      | Raise e => (VNone, [Error ("Research failed: " ++ exn_text e)],
                    [CreateAgent; Invoke (initial_state question)])
      | Ok result => (result, [], [CreateAgent; Invoke (initial_state question)])
      end
  end.

(** Lines 817-820 of [run]: the record on display is handed to
    [render_research_results] again.  The outcome is that of the script up to
    this call; what the call itself does, or raises, is not part of it. *)
Definition show_current (st : session_state)
  : outcome unit * session_state * list widget * list event :=
  match current_research st with
  | Some current =>
      match (r <- getitem current "result" ;; q <- getitem current "question" ;; Ok (r, q)) with
      | Ok (r, q) => (Ok tt, st, [ResultsPage r (str q)], [])
      | Raise e => (Raise e, st, [], [])
      end
  | None => (Ok tt, st, [], [])
  end.

(** [run], lines 786-820, from the input widgets on: [research_question] is
    the text area and [start_research] the button.  An exception outside the
    [try] of [run_research_with_progress] ends the script run.  The session
    is updated (lines 807-811) before [render_research_results] is called
    (line 814); the outcome is that of the script up to this call, and what
    the call itself does, or raises, is not part of it. *)
Definition run (create_agent : outcome agent) (now_iso : string) (st : session_state)
    (research_question : string) (start_research : bool)
  : outcome unit * session_state * list widget * list event :=
  if start_research && negb (PyStr.is_empty (PyStr.strip research_question)) then
    let '(result, shown, events) := run_research_with_progress create_agent research_question in
    if truthy result then
      match research_record research_question result now_iso with
      | Raise e => (Raise e, st, shown, events)
      | Ok record =>
          (Ok tt,
           {| research_history := List.app (research_history st) [record];
              current_research := Some record |},
           List.app shown [ResultsPage result research_question], events)
      end
    else (Ok tt, st, shown, events)
  else show_current st.

(** [create_quality_radar_chart], lines 587-603: the five metrics of the
    chart, or nothing when there is no assessment. *)
Definition create_quality_radar_chart (result : value)
  : outcome (option (list (string * value))) :=
  quality_assessment <- get result "quality_assessment" (VDict []) ;;
  if negb (truthy quality_assessment) then Ok None
  else
    v <- get quality_assessment "total_findings" (VInt 0) ;;
    v <- truediv v (VInt 5) ;;
    v <- mul v (VInt 10) ;;
    completeness <- min v (VInt 10) ;;
    v <- get quality_assessment "source_diversity" (VInt 0) ;;
    v <- truediv v (VInt 4) ;;
    v <- mul v (VInt 10) ;;
    source_diversity <- min v (VInt 10) ;;
    used <- get quality_assessment "external_sources_used" (VInt 0) ;;
    total <- get quality_assessment "total_findings" (VInt 1) ;;
    divisor <- max total (VInt 1) ;;
    v <- truediv used divisor ;;
    external_validation <- mul v (VInt 10) ;;
    v <- get quality_assessment "confidence_assessment" (VInt 0) ;;
    confidence <- mul v (VInt 10) ;;
    overall <- get quality_assessment "overall_quality_score" (VInt 0) ;;
    Ok (Some [("Completeness", completeness);
              ("Source Diversity", source_diversity);
              ("External Validation", external_validation);
              ("Confidence", confidence);
              ("Overall Quality", overall)]).

(** [needle in v] for a string [needle]. *)
Definition contains_op (needle : string) (v : value) : outcome bool :=
  match v with
  | VStr s => Ok (PyStr.contains needle s)
  | VList l => Ok (existsb (fun x => match x with VStr s => String.eqb s needle | _ => false end) l)
  | VDict kvs => Ok (match lookup needle kvs with Some _ => true | None => false end)
  | _ => raise TypeError ("argument of type '" ++ type_name v ++ "' is not iterable")
  end.

(** [v.split(sep)] *)
Definition split_method (v : value) (sep : string) : outcome (list string) :=
  match v with
  | VStr s => Ok (PyStr.split sep s)
  | _ => raise AttributeError ("'" ++ type_name v ++ "' object has no attribute 'split'")
  end.

(** [l[i]] *)
Definition index (l : list string) (i : nat) : outcome string :=
  match nth_error l i with
  | Some x => Ok x
  | None => raise (OtherException "IndexError") "list index out of range"
  end.

(** Lines 746-749: the text between the two markers of an analysis. *)
Definition key_findings (analysis : value) : outcome (option string) :=
  found <- contains_op "KEY_FINDINGS:" analysis ;;
  if found then
    pieces <- split_method analysis "KEY_FINDINGS:" ;;
    after <- index pieces 1 ;;
    before <- index (PyStr.split "NEW_CONCEPTS:" after) 0 ;;
    Ok (Some (PyStr.strip before))
  else Ok None.

(** Lines 744-749: the block of one finding in the report. *)
Definition finding_block (report : string) (finding : value) : outcome string :=
  step <- getitem finding "step" ;;
  step <- add step (VInt 1) ;;
  description <- getitem finding "step_description" ;;
  let report := report ++ nl ++ "#### Step " ++ str step ++ ": " ++ str description ++ nl in
  analysis <- get finding "analysis" (VStr "") ;;
  extracted <- key_findings analysis ;;
  match extracted with
  | Some text => Ok (report ++ text ++ nl)
  | None => Ok report
  end.

(** [generate_markdown_report], lines 722-762.  [now] is the text of
    [datetime.now().strftime('%Y-%m-%d %H:%M:%S')]. *)
Definition generate_markdown_report (now : string) (result : value) (question : string)
  : outcome string :=
  final_answer <- get result "final_answer" (VStr "No final answer generated") ;;
  let report :=
    "# Research Report" ++ nl ++
    nl ++
    "## Research Question" ++ nl ++
    question ++ nl ++
    nl ++
    "## Final Answer" ++ nl ++
    str final_answer ++ nl ++
    nl ++
    "## Research Process" ++ nl in
  research_plan <- get result "research_plan" (VList []) ;;
  report <-
    (if truthy research_plan then
       let report := report ++ nl ++ "### Research Plan" ++ nl in
       steps <- iterate research_plan ;;
       for_each (enumerate 1 steps) report
         (fun report '(i, step) => Ok (report ++ PyStr.of_Z i ++ ". " ++ str step ++ nl))
     else Ok report) ;;
  findings <- get result "findings" (VList []) ;;
  report <-
    (if truthy findings then
       let report := report ++ nl ++ "### Key Findings" ++ nl in
       fs <- iterate findings ;;
       for_each fs report finding_block
     else Ok report) ;;
  quality_assessment <- get result "quality_assessment" (VDict []) ;;
  report <-
    (if truthy quality_assessment then
       let report := report ++ nl ++ "## Quality Assessment" ++ nl in
       v <- get quality_assessment "overall_quality_score" (VStr "N/A") ;;
       let report := report ++ "- Overall Quality Score: " ++ str v ++ "/10" ++ nl in
       v <- get quality_assessment "confidence_assessment" (VStr "N/A") ;;
       let report := report ++ "- Confidence Level: " ++ str v ++ nl in
       v <- get quality_assessment "total_findings" (VInt 0) ;;
       let report := report ++ "- Total Findings: " ++ str v ++ nl in
       v <- get quality_assessment "external_sources_used" (VInt 0) ;;
       Ok (report ++ "- External Sources Used: " ++ str v ++ nl)
     else Ok report) ;;
  Ok (report ++ nl ++ "---" ++ nl ++ "*Generated by AI Research Agent on " ++ now ++ "*" ++ nl).

(** What [st.download_button] is given. *)
Record download := {
  label : string;
  data : string;
  file_name : string;
  mime : string
}.

(** [export_as_json], lines 702-710; the preview at line 691 shows the same
    text.  [stamp] is the text of [datetime.now().strftime('%Y%m%d_%H%M%S')];
    the question is not used. *)
Definition export_as_json (stamp : string) (result : value) (question : string) : download :=
  let json_str := Json.dumps result in
  {| label := "Download JSON";
     data := json_str;
     file_name := "research_results_" ++ stamp ++ ".json";
     mime := "application/json" |}.

(** The overview metrics of [render_research_results], lines 339-362: each
    label with what [st.metric] is given. *)
Definition research_overview (result : value) : outcome (list (string * value)) :=
  findings <- get result "findings" (VList []) ;;
  research_steps <- len findings ;;
  quality_assessment <- get result "quality_assessment" (VDict []) ;;
  quality_score <- get quality_assessment "overall_quality_score" (VStr "N/A") ;;
  let quality :=
    if negb (eq_text quality_score "N/A") then str quality_score ++ "/10" else "N/A" in
  hypotheses <- get result "hypotheses" (VList []) ;;
  hypotheses_count <- len hypotheses ;;
  quality_assessment <- get result "quality_assessment" (VDict []) ;;
  confidence <- get quality_assessment "confidence_assessment" (VStr "N/A") ;;
  shown <- (if negb (eq_text confidence "N/A") then format_2f confidence else Ok "N/A") ;;
  Ok [("Research Steps", VInt research_steps);
      ("Quality Score", VStr quality);
      ("Hypotheses", VInt hypotheses_count);
      ("Confidence", VStr shown)].

(** What [go.Scatter] is given by [create_research_timeline]. *)
Record timeline := {
  tl_x : list value;
  tl_y : list value;
  tl_size : list value;
  tl_color : list value;
  tl_text : list value
}.

(** [create_research_timeline], lines 537-576: the series of the chart, or
    nothing when there is no finding. *)
Definition create_research_timeline (result : value) : outcome (option timeline) :=
  findings <- get result "findings" (VList []) ;;
  if negb (truthy findings) then Ok None
  else
    fs <- iterate findings ;;
    timeline_data <-
      for_each fs []
        (fun timeline_data finding =>
           step <- getitem finding "step" ;;
           step <- add step (VInt 1) ;;
           description <- getitem finding "step_description" ;;
           sources_used <- get finding "sources_used" (VDict []) ;;
           sources <- get sources_used "external_sources" (VInt 0) ;;
           Ok (List.app timeline_data [(step, description, sources)])) ;;
    let steps := map (fun item => fst (fst item)) timeline_data in
    descriptions <-
      for_each timeline_data []
        (fun descriptions item =>
           d <- slice_to 50 (snd (fst item)) ;;
           d <- add d (VStr "...") ;;
           Ok (List.app descriptions [d])) ;;
    let sources := map (fun item => snd item) timeline_data in
    sizes <-
      for_each sources []
        (fun sizes s =>
           v <- mul s (VInt 10) ;;
           v <- add (VInt 20) v ;;
           Ok (List.app sizes [v])) ;;
    Ok (Some {| tl_x := steps;
                tl_y := List.repeat (VInt 1) (List.length steps);
                tl_size := sizes;
                tl_color := sources;
                tl_text := descriptions |}).

(** [create_source_distribution_chart], lines 627-654: the labels and values
    of the pie chart, or nothing when there is no finding. *)
Definition create_source_distribution_chart (result : value)
  : outcome (option (list (string * value))) :=
  findings <- get result "findings" (VList []) ;;
  if negb (truthy findings) then Ok None
  else
    fs <- iterate findings ;;
    source_totals <-
      for_each fs (VInt 0, VInt 0, VInt 0)
        (fun source_totals finding =>
           let '(basic, advanced, external) := source_totals in
           sources_used <- get finding "sources_used" (VDict []) ;;
           v <- get sources_used "memory_basic" (VInt 0) ;;
           basic <- iadd basic v ;;
           v <- get sources_used "memory_advanced" (VInt 0) ;;
           advanced <- iadd advanced v ;;
           v <- get sources_used "external_sources" (VInt 0) ;;
           external <- iadd external v ;;
           Ok (basic, advanced, external)) ;;
    let '(basic, advanced, external) := source_totals in
    Ok (Some [("Memory (Basic)", basic);
              ("Memory (Advanced)", advanced);
              ("External Sources", external)]).

(** [generate_summary_report], lines 764-784. *)
Definition generate_summary_report (result : value) (question : string) : outcome string :=
  quality_assessment <- get result "quality_assessment" (VDict []) ;;
  quality_score <- get quality_assessment "overall_quality_score" (VStr "N/A") ;;
  findings <- get result "findings" (VList []) ;;
  findings_count <- len findings ;;
  hypotheses <- get result "hypotheses" (VList []) ;;
  hypotheses_count <- len hypotheses ;;
  final_answer <- get result "final_answer" (VStr "No final answer") ;;
  preview <- slice_to 300 final_answer ;;
  let pad := "        " in
  Ok (nl ++
      pad ++ "**Research Summary**" ++ nl ++
      pad ++ nl ++
      pad ++ "**Question:** " ++ question ++ nl ++
      pad ++ nl ++
      pad ++ "**Key Metrics:**" ++ nl ++
      pad ++ "- Research Steps Completed: " ++ PyStr.of_Z findings_count ++ nl ++
      pad ++ "- Quality Score: " ++ str quality_score ++ "/10" ++ nl ++
      pad ++ "- Hypotheses Generated: " ++ PyStr.of_Z hypotheses_count ++ nl ++
      pad ++ nl ++
      pad ++ "**Final Answer Preview:**" ++ nl ++
      pad ++ str preview ++ "..." ++ nl ++
      pad).

(** *** The progress display of a research run *)
Module Progress.

Inductive bar := Overall | CurrentStep.

Inductive slot :=
| PlanningStatus
| ResearchStatus
| IntelligenceStatus
| SynthesisStatus
| StatusText
| CurrentStepText.

Inductive level := Success | Notice | Warning.

(** What a run does, in the order it does it: the page updates, the pauses
    and the calls to the agent factory and the agent. *)
Inductive ui :=
| Heading (text : string)
| NewBar (b : bar) (v : value)
| SetBar (b : bar) (v : value)
| Put (s : slot) (l : level) (text : string)
| Sleep (seconds : Z)
| Call (e : event)
| ErrorBox (text : string).

(** A piece of the script: it extends the log and returns or raises. *)
Definition script (A : Type) : Type := list ui -> outcome A * list ui.

Definition ret {A : Type} (a : A) : script A := fun log => (Ok a, log).

Definition emit (u : ui) : script unit := fun log => (Ok tt, List.app log [u]).

Definition lift {A : Type} (r : outcome A) : script A := fun log => (r, log).

Definition and_then {A B : Type} (m : script A) (k : A -> script B) : script B :=
  fun log =>
    match m log with
    | (Ok a, log') => k a log'
    | (Raise e, log') => (Raise e, log')
    end.

(** [try: m except Exception as e: handler] *)
Definition try_except {A : Type} (m : script A) (handler : exn -> script A) : script A :=
  fun log =>
    match m log with
    | (Ok a, log') => (Ok a, log')
    | (Raise e, log') => handler e log'
    end.

Notation "x <~ m ;; k" := (and_then m (fun x => k))
  (at level 61, m at next level, right associativity) : py_scope.
Notation "m ;;; k" := (and_then m (fun _ => k))
  (at level 61, right associativity) : py_scope.

Fixpoint each {A : Type} (xs : list A) (body : A -> script unit) : script unit :=
  match xs with
  | [] => ret tt
  | x :: tl => body x ;;; each tl body
  end.

Definition tenths (n : Z) : value := VFloat (PyFloat.of_decimal false n (-1)).

(** [execute_research_with_updates], lines 297-331. *)
Definition execute_research_with_updates (a : agent) (initial_state : value) : script value :=
  emit (Put StatusText Notice "🔍 Executing research steps...") ;;;
  emit (SetBar Overall (tenths 3)) ;;;
  emit (Put ResearchStatus Warning "🔄 Research") ;;;
  each [0; 1; 2]%Z
    (fun i =>
       emit (Put CurrentStepText Notice
               ("Step " ++ PyStr.of_Z (i + 1) ++ ": Analyzing research question...")) ;;;
       v <~ lift (truediv (VInt (i + 1)) (VInt 3)) ;;
       emit (SetBar CurrentStep v) ;;;
       emit (Sleep 1)) ;;;
  emit (Put StatusText Notice "🧠 Running intelligence analysis...") ;;;
  emit (SetBar Overall (tenths 7)) ;;;
  emit (Put IntelligenceStatus Warning "🔄 Intelligence") ;;;
  emit (Sleep 2) ;;;
  emit (Put StatusText Notice "🎯 Synthesizing final answer...") ;;;
  emit (SetBar Overall (tenths 9)) ;;;
  emit (Put SynthesisStatus Warning "🔄 Synthesis") ;;;
  emit (Sleep 1) ;;;
  emit (Call (Invoke initial_state)) ;;;
  lift (invoke a initial_state).

(** [run_research_with_progress], lines 218-295, with every update of the
    page. *)
Definition run_research_with_progress (create_agent : outcome agent) (question : string)
  : script value :=
  emit (Heading "🔄 Research Progress") ;;;
  emit (NewBar Overall (VInt 0)) ;;;
  emit (NewBar CurrentStep (VInt 0)) ;;;
  try_except
    (emit (Call CreateAgent) ;;;
     a <~ lift create_agent ;;
     emit (Put PlanningStatus Success "📋 Planning") ;;;
     emit (Put StatusText Notice "🧠 Creating research plan...") ;;;
     emit (SetBar Overall (tenths 1)) ;;;
     result <~ execute_research_with_updates a (initial_state question) ;;
     emit (SetBar Overall (tenths 10)) ;;;
     emit (SetBar CurrentStep (tenths 10)) ;;;
     emit (Put StatusText Success "✅ Research completed successfully!") ;;;
     emit (Put PlanningStatus Success "✅ Planning") ;;;
     emit (Put ResearchStatus Success "✅ Research") ;;;
     emit (Put IntelligenceStatus Success "✅ Intelligence") ;;;
     emit (Put SynthesisStatus Success "✅ Synthesis") ;;;
     ret result)
    (fun e =>
       emit (ErrorBox ("Research failed: " ++ exn_text e)) ;;;
       ret VNone).

End Progress.

(** *** The tabs of the results page *)
Module Page.

(** What a tab puts on the page, columns aside. *)
Inductive element :=
| Subheader (text : string)
| Html (text : string)
| Markdown (body : value)
| Write (text : string)
| Divider
| Metric (label : string) (v : value)
| Expander (label : string) (body : list element).

(** Lines 409-411 and 494-496: one line per quality indicator. *)
Definition indicator_lines (quality_indicators : value) (page : list element)
  : outcome (list element) :=
  indicators <- items quality_indicators ;;
  for_each indicators page
    (fun page '(indicator, status) =>
       let icon := if truthy status then "✅" else "❌" in
       Ok (List.app page
             [Write (icon ++ " " ++ PyStr.title (PyStr.replace "_" " " indicator))])).

(** [render_final_answer], lines 388-417. *)
Definition render_final_answer (result : value) : outcome (list element) :=
  let page := [Subheader "🎯 Final Answer"] in
  final_answer <- get result "final_answer" (VStr "No final answer generated") ;;
  let page :=
    List.app page
      [Html ("<div class=" ++ PyStr.dquote ++ "research-card" ++ PyStr.dquote ++ ">");
       Markdown final_answer;
       Html "</div>"] in
  quality_assessment <- get result "quality_assessment" (VDict []) ;;
  if truthy quality_assessment then
    let page := List.app page [Subheader "📊 Answer Quality Assessment"] in
    quality_indicators <- get quality_assessment "quality_indicators" (VDict []) ;;
    let page := List.app page [Write "**Quality Indicators:**"] in
    page <- indicator_lines quality_indicators page ;;
    let page := List.app page [Write "**Research Metrics:**"] in
    v <- get quality_assessment "total_findings" (VInt 0) ;;
    let page := List.app page [Write ("• Total Findings: " ++ str v)] in
    v <- get quality_assessment "external_sources_used" (VInt 0) ;;
    let page := List.app page [Write ("• External Sources: " ++ str v)] in
    v <- get quality_assessment "source_diversity" (VInt 0) ;;
    Ok (List.app page [Write ("• Source Diversity: " ++ str v)])
  else Ok page.

(** Lines 438-464: the expander of one finding. *)
Definition finding_expander (finding : value) : outcome element :=
  step <- getitem finding "step" ;;
  step <- add step (VInt 1) ;;
  description <- getitem finding "step_description" ;;
  let label := "Step " ++ str step ++ ": " ++ str description in
  analysis <- get finding "analysis" (VStr "") ;;
  extracted <- key_findings analysis ;;
  let body :=
    match extracted with
    | Some text => [Write "**Key Findings:**"; Write text]
    | None => []
    end in
  sources_used <- get finding "sources_used" (VDict []) ;;
  body <-
    (if truthy sources_used then
       let body := List.app body [Write "**Sources Used:**"] in
       v <- get sources_used "memory_basic" (VInt 0) ;;
       let body := List.app body [Metric "Memory" v] in
       v <- get sources_used "memory_advanced" (VInt 0) ;;
       let body := List.app body [Metric "Advanced Memory" v] in
       v <- get sources_used "external_sources" (VInt 0) ;;
       Ok (List.app body [Metric "External" v])
     else Ok body) ;;
  external_research <- get finding "external_research" (VList []) ;;
  body <-
    (if truthy external_research then
       let body := List.app body [Write "**External Research:**"] in
       shown <- slice_to 2 external_research ;;
       entries <- iterate shown ;;
       for_each entries body
         (fun body research =>
            r <- slice_to 100 research ;;
            Ok (List.app body [Write ("• " ++ str r ++ "...")]))
     else Ok body) ;;
  Ok (Expander label body).

(** [render_research_process], lines 419-464. *)
Definition render_research_process (result : value) : outcome (list element) :=
  let page := [Subheader "🔍 Research Process"] in
  research_plan <- get result "research_plan" (VList []) ;;
  page <-
    (if truthy research_plan then
       let page := List.app page [Write "**Research Plan:**"] in
       steps <- iterate research_plan ;;
       for_each (enumerate 1 steps) page
         (fun page '(i, step) =>
            Ok (List.app page [Write (PyStr.of_Z i ++ ". " ++ str step)]))
     else Ok page) ;;
  let page := List.app page [Divider] in
  findings <- get result "findings" (VList []) ;;
  if truthy findings then
    let page := List.app page [Write "**Research Findings:**"] in
    fs <- iterate findings ;;
    for_each fs page
      (fun page finding =>
         e <- finding_expander finding ;;
         Ok (List.app page [e]))
  else Ok page.

(** Lines 510-513 and 515-518: up to three entries of a list kept under
    [key] in a hypothesis, below their heading. *)
Definition listed (hypothesis : value) (key heading : string) (body : list element)
  : outcome (list element) :=
  present <- get hypothesis key VNone ;;
  if truthy present then
    let body := List.app body [Write heading] in
    kept <- getitem hypothesis key ;;
    shown <- slice_to 3 kept ;;
    entries <- iterate shown ;;
    for_each entries body
      (fun body entry => Ok (List.app body [Write ("• " ++ str entry)]))
  else Ok body.

(** Lines 506-518: the expander of one hypothesis. *)
Definition hypothesis_expander (i : Z) (hypothesis : value) : outcome element :=
  statement <- getitem hypothesis "statement" ;;
  statement <- slice_to 80 statement ;;
  let label := "Hypothesis " ++ PyStr.of_Z i ++ ": " ++ str statement ++ "..." in
  kind <- getitem hypothesis "type" ;;
  let body := [Write ("**Type:** " ++ str kind)] in
  confidence <- getitem hypothesis "confidence" ;;
  confidence <- format_2f confidence ;;
  let body := List.app body [Write ("**Confidence:** " ++ confidence)] in
  body <- listed hypothesis "supporting_evidence" "**Supporting Evidence:**" body ;;
  body <- listed hypothesis "predictions" "**Predictions:**" body ;;
  Ok (Expander label body).

(** [render_intelligence_analysis], lines 466-518. *)
Definition render_intelligence_analysis (result : value) : outcome (list element) :=
  let page := [Subheader "🧠 Intelligence Layer Analysis"] in
  multi_agent_analysis <- get result "multi_agent_analysis" (VDict []) ;;
  page <-
    (if truthy multi_agent_analysis then
       let page := List.app page [Write "**Multi-Agent Collaboration:**"] in
       confidence_scores <- get multi_agent_analysis "confidence_scores" (VDict []) ;;
       page <-
         (if truthy confidence_scores then
            v <- get confidence_scores "researcher_avg" (VInt 0) ;;
            s <- format_2f v ;;
            let page := List.app page [Metric "Researcher" (VStr s)] in
            v <- get confidence_scores "critic_avg" (VInt 0) ;;
            s <- format_2f v ;;
            let page := List.app page [Metric "Critic" (VStr s)] in
            v <- get confidence_scores "synthesis_confidence" (VInt 0) ;;
            s <- format_2f v ;;
            Ok (List.app page [Metric "Synthesizer" (VStr s)])
          else Ok page) ;;
       collab_summary <- get multi_agent_analysis "collaboration_summary" (VDict []) ;;
       if truthy collab_summary then
         let page := List.app page [Write "**Collaboration Summary:**"] in
         v <- get collab_summary "total_agent_responses" (VInt 0) ;;
         let page := List.app page [Write ("• Total Agent Responses: " ++ str v)] in
         v <- get collab_summary "average_confidence" (VInt 0) ;;
         s <- format_2f v ;;
         let page := List.app page [Write ("• Average Confidence: " ++ s)] in
         quality_indicators <- get collab_summary "quality_indicators" (VDict []) ;;
         indicator_lines quality_indicators page
       else Ok page
     else Ok page) ;;
  let page := List.app page [Divider] in
  hypotheses <- get result "hypotheses" (VList []) ;;
  if truthy hypotheses then
    let page := List.app page [Write "**Generated Hypotheses:**"] in
    hyps <- iterate hypotheses ;;
    for_each (enumerate 1 hyps) page
      (fun page '(i, hypothesis) =>
         e <- hypothesis_expander i hypothesis ;;
         Ok (List.app page [e]))
  else Ok page.

End Page.

End Streamlit.

(** ** Concrete inputs used by the examples *)
Module Scenario.
Import Py Flow.

(** An agent that answers every question with an empty state. *)
Definition quiet_agent : agent := {| invoke := fun _ => Ok (VDict []) |}.

(** An agent whose invocation raises. *)
Definition timeout_error : exn :=
  {| exn_type := OtherException "TimeoutError"; exn_text := "model endpoint timed out" |}.
Definition failing_agent : agent := {| invoke := fun _ => Raise timeout_error |}.

Definition fresh : Gradio.interface :=
  {| Gradio.self_agent := None; Gradio.research_history := [] |}.
Definition fresh_state : Streamlit.session_state :=
  {| Streamlit.research_history := []; Streamlit.current_research := None |}.

(** The end-to-end scenario of the specification, under the keys the code
    reads ([step] for the step index, [analysis] for the analysis text). *)
Definition entanglement_finding : value :=
  VDict [("step", VInt 0);
         ("step_description", VStr "Define terms");
         ("sources_used", VDict [("memory_basic", VInt 1);
                                 ("memory_advanced", VInt 0);
                                 ("external_sources", VInt 2)]);
         ("analysis", VStr "KEY_FINDINGS: entanglement is... NEW_CONCEPTS: none")].

Definition entanglement : value :=
  VDict [("final_answer", VStr "...");
         ("research_plan", VList [VStr "Define terms"; VStr "Survey literature"]);
         ("findings", VList [entanglement_finding]);
         ("hypotheses", VList []);
         ("quality_assessment",
          VDict [("overall_quality_score", VInt 7);
                 ("confidence_assessment", VFloat (PyFloat.of_decimal false 8 (-1)));
                 ("total_findings", VInt 1);
                 ("external_sources_used", VInt 2);
                 ("source_diversity", VInt 1);
                 ("quality_indicators", VDict [("has_external_validation", VBool true)])])].

(** A finding whose analysis opens the key findings and never closes them,
    and a result that holds it. *)
Definition unclosed_finding : value :=
  VDict [("step", VInt 0);
         ("step_description", VStr "Define terms");
         ("analysis", VStr "KEY_FINDINGS: entanglement is...")].
Definition unclosed : value := VDict [("findings", VList [unclosed_finding])].

(** A result whose finding has no step index, and no marker either. *)
Definition unnumbered : value :=
  VDict [("findings", VList [VDict [("step_description", VStr "Define terms");
                                    ("analysis", VStr "nothing is marked")]])].

(** A result whose finding has nothing as its analysis. *)
Definition unanalysed : value :=
  VDict [("findings", VList [VDict [("step", VInt 0);
                                    ("step_description", VStr "Define terms");
                                    ("analysis", VNone)]])].

(** A result whose quality assessment has a score and nothing else. *)
Definition score_only : value :=
  VDict [("final_answer", VStr "...");
         ("quality_assessment", VDict [("overall_quality_score", VInt 7)])].
Definition score_only_agent : agent := {| invoke := fun _ => Ok score_only |}.

(** A result without any quality assessment. *)
Definition unassessed : value := VDict [("final_answer", VStr "...")].

(** A result whose quality assessment lacks the score and the counts. *)
Definition confidence_only : value :=
  VDict [("quality_assessment",
          VDict [("confidence_assessment", VFloat (PyFloat.of_decimal false 8 (-1)))])].


(** Three archived runs, appended in this order. *)
Definition three_records : list value :=
  [record_of "first question" (VDict []) "2026-01-01T10:00:00" (VInt 7);
   record_of "second question" (VDict []) "2026-01-02T10:00:00" (VInt 8);
   record_of "third question" (VDict []) "2026-01-03T10:00:00" (VInt 9)].

End Scenario.

(** ** The specification's history query, for comparison *)
Module Spec.

(** [recent(n)]: the last [n] records, most recent first. *)
Definition recent {A : Type} (n : nat) (store : list A) : list A :=
  firstn n (List.rev store).

End Spec.

(** ** Closed forms of the texts and views the front ends produce *)
Module Views.
Import Py Flow.

(** One archived run: question, result, timestamp and quality score. *)
Definition archived : Type := string * value * string * value.

Definition to_record (a : archived) : value :=
  let '(q, r, t, s) := a in record_of q r t s.

Definition gradio_entry (p : Z * archived) : string :=
  let '(i, (q, _, t, s)) := p in
  "### Research " ++ PyStr.of_Z i ++ nl ++
  "- **Question:** " ++ q ++ nl ++
  "- **Quality Score:** " ++ str s ++ nl ++
  "- **Timestamp:** " ++ t ++ nl ++ nl.

Definition streamlit_entry (total : Z) (p : Z * archived) : Streamlit.widget :=
  let '(i, (q, _, t, s)) := p in
  Streamlit.Expander ("Research " ++ PyStr.of_Z (total - i))
    ["**Question:** " ++ PyStr.take 100 q ++ "...";
     "**Quality Score:** " ++ str s;
     "**Date:** " ++ t].

(** The lines of the sidebar entry of an archived run. *)
Definition sidebar_lines (a : archived) : list string :=
  let '(q, _, t, s) := a in
  ["**Question:** " ++ PyStr.take 100 q ++ "...";
   "**Quality Score:** " ++ str s;
   "**Date:** " ++ t].

(** The lines inside an expander; other widgets have none. *)
Definition lines_of (w : Streamlit.widget) : list string :=
  match w with
  | Streamlit.Expander _ lines => lines
  | _ => []
  end.

(** One line of a numbered plan. *)
Definition numbered_step (p : Z * value) : string :=
  PyStr.of_Z (fst p) ++ ". " ++ str (snd p) ++ nl.

(** A finding that carries a non-empty [external_research] entry. *)
Definition has_external_research (finding : value) : bool :=
  match finding with
  | VDict kvs =>
      match lookup "external_research" kvs with
      | Some v => truthy v
      | None => false
      end
  | _ => false
  end.

Definition is_dict (v : value) : Prop := exists kvs, v = VDict kvs.

(** A field of the quality assessment as the summary prints it, with the text
    that stands in when the field is missing. *)
Definition field (kvs : list (string * value)) (k default : string) : string :=
  match lookup k kvs with
  | Some v => str v
  | None => default
  end.

Definition indicator_line (p : string * value) : string :=
  (if truthy (snd p) then "✅" else "❌") ++ " " ++
  PyStr.title (PyStr.replace "_" " " (fst p)) ++ nl.


(** The character [c] does not occur in [s]. *)
Fixpoint char_free (c : ascii) (s : string) : bool :=
  match s with
  | EmptyString => true
  | String a s' => negb (Ascii.eqb a c) && char_free c s'
  end.

(** What the report reads from a finding: the step index, the step
    description and the analysis text (empty when the finding has none). *)
Definition finding_has (f : value) (step : Z) (description : value) (analysis : string)
  : Prop :=
  getitem f "step" = Ok (VInt step) /\
  getitem f "step_description" = Ok description /\
  get f "analysis" (VStr "") = Ok (VStr analysis).

(** Where the key findings of an analysis stop: at the end of the text, or
    where the next marker begins. *)
Definition ends_segment (rest : string) : bool :=
  PyStr.is_empty rest
  || String.prefix "KEY_FINDINGS:" rest
  || String.prefix "NEW_CONCEPTS:" rest.

(** The heading of a finding in the Key Findings section. *)
Definition step_heading (step : Z) (description : value) : string :=
  nl ++ "#### Step " ++ PyStr.of_Z (step + 1) ++ ": " ++ str description ++ nl.

(** The block a finding adds to the report, read off the code. *)
Definition block_of (f : value) : string :=
  match Streamlit.finding_block "" f with
  | Ok text => text
  | Raise _ => ""
  end.

(** A history record as both front ends build it. *)
Definition is_record (v : value) : Prop :=
  exists question result timestamp score, v = record_of question result timestamp score.

Definition is_create (e : event) : bool :=
  match e with
  | CreateAgent => true
  | Invoke _ => false
  end.

(** The score a history record carries for a result. *)
Definition score_of (quality_assessment : list (string * value)) : value :=
  match lookup "overall_quality_score" quality_assessment with
  | Some v => v
  | None => VStr "N/A"
  end.

(** What a finding counts under [k] in its [sources_used], when that is an
    integer. *)
Definition source_count (k : string) (finding : value) : Z :=
  match finding with
  | VDict kvs =>
      match lookup "sources_used" kvs with
      | Some (VDict used) =>
          match lookup k used with
          | Some (VInt n) => n
          | _ => 0%Z
          end
      | _ => 0%Z
      end
  | _ => 0%Z
  end.

(** A count that is an integer, or is left out. *)
Definition integer_or_absent (k : string) (used : list (string * value)) : bool :=
  match lookup k used with
  | Some (VInt _) | None => true
  | Some _ => false
  end.

(** A finding whose source counts are integers: [sources_used] is a dict, or
    is left out, and so are the counts in it. *)
Definition integer_sources (finding : value) : bool :=
  match finding with
  | VDict kvs =>
      match lookup "sources_used" kvs with
      | Some (VDict used) =>
          integer_or_absent "memory_basic" used &&
          integer_or_absent "memory_advanced" used &&
          integer_or_absent "external_sources" used
      | None => true
      | Some _ => false
      end
  | _ => false
  end.

Definition total_of (k : string) (findings : list value) : Z :=
  fold_right (fun finding n => (source_count k finding + n)%Z) 0%Z findings.

(** What the timeline reads from a finding: the step index, the description
    and the number of external sources. *)
Definition timeline_point (finding : value) (step : Z) (description : string) (sources : Z)
  : Prop :=
  getitem finding "step" = Ok (VInt step) /\
  getitem finding "step_description" = Ok (VStr description) /\
  exists used,
    get finding "sources_used" (VDict []) = Ok used /\
    get used "external_sources" (VInt 0) = Ok (VInt sources).

(** The entry of one hypothesis in the intelligence summary. *)
Definition hypothesis_entry (p : Z * (value * value * string)) : string :=
  let '(i, (statement, kind, confidence)) := p in
  PyStr.of_Z i ++ ". **" ++ str statement ++ "**" ++ nl ++
  "   - Type: " ++ str kind ++ nl ++
  "   - Confidence: " ++ confidence ++ nl ++ nl.

(** What the summary reads from a hypothesis. *)
Definition hypothesis_has (h : value) (entry : value * value * string) : Prop :=
  let '(statement, kind, confidence) := entry in
  getitem h "statement" = Ok statement /\
  getitem h "type" = Ok kind /\
  exists c, getitem h "confidence" = Ok c /\ format_2f c = Ok confidence.

(** The bytes of a text that start a character. *)
Fixpoint characters (s : string) : nat :=
  match s with
  | EmptyString => O
  | String c s' => if PyStr.is_continuation c then characters s' else S (characters s')
  end.

(** A character of the ASCII range. *)
Definition is_ascii (c : ascii) : bool := (Json.code c <? 128)%Z.

(** *** Readings of a progress log *)

Definition same_bar (a b : Streamlit.Progress.bar) : bool :=
  match a, b with
  | Streamlit.Progress.Overall, Streamlit.Progress.Overall
  | Streamlit.Progress.CurrentStep, Streamlit.Progress.CurrentStep => true
  | _, _ => false
  end.

(** The values a bar is given, in order. *)
Fixpoint bar_values (b : Streamlit.Progress.bar) (log : list Streamlit.Progress.ui)
  : list value :=
  match log with
  | [] => []
  | Streamlit.Progress.NewBar b' v :: tl
  | Streamlit.Progress.SetBar b' v :: tl =>
      if same_bar b b' then v :: bar_values b tl else bar_values b tl
  | _ :: tl => bar_values b tl
  end.

(** No value is less than the one before it. *)
Fixpoint nondecreasing (vs : list value) : bool :=
  match vs with
  | [] => true
  | a :: tl =>
      match tl with
      | [] => true
      | b :: _ =>
          match lt "<" b a with
          | Ok false => nondecreasing tl
          | _ => false
          end
      end
  end.

(** The calls to the factory and to the agent, in order. *)
Fixpoint calls (log : list Streamlit.Progress.ui) : list event :=
  match log with
  | [] => []
  | Streamlit.Progress.Call e :: tl => e :: calls tl
  | _ :: tl => calls tl
  end.

(** The error boxes, in order. *)
Fixpoint errors (log : list Streamlit.Progress.ui) : list Streamlit.widget :=
  match log with
  | [] => []
  | Streamlit.Progress.ErrorBox text :: tl => Streamlit.Error text :: errors tl
  | _ :: tl => errors tl
  end.

(** The seconds spent asleep. *)
Fixpoint seconds (log : list Streamlit.Progress.ui) : Z :=
  match log with
  | [] => 0%Z
  | Streamlit.Progress.Sleep n :: tl => (n + seconds tl)%Z
  | _ :: tl => seconds tl
  end.

(** What is done before the agent is invoked. *)
Fixpoint until_invoke (log : list Streamlit.Progress.ui) : list Streamlit.Progress.ui :=
  match log with
  | [] => []
  | Streamlit.Progress.Call (Invoke _) :: _ => []
  | u :: tl => u :: until_invoke tl
  end.

(** The texts shown as a success. *)
Fixpoint successes (log : list Streamlit.Progress.ui) : list string :=
  match log with
  | [] => []
  | Streamlit.Progress.Put _ Streamlit.Progress.Success text :: tl => text :: successes tl
  | _ :: tl => successes tl
  end.

Definition same_slot (a b : Streamlit.Progress.slot) : bool :=
  match a, b with
  | Streamlit.Progress.PlanningStatus, Streamlit.Progress.PlanningStatus
  | Streamlit.Progress.ResearchStatus, Streamlit.Progress.ResearchStatus
  | Streamlit.Progress.IntelligenceStatus, Streamlit.Progress.IntelligenceStatus
  | Streamlit.Progress.SynthesisStatus, Streamlit.Progress.SynthesisStatus
  | Streamlit.Progress.StatusText, Streamlit.Progress.StatusText
  | Streamlit.Progress.CurrentStepText, Streamlit.Progress.CurrentStepText => true
  | _, _ => false
  end.

(** What a slot shows once the log is over: the last text put there. *)
Fixpoint left_in (s : Streamlit.Progress.slot) (log : list Streamlit.Progress.ui)
  : option (Streamlit.Progress.level * string) :=
  match log with
  | [] => None
  | Streamlit.Progress.Put s' l text :: tl =>
      match left_in s tl with
      | Some later => Some later
      | None => if same_slot s s' then Some (l, text) else None
      end
  | _ :: tl => left_in s tl
  end.

(** A text made of whitespace characters only. *)
Definition only_whitespace (s : string) : Prop :=
  exists ws, Forall (fun w => In w PyStr.whitespace) ws /\ s = PyStr.cat ws.

(** No pattern is the beginning of another one, and none is empty. *)
Definition prefix_free (pats : list string) : bool :=
  forallb (fun p =>
             negb (PyStr.is_empty p) &&
             forallb (fun q => negb (String.prefix p q) || String.eqb p q) pats)
          pats.

(** *** Closed forms of the tabs of the results page *)

Definition indicator_element (p : string * value) : Streamlit.Page.element :=
  Streamlit.Page.Write
    ((if truthy (snd p) then "✅" else "❌") ++ " " ++
     PyStr.title (PyStr.replace "_" " " (fst p))).

(** A count as a metric shows it: the value under [k], or 0. *)
Definition count_shown (used : list (string * value)) (k : string) : value :=
  match lookup k used with
  | Some v => v
  | None => VInt 0
  end.

(** The expander of a finding with the given step, description, analysis,
    source counts and external research texts. *)
Definition finding_view (step : Z) (description : value) (analysis : string)
    (used : list (string * value)) (entries : list string) : Streamlit.Page.element :=
  Streamlit.Page.Expander
    ("Step " ++ PyStr.of_Z (step + 1) ++ ": " ++ str description)
    (match Streamlit.key_findings (VStr analysis) with
     | Ok (Some text) =>
         [Streamlit.Page.Write "**Key Findings:**"; Streamlit.Page.Write text]
     | _ => []
     end ++
     match used with
     | [] => []
     | _ => [Streamlit.Page.Write "**Sources Used:**";
             Streamlit.Page.Metric "Memory" (count_shown used "memory_basic");
             Streamlit.Page.Metric "Advanced Memory" (count_shown used "memory_advanced");
             Streamlit.Page.Metric "External" (count_shown used "external_sources")]
     end ++
     match entries with
     | [] => []
     | _ => Streamlit.Page.Write "**External Research:**" ::
            map (fun r => Streamlit.Page.Write ("• " ++ PyStr.take 100 r ++ "..."))
                (firstn 2 entries)
     end)%list.

(** A finding seen by the process tab as [view]. *)
Definition finding_seen (finding : value) (view : Streamlit.Page.element) : Prop :=
  exists step description analysis used entries,
    finding_has finding step description analysis /\
    get finding "sources_used" (VDict []) = Ok (VDict used) /\
    get finding "external_research" (VList []) = Ok (VList (map VStr entries)) /\
    view = finding_view step description analysis used entries.

Definition bullets (entries : list value) : list Streamlit.Page.element :=
  map (fun entry => Streamlit.Page.Write ("• " ++ str entry)) entries.

(** The list a hypothesis keeps under [k]: none counts as the empty list. *)
Definition kept_under (kvs : list (string * value)) (k : string) (l : list value) : Prop :=
  (lookup k kvs = None /\ l = []) \/ lookup k kvs = Some (VList l).

Definition up_to_three (heading : string) (l : list value) : list Streamlit.Page.element :=
  match l with
  | [] => []
  | _ => Streamlit.Page.Write heading :: bullets (firstn 3 l)
  end.

(** The expander of the [i]-th hypothesis. *)
Definition hypothesis_view (i : Z) (statement : string) (kind : value) (confidence : string)
    (evidence predictions : list value) : Streamlit.Page.element :=
  Streamlit.Page.Expander
    ("Hypothesis " ++ PyStr.of_Z i ++ ": " ++ PyStr.take 80 statement ++ "...")
    ([Streamlit.Page.Write ("**Type:** " ++ str kind);
      Streamlit.Page.Write ("**Confidence:** " ++ confidence)] ++
     up_to_three "**Supporting Evidence:**" evidence ++
     up_to_three "**Predictions:**" predictions)%list.

(** A hypothesis seen by the intelligence tab, at position [i], as [view]. *)
Definition hypothesis_seen (p : Z * value) (view : Streamlit.Page.element) : Prop :=
  exists kvs statement kind c confidence evidence predictions,
    snd p = VDict kvs /\
    lookup "statement" kvs = Some (VStr statement) /\
    lookup "type" kvs = Some kind /\
    lookup "confidence" kvs = Some c /\
    format_2f c = Ok confidence /\
    kept_under kvs "supporting_evidence" evidence /\
    kept_under kvs "predictions" predictions /\
    view = hypothesis_view (fst p) statement kind confidence evidence predictions.

End Views.

(** ** Facts about the text primitives *)

Lemma prefix_app (p s : string) : String.prefix p (p ++ s) = true.
Proof.
  induction p as [|c p IH]; simpl.
  - destruct s; reflexivity.
  - destruct (ascii_dec c c) as [_|N]; [exact IH | now elim N].
Qed.

Lemma contains_app_l (sub a b : string) :
  contains sub b = true -> contains sub (a ++ b) = true.
Proof.
  intros H. induction a as [|c a IH]; simpl; [exact H|].
  rewrite IH. apply orb_true_r.
Qed.

Lemma contains_here (sub b : string) : contains sub (sub ++ b) = true.
Proof.
  destruct sub as [|c sub].
  - destruct b; reflexivity.
  - change (contains (String c sub) (String c sub ++ b))
      with (String.prefix (String c sub) (String c sub ++ b) || contains (String c sub) (sub ++ b)).
    now rewrite prefix_app.
Qed.

Lemma contains_mid (sub a b : string) : contains sub (a ++ sub ++ b) = true.
Proof. apply contains_app_l, contains_here. Qed.

Import Py Flow.

(** ** Facts about loops and windows *)

Lemma append_assoc (a b c : string) : (a ++ b) ++ c = a ++ b ++ c.
Proof. induction a as [|x a IH]; simpl; [reflexivity | now rewrite IH]. Qed.

Lemma append_nil_r (a : string) : a ++ "" = a.
Proof. induction a as [|x a IH]; simpl; [reflexivity | now rewrite IH]. Qed.

(** A loop whose body only appends text is a concatenation. *)
Lemma for_each_append {A : Type} (g : A -> string) (body : string -> A -> outcome string) :
  (forall acc x, body acc x = Ok (acc ++ g x)) ->
  forall xs acc, for_each xs acc body = Ok (acc ++ cat (map g xs)).
Proof.
  intros Hbody xs. induction xs as [|x xs IH]; intros acc.
  - simpl. now rewrite append_nil_r.
  - cbn [for_each map cat]. rewrite Hbody. cbn [bind]. rewrite IH.
    now rewrite append_assoc.
Qed.

Lemma for_each_collect {A B : Type} (g : A -> B) (body : list B -> A -> outcome (list B)) :
  (forall acc x, body acc x = Ok (acc ++ [g x])%list) ->
  forall xs acc, for_each xs acc body = Ok (acc ++ map g xs)%list.
Proof.
  intros Hbody xs. induction xs as [|x xs IH]; intros acc.
  - simpl. now rewrite app_nil_r.
  - cbn [for_each map]. rewrite Hbody. cbn [bind]. rewrite IH.
    now rewrite <- app_assoc.
Qed.

Lemma enumerate_map {A B : Type} (f : A -> B) (xs : list A) :
  forall k, enumerate k (map f xs) = map (fun p => (fst p, f (snd p))) (enumerate k xs).
Proof.
  induction xs as [|x xs IH]; intros k; simpl; [reflexivity | now rewrite IH].
Qed.

Lemma last_n_map {A B : Type} (f : A -> B) (n : nat) (xs : list A) :
  last_n n (map f xs) = map f (last_n n xs).
Proof. unfold last_n. now rewrite length_map, skipn_map. Qed.

Lemma last_n_suffix {A : Type} (n : nat) (xs : list A) :
  xs = (firstn (List.length xs - n) xs ++ last_n n xs)%list.
Proof. unfold last_n. now rewrite firstn_skipn. Qed.

Lemma last_n_length {A : Type} (n : nat) (xs : list A) :
  List.length (last_n n xs) = Nat.min n (List.length xs).
Proof. unfold last_n. rewrite length_skipn. lia. Qed.

Lemma last_n_all {A : Type} (n : nat) (xs : list A) :
  (List.length xs <= n)%nat -> last_n n xs = xs.
Proof.
  intros H. unfold last_n. replace (List.length xs - n)%nat with 0%nat by lia. reflexivity.
Qed.

Lemma for_each_map {A B S : Type} (h : A -> B) (body : S -> B -> outcome S) (xs : list A) :
  forall acc, for_each (map h xs) acc body = for_each xs acc (fun acc x => body acc (h x)).
Proof.
  induction xs as [|x xs IH]; intros acc; [reflexivity|].
  cbn [map for_each]. destruct (body acc (h x)); cbn [bind]; [apply IH | reflexivity].
Qed.

(** ** History views *)

Lemma window_is_recent_reversed {A : Type} (n : nat) (xs : list A) :
  last_n n xs = List.rev (Spec.recent n xs).
Proof.
  unfold last_n, Spec.recent. now rewrite firstn_rev, rev_involutive.
Qed.

(** What the sidebar loop builds from records the front ends archived. *)
Lemma render_history_entries (cur : option value) (e : Views.archived)
    (entries : list Views.archived) :
  Streamlit.render_history
    {| Streamlit.research_history := map Views.to_record (e :: entries);
       Streamlit.current_research := cur |}
  = Ok (map (Views.streamlit_entry (Z.of_nat (List.length (e :: entries))))
            (enumerate 0 (last_n 5 (e :: entries)))).
Proof.
  unfold Streamlit.render_history. cbn [Streamlit.research_history].
  cbn [map]. rewrite <- (map_cons Views.to_record), last_n_map, enumerate_map.
  rewrite for_each_map, length_map.
  rewrite (for_each_collect (Views.streamlit_entry (Z.of_nat (List.length (e :: entries))))).
  - reflexivity.
  - intros acc [i [[[q r] t] s]]. reflexivity.
Qed.

Lemma streamlit_entry_lines (total : Z) (xs : list Views.archived) :
  forall k,
    map Views.lines_of (map (Views.streamlit_entry total) (enumerate k xs))
    = map Views.sidebar_lines xs.
Proof.
  induction xs as [|[[[q r] t] s] xs IH]; intros k; [reflexivity|].
  cbn [enumerate map]. now rewrite IH.
Qed.

(** C3: the Gradio history lists the last five appended records (all of them
    when the store holds five or fewer, a notice when it is empty) in the order
    they were appended, oldest first and numbered from 1: the specified recent
    five, read backwards.  The Streamlit sidebar returns an entry for each
    record of the same window, or its notice; nothing is said here about the
    order or the labels of its entries.  Neither view fails on records the
    front ends archived. *)
Theorem gradio_history_lists_last_five_oldest_first :
  forall (a : option agent) (cur : option value) (entries : list Views.archived),
    let store := map Views.to_record entries in
    let window := last_n 5 entries in
    Gradio.get_research_history
      {| Gradio.self_agent := a; Gradio.research_history := store |}
    = Ok (match entries with
          | [] => "No research history available."
          | _ => "## Recent Research History" ++ nl ++ nl ++
                 PyStr.cat (map Views.gradio_entry (enumerate 1 window))
          end)
    /\ (exists shown,
          Streamlit.render_history
            {| Streamlit.research_history := store; Streamlit.current_research := cur |}
          = Ok shown
          /\ match entries with
             | [] => shown = [Streamlit.Info "No research history yet"]
             | _ => Permutation (map Views.lines_of shown) (map Views.sidebar_lines window)
             end)
    /\ window = List.rev (Spec.recent 5 entries)
    /\ entries = (firstn (List.length entries - 5) entries ++ window)%list
    /\ List.length window = Nat.min 5 (List.length entries)
    /\ ((List.length entries <= 5)%nat -> window = entries).
Proof.
  intros a cur entries store window. subst store window.
  split; [|split; [|split; [|split; [|split]]]].
  - unfold Gradio.get_research_history. cbn [Gradio.research_history].
    destruct entries as [|e entries]; [reflexivity|].
    cbn [map]. rewrite <- (map_cons Views.to_record), last_n_map, enumerate_map.
    rewrite for_each_map.
    rewrite (for_each_append Views.gradio_entry).
    + now rewrite !append_assoc.
    + intros acc [i [[[q r] t] s]]. cbn -[append PyStr.of_Z]. now rewrite !append_assoc.
  - destruct entries as [|e entries].
    + eexists. split; reflexivity.
    + eexists. split; [apply render_history_entries|].
      rewrite streamlit_entry_lines. apply Permutation_refl.
  - apply window_is_recent_reversed.
  - apply last_n_suffix.
  - apply last_n_length.
  - apply last_n_all.
Qed.

Lemma gradio_history_lists_last_five_oldest_first_witness :
  let runs : list Views.archived :=
    [("first question", VDict [], "2026-01-01T10:00:00", VInt 7);
     ("second question", VDict [], "2026-01-02T10:00:00", VInt 8);
     ("third question", VDict [], "2026-01-03T10:00:00", VInt 9)] in
  (List.length runs <= 5)%nat /\ last_n 5 runs = runs.
Proof.
  intros runs.
  assert (Hfew : (List.length runs <= 5)%nat) by (cbn; lia).
  split; [exact Hfew|].
  destruct (gradio_history_lists_last_five_oldest_first None None runs)
    as (_ & _ & _ & _ & _ & Hall).
  exact (Hall Hfew).
Defined.

(** C3, counterexample: after three records with increasing timestamps the
    Gradio history lists them oldest first, and its window is not the
    most-recent-first answer of the specified query, for two or for ten
    records. *)
Lemma gradio_history_of_three_is_oldest_first :
  Gradio.get_research_history
    {| Gradio.self_agent := None; Gradio.research_history := Scenario.three_records |}
  = Ok ("## Recent Research History" ++ nl ++ nl ++
        "### Research 1" ++ nl ++
        "- **Question:** first question" ++ nl ++
        "- **Quality Score:** 7" ++ nl ++
        "- **Timestamp:** 2026-01-01T10:00:00" ++ nl ++ nl ++
        "### Research 2" ++ nl ++
        "- **Question:** second question" ++ nl ++
        "- **Quality Score:** 8" ++ nl ++
        "- **Timestamp:** 2026-01-02T10:00:00" ++ nl ++ nl ++
        "### Research 3" ++ nl ++
        "- **Question:** third question" ++ nl ++
        "- **Quality Score:** 9" ++ nl ++
        "- **Timestamp:** 2026-01-03T10:00:00" ++ nl ++ nl)
  /\ last_n 5 Scenario.three_records <> Spec.recent 2 Scenario.three_records
  /\ last_n 5 Scenario.three_records <> Spec.recent 10 Scenario.three_records.
Proof.
  repeat split; try reflexivity; discriminate.
Qed.

(** ** Input guard and failure handling *)

(** C8: a question that is empty after trimming is turned away without any
    exception: Gradio returns its in-band notice and Streamlit leaves the page
    as it was; no agent is created or invoked and no record is archived. *)
Theorem blank_question_rejected_in_band :
  forall (create_agent : outcome agent) (now_iso : string)
         (self : Gradio.interface) (st : Streamlit.session_state)
         (question : string) (start_research : bool),
    PyStr.strip question = "" ->
    Gradio.conduct_research create_agent now_iso self question
    = ((VStr "Please enter a research question.", "", "", ""), self, [])
    /\ Streamlit.run create_agent now_iso st question start_research
       = Streamlit.show_current st
    /\ (let '(_, st', _, events) := Streamlit.show_current st in
        st' = st /\ events = []).
Proof.
  intros create_agent now_iso self st question start Hblank. repeat split.
  - unfold Gradio.conduct_research. now rewrite Hblank.
  - unfold Streamlit.run. rewrite Hblank. now rewrite andb_false_r.
  - unfold Streamlit.show_current.
    destruct (Streamlit.current_research st) as [c|]; [|now split].
    destruct (bind (getitem c "result") _) as [[r q]|e]; now split.
Qed.

Lemma blank_question_rejected_in_band_witness :
  Gradio.conduct_research (Ok Scenario.quiet_agent) "2026-01-01T10:00:00"
    Scenario.fresh (" " ++ nl ++ "  ")
  = ((VStr "Please enter a research question.", "", "", ""), Scenario.fresh, []).
Proof.
  apply (blank_question_rejected_in_band (Ok Scenario.quiet_agent) "2026-01-01T10:00:00"
           Scenario.fresh Scenario.fresh_state (" " ++ nl ++ "  ") true).
  reflexivity.
Defined.

(** C8, counterexample: on a blank question nothing is raised.  Gradio's
    [conduct_research] returns normally with a notice as its answer, and
    Streamlit's [run] completes showing nothing at all. *)
Lemma blank_question_raises_nothing :
  Gradio.conduct_research (Ok Scenario.quiet_agent) "2026-01-01T10:00:00" Scenario.fresh "   "
  = ((VStr "Please enter a research question.", "", "", ""), Scenario.fresh, [])
  /\ Streamlit.run (Ok Scenario.quiet_agent) "2026-01-01T10:00:00" Scenario.fresh_state "   " true
     = (Ok tt, Scenario.fresh_state, [], []).
Proof. split; reflexivity. Qed.

Lemma failed_prefix (text : string) :
  startswith ("Research failed: " ++ text) "Research failed" = true.
Proof.
  unfold startswith.
  change ("Research failed: " ++ text) with ("Research failed" ++ (": " ++ text)).
  apply prefix_app.
Qed.

(** C9: an exception raised by the agent invocation never leaves the run.
    Gradio answers with the failure text built from the exception's message,
    the other three sections empty, which the export gate reads as a failed
    run; Streamlit shows the same text in an error box.  Neither archives a
    record: the interface is as before with the agent kept, the session
    exactly as before.  No status is stored, so nothing is marked as
    failed. *)
Theorem agent_exception_is_shown_and_nothing_archived :
  forall (a : agent) (e : exn) (now_iso : string)
         (self : Gradio.interface) (st : Streamlit.session_state) (question : string),
    PyStr.is_empty (PyStr.strip question) = false ->
    Gradio.self_agent self = None \/ Gradio.self_agent self = Some a ->
    invoke a (initial_state question) = Raise e ->
    let failure := "Research failed: " ++ exn_text e in
    (exists events,
        Gradio.conduct_research (Ok a) now_iso self question
        = ((VStr failure, "", "", ""),
           {| Gradio.self_agent := Some a;
              Gradio.research_history := Gradio.research_history self |},
           events))
    /\ (forall now p i q, Gradio.export_research_results now failure p i q = Gradio.NO_RESULTS)
    /\ Streamlit.run (Ok a) now_iso st question true
       = (Ok tt, st, [Streamlit.Error failure],
          [CreateAgent; Invoke (initial_state question)]).
Proof.
  intros a e now_iso self st question Hq Hagent Hraise failure. subst failure.
  split; [|split].
  - unfold Gradio.conduct_research, Gradio.initialize_agent, Gradio.research_body.
    rewrite Hq. destruct self as [kept history]. cbn [Gradio.self_agent] in *.
    destruct Hagent as [-> | ->]; cbn [Gradio.self_agent Gradio.research_history];
      rewrite Hraise; eexists; reflexivity.
  - intros now p i q. unfold Gradio.export_research_results.
    rewrite failed_prefix. now rewrite orb_true_r.
  - unfold Streamlit.run, Streamlit.run_research_with_progress.
    rewrite Hq, Hraise. reflexivity.
Qed.

Lemma agent_exception_is_shown_and_nothing_archived_witness :
  Streamlit.run (Ok Scenario.failing_agent) "2026-01-01T10:00:00" Scenario.fresh_state
    "What is quantum entanglement?" true
  = (Ok tt, Scenario.fresh_state,
     [Streamlit.Error "Research failed: model endpoint timed out"],
     [CreateAgent; Invoke (initial_state "What is quantum entanglement?")]).
Proof.
  apply (agent_exception_is_shown_and_nothing_archived
           Scenario.failing_agent Scenario.timeout_error
           "2026-01-01T10:00:00" Scenario.fresh Scenario.fresh_state
           "What is quantum entanglement?");
    [reflexivity | now left | reflexivity].
Defined.

(** C9, counterexample: no session goes to a failed state.  After a run whose
    agent raised, the Streamlit session is the fresh session it was before,
    the Gradio interface has gained nothing but its agent, and on the progress
    display the stages the run had reached are still shown as they were, in
    progress, beside the error box. *)
Lemma failed_run_marks_nothing_as_failed :
  Streamlit.run (Ok Scenario.failing_agent) "2026-01-01T10:00:00" Scenario.fresh_state
    "What is quantum entanglement?" true
  = (Ok tt, Scenario.fresh_state,
     [Streamlit.Error "Research failed: model endpoint timed out"],
     [CreateAgent; Invoke (initial_state "What is quantum entanglement?")])
  /\ Gradio.conduct_research (Ok Scenario.failing_agent) "2026-01-01T10:00:00" Scenario.fresh
       "What is quantum entanglement?"
     = ((VStr "Research failed: model endpoint timed out", "", "", ""),
        {| Gradio.self_agent := Some Scenario.failing_agent; Gradio.research_history := [] |},
        [CreateAgent; Invoke (initial_state "What is quantum entanglement?")])
  /\ (let '(_, log) :=
        Streamlit.Progress.run_research_with_progress (Ok Scenario.failing_agent)
          "What is quantum entanglement?" [] in
      Views.left_in Streamlit.Progress.PlanningStatus log
      = Some (Streamlit.Progress.Success, "📋 Planning")
      /\ Views.left_in Streamlit.Progress.ResearchStatus log
         = Some (Streamlit.Progress.Warning, "🔄 Research")
      /\ Views.left_in Streamlit.Progress.IntelligenceStatus log
         = Some (Streamlit.Progress.Warning, "🔄 Intelligence")
      /\ Views.left_in Streamlit.Progress.SynthesisStatus log
         = Some (Streamlit.Progress.Warning, "🔄 Synthesis")).
Proof. repeat split; vm_compute; reflexivity. Qed.

(** ** Process summary *)

Lemma count_external_research (fs : list value) :
  Forall Views.is_dict fs ->
  forall n,
    for_each fs n
      (fun n f =>
         bind (get f "external_research" VNone)
              (fun ext => Ok (if truthy ext then (n + 1)%Z else n)))
    = Ok (n + Z.of_nat (List.length (filter Views.has_external_research fs)))%Z.
Proof.
  induction 1 as [|f fs [kvs ->] _ IH]; intros n.
  - cbn. f_equal. lia.
  - cbn [for_each get bind filter Views.has_external_research].
    destruct (lookup "external_research" kvs) as [v|]; cbn [truthy].
    + destruct (truthy v); rewrite IH; f_equal; cbn [List.length]; lia.
    + rewrite IH. reflexivity.
Qed.

(** C2: the process summary is the numbered plan, the number of findings, and
    as its external-sources line the number of findings that carry a non-empty
    [external_research] entry. *)
Theorem process_summary_counts_external_research :
  forall (result : value) (plan findings : list value),
    get result "research_plan" (VList []) = Ok (VList plan) ->
    get result "findings" (VList []) = Ok (VList findings) ->
    Forall Views.is_dict findings ->
    Gradio.process_summary result
    = Ok ("## Research Process" ++ nl ++ nl ++
          "### Research Plan:" ++ nl ++
          PyStr.cat (map Views.numbered_step (enumerate 1 plan)) ++
          nl ++ "### Findings Summary:" ++ nl ++
          "- Total research steps completed: " ++
            PyStr.of_Z (Z.of_nat (List.length findings)) ++ nl ++
          "- External sources consulted: " ++
            PyStr.of_Z (Z.of_nat (List.length (filter Views.has_external_research findings))) ++
            nl).
Proof.
  intros result plan findings Hplan Hfind Hdict.
  unfold Gradio.process_summary.
  rewrite Hplan, Hfind. cbn [bind iterate len].
  rewrite (for_each_append Views.numbered_step).
  - cbn [bind]. rewrite (count_external_research findings Hdict 0). cbn [bind].
    rewrite Z.add_0_l. now rewrite !append_assoc.
  - now intros acc [i step].
Qed.

Lemma process_summary_counts_external_research_witness :
  Gradio.process_summary Scenario.entanglement
  = Ok ("## Research Process" ++ nl ++ nl ++
        "### Research Plan:" ++ nl ++
        "1. Define terms" ++ nl ++
        "2. Survey literature" ++ nl ++
        nl ++ "### Findings Summary:" ++ nl ++
        "- Total research steps completed: 1" ++ nl ++
        "- External sources consulted: 0" ++ nl).
Proof.
  apply (process_summary_counts_external_research Scenario.entanglement
           [VStr "Define terms"; VStr "Survey literature"]
           [Scenario.entanglement_finding]).
  - reflexivity.
  - reflexivity.
  - repeat constructor. unfold Views.is_dict, Scenario.entanglement_finding. eauto.
Defined.

(** C2, counterexample: in the specification's scenario the one finding has
    [sources_used.external_sources = 2] and no [external_research] entry, and
    the summary reports 0 external sources, not 1. *)
Lemma scenario_reports_no_external_source :
  bind (getitem Scenario.entanglement_finding "sources_used")
       (fun s => getitem s "external_sources") = Ok (VInt 2)
  /\ exists text,
       Gradio.process_summary Scenario.entanglement = Ok text
       /\ contains "External sources consulted: 0" text = true
       /\ contains "External sources consulted: 1" text = false.
Proof.
  split; [reflexivity|].
  eexists. split; [reflexivity|]. split; reflexivity.
Qed.

(** ** Quality summary *)

(** C1: without a quality assessment the summary is the bare heading and
    nothing fails; with one whose confidence is a number nothing fails either,
    and each other missing field shows its default: N/A for the score, 0 for
    the three counts, no line for the indicators. *)
Theorem quality_summary_defaults :
  forall (result qa : value),
    get result "quality_assessment" (VDict []) = Ok qa ->
    (truthy qa = false ->
     Gradio.quality_summary result = Ok ("## Quality Assessment" ++ nl ++ nl))
    /\ (forall (kvs indicators : list (string * value)) (confidence : value) (level : string),
          qa = VDict kvs ->
          lookup "confidence_assessment" kvs = Some confidence ->
          format_2f confidence = Ok level ->
          get qa "quality_indicators" (VDict []) = Ok (VDict indicators) ->
          Gradio.quality_summary result
          = Ok ("## Quality Assessment" ++ nl ++ nl ++
                "- **Overall Quality Score:** " ++
                  Views.field kvs "overall_quality_score" "N/A" ++ "/10" ++ nl ++
                "- **Confidence Level:** " ++ level ++ nl ++
                "- **Total Findings:** " ++ Views.field kvs "total_findings" "0" ++ nl ++
                "- **External Sources Used:** " ++
                  Views.field kvs "external_sources_used" "0" ++ nl ++
                "- **Source Diversity:** " ++ Views.field kvs "source_diversity" "0" ++ nl ++
                nl ++ "### Quality Indicators:" ++ nl ++
                PyStr.cat (map Views.indicator_line indicators))).
Proof.
  intros result qa Hqa. split.
  - intros Hfalsy. unfold Gradio.quality_summary. rewrite Hqa. cbn [bind].
    now rewrite Hfalsy.
  - intros kvs indicators confidence level -> Hconf Hlevel Hind.
    unfold Gradio.quality_summary. rewrite Hqa. cbn [bind].
    replace (truthy (VDict kvs)) with true by (destruct kvs; [discriminate | reflexivity]).
    rewrite Hind. cbn [get bind items]. rewrite Hconf, Hlevel. cbn [bind].
    rewrite (for_each_append Views.indicator_line).
    + unfold Views.field.
      destruct (lookup "overall_quality_score" kvs), (lookup "total_findings" kvs),
        (lookup "external_sources_used" kvs), (lookup "source_diversity" kvs);
        cbn [str repr]; now rewrite !append_assoc.
    + now intros acc [indicator status].
Qed.

Lemma quality_summary_defaults_witness :
  Gradio.quality_summary Scenario.confidence_only
  = Ok ("## Quality Assessment" ++ nl ++ nl ++
        "- **Overall Quality Score:** N/A/10" ++ nl ++
        "- **Confidence Level:** 0.80" ++ nl ++
        "- **Total Findings:** 0" ++ nl ++
        "- **External Sources Used:** 0" ++ nl ++
        "- **Source Diversity:** 0" ++ nl ++
        nl ++ "### Quality Indicators:" ++ nl).
Proof.
  exact (proj2 (quality_summary_defaults Scenario.confidence_only _ eq_refl)
               _ [] _ "0.80" eq_refl eq_refl eq_refl eq_refl).
Defined.

(** C1, counterexample: a result without a quality assessment gets the bare
    heading, in which no field is rendered at all; and one whose assessment has
    a score but no confidence makes the summary raise, which
    [conduct_research] turns into a failed run. *)
Lemma quality_summary_renders_no_defaults :
  Gradio.quality_summary Scenario.unassessed = Ok ("## Quality Assessment" ++ nl ++ nl)
  /\ contains "N/A" ("## Quality Assessment" ++ nl ++ nl) = false
  /\ Gradio.quality_summary Scenario.score_only
     = Raise {| exn_type := ValueError;
                exn_text := "Unknown format code 'f' for object of type 'str'" |}
  /\ fst (fst (Gradio.conduct_research (Ok Scenario.score_only_agent) "2026-01-01T10:00:00"
                 Scenario.fresh "What is quantum entanglement?"))
     = (VStr "Research failed: Unknown format code 'f' for object of type 'str'", "", "", "").
Proof. repeat split; reflexivity. Qed.

(** ** Quality radar *)

(** Which exceptions the arithmetic can raise. *)


Lemma float_of_number_raises (n : number) (e : exn) :
  float_of_number n = Raise e -> exn_type e = OverflowError.
Proof.
  destruct n as [z|f]; cbn; [|discriminate].
  unfold float_of_int. destruct (PyFloat.is_inf _); intros H; inversion H; reflexivity.
Qed.








Ltac bind_step H :=
  match type of H with
  | context [bind ?e _] =>
      let E := fresh "E" in
      destruct e eqn:E; cbn [bind] in H
  end.






(** ** Splitting text at a marker *)

Lemma prefix_cons (a b : ascii) (p s : string) :
  String.prefix (String a p) (String b s) = true -> a = b /\ String.prefix p s = true.
Proof.
  cbn [String.prefix]. destruct (ascii_dec a b) as [->|]; [now split | discriminate].
Qed.

Lemma prefix_split (p s : string) :
  String.prefix p s = true -> exists t, s = p ++ t.
Proof.
  revert s. induction p as [|a p IH]; intros s H.
  - now exists s.
  - destruct s as [|b s]; [discriminate|].
    apply prefix_cons in H as [-> H]. destruct (IH _ H) as [t ->]. now exists t.
Qed.

(** A prefix of [x ++ q] lies within [x] or runs over into [q]. *)
Lemma prefix_app_cases (p x q : string) :
  String.prefix p (x ++ q) = true ->
  String.prefix p x = true \/ exists r, p = x ++ r /\ String.prefix r q = true.
Proof.
  revert p. induction x as [|a x IH]; intros p H.
  - right. now exists p.
  - destruct p as [|b p]; [now left|].
    apply prefix_cons in H as [-> H].
    destruct (IH _ H) as [Hin | [r [-> Hr]]].
    + left. cbn. destruct (ascii_dec a a); [assumption | contradiction].
    + right. now exists r.
Qed.

Lemma prefix_refl (p : string) : String.prefix p p = true.
Proof. rewrite <- (append_nil_r p) at 2. apply prefix_app. Qed.

Lemma contains_prefix (sep s : string) : String.prefix sep s = true -> contains sep s = true.
Proof. intros H. destruct s; cbn [contains]; now rewrite H. Qed.

Lemma not_contains_suffix (sep a b : string) :
  contains sep (a ++ b) = false -> contains sep b = false.
Proof.
  intros H. destruct (contains sep b) eqn:E; [|reflexivity].
  now rewrite (contains_app_l sep a b E) in H.
Qed.

Lemma length_append (a b : string) :
  String.length (a ++ b) = (String.length a + String.length b)%nat.
Proof. induction a as [|x a IH]; cbn; [reflexivity | now rewrite IH]. Qed.

Lemma append_snoc_inv (u v b : string) (c : ascii) :
  u ++ v = b ++ String c "" -> v <> "" ->
  exists v0, v = v0 ++ String c "" /\ u ++ v0 = b.
Proof.
  revert b. induction u as [|a u IH]; intros b H Hv.
  - cbn in H. subst v. now exists b.
  - destruct b as [|a' b]; cbn in H.
    + inversion H as [[Ha Hnil]]. destruct u; [cbn in Hnil; congruence | discriminate].
    + inversion H as [[Ha Hrest]]. destruct (IH _ Hrest Hv) as [v0 [-> <-]].
      now exists v0.
Qed.

Lemma char_free_app (c : ascii) (a b : string) :
  Views.char_free c (a ++ b) = Views.char_free c a && Views.char_free c b.
Proof.
  induction a as [|x a IH]; cbn; [reflexivity|]. now rewrite IH, andb_assoc.
Qed.

Lemma char_free_snoc (c : ascii) (a : string) : Views.char_free c (a ++ String c "") = false.
Proof.
  rewrite char_free_app. cbn. rewrite Ascii.eqb_refl. cbn. apply andb_false_r.
Qed.

(** When the last character of a marker occurs nowhere else in it, no
    occurrence of the marker can start before a copy of it and end inside. *)
Lemma no_straddle (body : string) (c : ascii) (x y : string) :
  Views.char_free c body = true ->
  x <> "" ->
  contains (body ++ String c "") x = false ->
  String.prefix (body ++ String c "") (x ++ (body ++ String c "") ++ y) = false.
Proof.
  intros Hfree Hx Hnot.
  destruct (String.prefix _ (x ++ _)) eqn:H; [exfalso | reflexivity].
  apply prefix_app_cases in H as [Hin | [r [Hsep Hr]]].
  - apply contains_prefix in Hin. congruence.
  - destruct r as [|r1 r'].
    + rewrite append_nil_r in Hsep. rewrite Hsep in Hnot.
      rewrite (contains_prefix x x (prefix_refl x)) in Hnot. discriminate.
    + apply prefix_app_cases in Hr as [Hin | [r2 [Hlong _]]].
      * apply prefix_split in Hin as [t Ht].
        assert (Hlen : String.length t = String.length x).
        { apply (f_equal String.length) in Hsep, Ht.
          rewrite !length_append in *. lia. }
        assert (Ht0 : t <> "") by (destruct t, x; cbn in Hlen; congruence).
        symmetry in Hsep. apply append_snoc_inv in Hsep as [r0 [Hr0 _]]; [|discriminate].
        symmetry in Ht. apply append_snoc_inv in Ht as [t0 [_ Hbody]]; [|assumption].
        rewrite Hr0 in Hbody. rewrite <- Hbody in Hfree.
        rewrite char_free_app, char_free_snoc in Hfree. discriminate.
      * apply (f_equal String.length) in Hsep, Hlong.
        rewrite !length_append in *. destruct x; [contradiction|]. cbn in *. lia.
Qed.

(** The scan passes over the rest of a matched marker. *)
Lemma split_go_skip (sep t : string) :
  forall cur rest,
    split_go sep (String.length t) cur (t ++ rest) = split_go sep 0 cur rest.
Proof.
  induction t as [|a t IH]; intros cur rest; [reflexivity|]. cbn. apply IH.
Qed.

Lemma split_go_pass (sep a : string) :
  forall cur rest,
    clear_before sep a rest ->
    split_go sep 0 cur (a ++ rest) = split_go sep 0 (cur ++ a) rest.
Proof.
  induction a as [|x a IH]; intros cur rest Hclear.
  - now rewrite append_nil_r.
  - cbn [append split_go].
    change (String x (a ++ rest)) with (String x a ++ rest).
    rewrite (Hclear "" (String x a) eq_refl) by discriminate.
    rewrite IH.
    + now rewrite append_assoc.
    + intros a1 a2 -> Hne. apply (Hclear (String x a1) a2 eq_refl Hne).
Qed.

Lemma split_go_at (sep : string) (cur rest : string) :
  sep <> "" ->
  split_go sep 0 cur (sep ++ rest) = cur :: split_go sep 0 "" rest.
Proof.
  intros Hne. destruct sep as [|c sep']; [contradiction|].
  cbn [append split_go].
  change (String c (sep' ++ rest)) with (String c sep' ++ rest).
  rewrite prefix_app.
  replace (String.length (String c sep') - 1)%nat with (String.length sep')
    by (cbn [String.length]; lia).
  now rewrite split_go_skip.
Qed.

(** Up to the first occurrence of the marker. *)
Lemma split_first (sep a rest : string) :
  sep <> "" ->
  clear_before sep a (sep ++ rest) ->
  split sep (a ++ sep ++ rest) = a :: split sep rest.
Proof.
  intros Hne Hclear. unfold split.
  rewrite split_go_pass by assumption. cbn [append].
  now rewrite split_go_at.
Qed.

Lemma split_go_head (sep s : string) :
  forall skip cur, exists h tl, split_go sep skip cur s = (cur ++ h) :: tl.
Proof.
  induction s as [|c s IH]; intros skip cur.
  - exists "", []. cbn. now rewrite append_nil_r.
  - cbn [split_go]. destruct skip as [|k].
    + destruct (String.prefix sep (String c s)).
      * exists "", (split_go sep (String.length sep - 1) "" s). now rewrite append_nil_r.
      * destruct (IH 0%nat (cur ++ String c "")) as [h [tl ->]].
        exists (String c h), tl. now rewrite append_assoc.
    + apply IH.
Qed.

Lemma contains_first_occurrence (sep s : string) :
  sep <> "" ->
  contains sep s = true ->
  exists a rest, s = a ++ sep ++ rest /\ clear_before sep a (sep ++ rest).
Proof.
  intros Hne. induction s as [|c s IH]; intros H.
  - cbn in H. destruct sep; [contradiction | discriminate].
  - cbn [contains] in H. destruct (String.prefix sep (String c s)) eqn:Hp.
    + apply prefix_split in Hp as [t Ht]. exists "", t. split; [exact Ht|].
      intros a1 a2 Ha Hn. destruct a1, a2; cbn in Ha; congruence.
    + cbn in H. destruct (IH H) as [a [rest [-> Hclear]]].
      exists (String c a), rest. split; [reflexivity|].
      intros a1 a2 Ha Hn. destruct a1 as [|x a1].
      * cbn in Ha. subst a2. exact Hp.
      * cbn in Ha. inversion Ha. subst. eapply Hclear; [reflexivity | assumption].
Qed.

Lemma append_eq_append (a1 a2 u v : string) :
  a1 ++ a2 = u ++ v ->
  (exists w, a1 = u ++ w /\ v = w ++ a2) \/ (exists w, u = a1 ++ w /\ a2 = w ++ v).
Proof.
  revert u. induction a1 as [|x a1 IH]; intros u H.
  - right. exists u. now split.
  - destruct u as [|y u].
    + left. exists (String x a1). now split.
    + cbn in H. inversion H as [[Hx Hrest]].
      destruct (IH _ Hrest) as [[w [-> ->]] | [w [-> ->]]].
      * left. now exists w.
      * right. now exists w.
Qed.

Lemma prefix_first_char (c : ascii) (p s rest : string) :
  Views.char_free c s = true ->
  forall w a2, s = w ++ a2 -> a2 <> "" -> String.prefix (String c p) (a2 ++ rest) = false.
Proof.
  intros Hfree w a2 -> Hne. rewrite char_free_app in Hfree.
  apply andb_prop in Hfree as [_ Hfree].
  destruct a2 as [|x a2]; [contradiction|].
  cbn in Hfree. apply andb_prop in Hfree as [Hx _].
  cbn. destruct (ascii_dec c x) as [->|]; [|reflexivity].
  now rewrite Ascii.eqb_refl in Hx.
Qed.

(** ** Key findings between the markers *)

Lemma key_clear_of_prefix (pre rest : string) :
  contains "KEY_FINDINGS:" pre = false ->
  PyStr.clear_before "KEY_FINDINGS:" pre ("KEY_FINDINGS:" ++ rest).
Proof.
  intros Hnot a1 a2 -> Hne.
  apply (no_straddle "KEY_FINDINGS" ":" a2 rest); [reflexivity | assumption |].
  eapply not_contains_suffix, Hnot.
Qed.

Lemma new_clear_of_middle (mid rest : string) :
  contains "NEW_CONCEPTS:" mid = false ->
  PyStr.clear_before "NEW_CONCEPTS:" mid ("NEW_CONCEPTS:" ++ rest).
Proof.
  intros Hnot a1 a2 -> Hne.
  apply (no_straddle "NEW_CONCEPTS" ":" a2 rest); [reflexivity | assumption |].
  eapply not_contains_suffix, Hnot.
Qed.

(** No [KEY_FINDINGS:] starts in the middle part or in the closing marker. *)
Lemma key_clear_of_middle (mid post : string) :
  contains "KEY_FINDINGS:" mid = false ->
  PyStr.clear_before "KEY_FINDINGS:" (mid ++ "NEW_CONCEPTS:") post.
Proof.
  intros Hnot a1 a2 Heq Hne.
  symmetry in Heq. apply append_eq_append in Heq as [[w [_ Hnew]] | [w [Hmid ->]]].
  - eapply (prefix_first_char "K" "EY_FINDINGS:" "NEW_CONCEPTS:"); eauto.
  - destruct (String.prefix _ _) eqn:H; [exfalso | reflexivity].
    rewrite append_assoc in H.
    apply prefix_app_cases in H as [Hin | [r [Hkey Hr]]].
    + apply contains_prefix in Hin. subst mid.
      apply not_contains_suffix in Hnot. congruence.
    + destruct r as [|r1 [|r2 r]].
      * rewrite append_nil_r in Hkey. subst w mid.
        apply not_contains_suffix in Hnot.
        now rewrite (contains_prefix _ _ (prefix_refl _)) in Hnot.
      * apply prefix_cons in Hr as [-> _]. symmetry in Hkey.
        apply (append_snoc_inv w "N" "KEY_FINDINGS" ":") in Hkey as [v0 [Hv _]];
          [|discriminate].
        destruct v0 as [|? [|]]; discriminate.
      * apply prefix_cons in Hr as [-> Hr]. apply prefix_cons in Hr as [-> _].
        assert (Hc : contains "NE" "KEY_FINDINGS:" = true).
        { rewrite Hkey. apply (contains_mid "NE" w r). }
        discriminate.
Qed.

Lemma key_findings_between (pre mid post : string) :
  contains "KEY_FINDINGS:" pre = false ->
  contains "KEY_FINDINGS:" mid = false ->
  contains "NEW_CONCEPTS:" mid = false ->
  Streamlit.key_findings (VStr (pre ++ "KEY_FINDINGS:" ++ mid ++ "NEW_CONCEPTS:" ++ post))
  = Ok (Some (strip mid)).
Proof.
  intros Hpre Hmid Hnew. unfold Streamlit.key_findings.
  cbn [Streamlit.contains_op bind]. rewrite contains_mid.
  cbn [Streamlit.split_method bind].
  rewrite split_first; [|discriminate | now apply key_clear_of_prefix].
  unfold split at 1.
  rewrite <- (append_assoc mid), split_go_pass by now apply key_clear_of_middle.
  destruct (split_go_head "KEY_FINDINGS:" post 0 ("" ++ mid ++ "NEW_CONCEPTS:")) as [h [tl ->]].
  cbn [Streamlit.index nth_error bind append].
  rewrite append_assoc.
  rewrite split_first; [|discriminate | now apply new_clear_of_middle].
  reflexivity.
Qed.

Lemma key_findings_absent (analysis : string) :
  contains "KEY_FINDINGS:" analysis = false ->
  Streamlit.key_findings (VStr analysis) = Ok None.
Proof.
  intros H. unfold Streamlit.key_findings. cbn [Streamlit.contains_op bind]. now rewrite H.
Qed.

Lemma key_findings_total (analysis : string) :
  exists r, Streamlit.key_findings (VStr analysis) = Ok r.
Proof.
  unfold Streamlit.key_findings. cbn [Streamlit.contains_op bind].
  destruct (contains "KEY_FINDINGS:" analysis) eqn:H; [|now eexists].
  apply contains_first_occurrence in H as [a [rest [-> Hclear]]]; [|discriminate].
  cbn [Streamlit.split_method bind].
  rewrite split_first; [|discriminate | assumption].
  unfold split at 1.
  destruct (split_go_head "KEY_FINDINGS:" rest 0 "") as [h [tl ->]].
  cbn [Streamlit.index nth_error bind append].
  unfold split.
  destruct (split_go_head "NEW_CONCEPTS:" h 0 "") as [h' [tl' ->]].
  cbn [Streamlit.index nth_error bind append]. now eexists.
Qed.

Lemma contains_clear (sep a : string) :
  contains sep a = false -> PyStr.clear_before sep a "".
Proof.
  intros Hnot a1 a2 -> Hne. rewrite append_nil_r.
  destruct (String.prefix sep a2) eqn:H; [|reflexivity].
  apply contains_prefix in H. apply not_contains_suffix in Hnot. congruence.
Qed.

Lemma split_absent (sep s : string) :
  contains sep s = false -> split sep s = [s].
Proof.
  intros H. unfold split. rewrite <- (append_nil_r s) at 1.
  rewrite split_go_pass by now apply contains_clear. reflexivity.
Qed.

Lemma clear_contains (sep a rest : string) :
  sep <> "" -> PyStr.clear_before sep a (sep ++ rest) -> contains sep a = false.
Proof.
  intros Hne Hclear. destruct (contains sep a) eqn:H; [exfalso | reflexivity].
  apply contains_first_occurrence in H as (x & y & -> & _); [|assumption].
  assert (Hp : String.prefix sep ((sep ++ y) ++ sep ++ rest) = true)
    by (rewrite append_assoc; apply prefix_app).
  rewrite (Hclear x (sep ++ y) eq_refl) in Hp; [discriminate|].
  destruct sep; [contradiction | discriminate].
Qed.

Lemma prefix_extends (p s t : string) :
  String.prefix p s = true -> String.prefix p (s ++ t) = true.
Proof.
  intros H. apply prefix_split in H as [u ->]. rewrite append_assoc. apply prefix_app.
Qed.

Lemma contains_cons_false (sep : string) (c : ascii) (s : string) :
  String.prefix sep (String c s) = false -> contains sep s = false ->
  contains sep (String c s) = false.
Proof. intros Hp Hs. cbn [contains]. now rewrite Hp, Hs. Qed.

(** Every text splits into a part free of both markers and a rest that is
    empty or begins with a marker. *)
Lemma segment_exists (r : string) :
  exists seg rest,
    r = seg ++ rest
    /\ contains "KEY_FINDINGS:" seg = false
    /\ contains "NEW_CONCEPTS:" seg = false
    /\ Views.ends_segment rest = true.
Proof.
  induction r as [|c r IH].
  - exists "", "". repeat split.
  - destruct (String.prefix "KEY_FINDINGS:" (String c r)) eqn:Hk.
    { exists "", (String c r). repeat split. unfold Views.ends_segment. rewrite Hk.
      now rewrite orb_true_r. }
    destruct (String.prefix "NEW_CONCEPTS:" (String c r)) eqn:Hn.
    { exists "", (String c r). repeat split. unfold Views.ends_segment. rewrite Hn.
      now rewrite orb_true_r. }
    destruct IH as (seg & rest & -> & Hks & Hns & Hend).
    exists (String c seg), rest. split; [reflexivity|]. split; [|split; [|exact Hend]].
    + apply contains_cons_false; [|exact Hks].
      destruct (String.prefix _ (String c seg)) eqn:Hp; [|reflexivity].
      apply (prefix_extends _ _ rest) in Hp. cbn [append] in Hp. congruence.
    + apply contains_cons_false; [|exact Hns].
      destruct (String.prefix _ (String c seg)) eqn:Hp; [|reflexivity].
      apply (prefix_extends _ _ rest) in Hp. cbn [append] in Hp. congruence.
Qed.

Lemma key_findings_segment (pre seg rest : string) :
  contains "KEY_FINDINGS:" pre = false ->
  contains "KEY_FINDINGS:" seg = false ->
  contains "NEW_CONCEPTS:" seg = false ->
  Views.ends_segment rest = true ->
  Streamlit.key_findings (VStr (pre ++ "KEY_FINDINGS:" ++ seg ++ rest)) = Ok (Some (strip seg)).
Proof.
  intros Hpre Hseg Hnew Hend. unfold Views.ends_segment in Hend.
  apply orb_true_iff in Hend as [Hend | Hend]; [apply orb_true_iff in Hend as [Hend | Hend]|].
  - destruct rest; [|discriminate]. rewrite append_nil_r.
    unfold Streamlit.key_findings.
    cbn [Streamlit.contains_op bind]. rewrite contains_mid.
    cbn [Streamlit.split_method bind].
    rewrite split_first; [|discriminate | now apply key_clear_of_prefix].
    rewrite (split_absent _ seg Hseg).
    cbn [Streamlit.index nth_error bind].
    rewrite (split_absent _ seg Hnew). reflexivity.
  - apply prefix_split in Hend as [post ->].
    unfold Streamlit.key_findings.
    cbn [Streamlit.contains_op bind]. rewrite contains_mid.
    cbn [Streamlit.split_method bind].
    rewrite split_first; [|discriminate | now apply key_clear_of_prefix].
    rewrite split_first; [|discriminate | now apply key_clear_of_prefix].
    cbn [Streamlit.index nth_error bind].
    rewrite (split_absent _ seg Hnew). reflexivity.
  - apply prefix_split in Hend as [post ->].
    now apply key_findings_between.
Qed.

Lemma key_findings_shape (a : string) :
  contains "KEY_FINDINGS:" a = true ->
  exists pre seg rest,
    a = pre ++ "KEY_FINDINGS:" ++ seg ++ rest
    /\ contains "KEY_FINDINGS:" pre = false
    /\ contains "KEY_FINDINGS:" seg = false
    /\ contains "NEW_CONCEPTS:" seg = false
    /\ Views.ends_segment rest = true.
Proof.
  intros H. apply contains_first_occurrence in H as (pre & r & -> & Hclear); [|discriminate].
  destruct (segment_exists r) as (seg & rest & -> & Hk & Hn & Hend).
  exists pre, seg, rest. split; [reflexivity|]. split; [|now repeat split].
  eapply clear_contains; [discriminate | exact Hclear].
Qed.

Lemma for_each_append_on {A : Type} (P : A -> Prop) (g : A -> string)
    (body : string -> A -> outcome string) :
  (forall x, P x -> forall acc, body acc x = Ok (acc ++ g x)) ->
  forall xs, Forall P xs -> forall acc, for_each xs acc body = Ok (acc ++ cat (map g xs)).
Proof.
  intros Hbody xs HP. induction HP as [|x xs Hx _ IH]; intros acc.
  - cbn. now rewrite append_nil_r.
  - cbn [for_each map cat]. rewrite (Hbody x Hx). cbn [bind]. rewrite IH.
    now rewrite append_assoc.
Qed.

Lemma finding_block_has (f : value) (step : Z) (d : value) (a : string) :
  Views.finding_has f step d a ->
  forall report,
    Streamlit.finding_block report f
    = Ok (report ++ Views.step_heading step d ++
          match Streamlit.key_findings (VStr a) with
          | Ok (Some text) => text ++ nl
          | _ => ""
          end).
Proof.
  intros (Hstep & Hdesc & Han) report. unfold Streamlit.finding_block.
  rewrite Hstep. cbn [bind add to_number]. rewrite Hdesc. cbn [bind]. rewrite Han. cbn [bind].
  destruct (key_findings_total a) as [[text|] ->]; cbn [bind str repr];
    unfold Views.step_heading; rewrite ?append_assoc, ?append_nil_r; reflexivity.
Qed.

Lemma block_of_has (f : value) (step : Z) (d : value) (a : string) :
  Views.finding_has f step d a ->
  Views.block_of f
  = Views.step_heading step d ++
    match Streamlit.key_findings (VStr a) with
    | Ok (Some text) => text ++ nl
    | _ => ""
    end.
Proof.
  intros H. unfold Views.block_of. now rewrite (finding_block_has f step d a H "").
Qed.

Lemma finding_has_unique (f : value) (s1 s2 : Z) (d1 d2 : value) (a1 a2 : string) :
  Views.finding_has f s1 d1 a1 -> Views.finding_has f s2 d2 a2 ->
  s1 = s2 /\ d1 = d2 /\ a1 = a2.
Proof.
  intros (A1 & B1 & C1) (A2 & B2 & C2). repeat split; congruence.
Qed.

(** C7: for findings that carry a step index, a description and a text as
    analysis, the report is generated and its Key Findings section holds one
    block per finding, in order: the step heading alone when the analysis has
    no [KEY_FINDINGS:], and otherwise the heading followed by the stripped
    text that runs from behind the first [KEY_FINDINGS:] to the next
    [KEY_FINDINGS:] or [NEW_CONCEPTS:], or to the end of the analysis when no
    marker follows.  Every analysis that has a [KEY_FINDINGS:] reads this way,
    so the two cases leave no analysis out. *)
Theorem markdown_report_key_findings_up_to_next_marker :
  forall (now : string) (result : value) (question : string)
         (plan findings : list value) (kvs : list (string * value)),
    get result "research_plan" (VList []) = Ok (VList plan) ->
    get result "findings" (VList []) = Ok (VList findings) ->
    get result "quality_assessment" (VDict []) = Ok (VDict kvs) ->
    Forall (fun f => exists step d a, Views.finding_has f step d a) findings ->
    exists before blocks after,
      Streamlit.generate_markdown_report now result question
      = Ok (before ++ cat blocks ++ after)
      /\ Forall2
           (fun f block =>
              forall step d a,
                Views.finding_has f step d a ->
                (contains "KEY_FINDINGS:" a = false ->
                 block = Views.step_heading step d)
                /\ (forall pre seg rest,
                      a = pre ++ "KEY_FINDINGS:" ++ seg ++ rest ->
                      contains "KEY_FINDINGS:" pre = false ->
                      contains "KEY_FINDINGS:" seg = false ->
                      contains "NEW_CONCEPTS:" seg = false ->
                      Views.ends_segment rest = true ->
                      block = Views.step_heading step d ++ strip seg ++ nl)
                /\ (contains "KEY_FINDINGS:" a = true ->
                    exists pre seg rest,
                      a = pre ++ "KEY_FINDINGS:" ++ seg ++ rest
                      /\ contains "KEY_FINDINGS:" pre = false
                      /\ contains "KEY_FINDINGS:" seg = false
                      /\ contains "NEW_CONCEPTS:" seg = false
                      /\ Views.ends_segment rest = true))
           findings blocks.
Proof.
  intros now result question plan findings kvs Hplan Hfind Hqa Hwf.
  unfold Streamlit.generate_markdown_report.
  destruct (get result "final_answer" _) as [fa|e] eqn:Hfa;
    [|destruct result; cbn in Hplan, Hfa; discriminate].
  cbn [bind]. rewrite Hplan, Hfind, Hqa. cbn [bind].
  set (head := "# Research Report" ++ _).
  assert (Hp : exists p,
             (if truthy (VList plan)
              then bind (iterate (VList plan)) (fun steps =>
                     for_each (enumerate 1 steps) (head ++ nl ++ "### Research Plan" ++ nl)
                       (fun report '(i, step) =>
                          Ok (report ++ PyStr.of_Z i ++ ". " ++ str step ++ nl)))
              else Ok head) = Ok (head ++ p)).
  { destruct plan as [|s plan]; cbn [truthy].
    - exists "". now rewrite append_nil_r.
    - cbn [iterate bind].
      exists (nl ++ "### Research Plan" ++ nl ++
              cat (map Views.numbered_step (enumerate 1 (s :: plan)))).
      rewrite (for_each_append Views.numbered_step); [|now intros acc [i step]].
      now rewrite !append_assoc. }
  destruct Hp as [p ->]. cbn [bind].
  assert (Hf : exists fh,
             (if truthy (VList findings)
              then bind (iterate (VList findings)) (fun fs =>
                     for_each fs ((head ++ p) ++ nl ++ "### Key Findings" ++ nl)
                       Streamlit.finding_block)
              else Ok (head ++ p))
             = Ok ((head ++ p ++ fh) ++ cat (map Views.block_of findings))).
  { destruct findings as [|f fs] eqn:Ef; cbn [truthy].
    - exists "". cbn. now rewrite !append_nil_r.
    - cbn [iterate bind]. rewrite <- Ef in *. exists (nl ++ "### Key Findings" ++ nl).
      assert (Hbody : forall x,
                 (exists step d a, Views.finding_has x step d a) ->
                 forall acc, Streamlit.finding_block acc x = Ok (acc ++ Views.block_of x)).
      { intros x (step & d & a & Hx) acc.
        rewrite (finding_block_has x step d a Hx), (block_of_has x step d a Hx).
        reflexivity. }
      rewrite (for_each_append_on _ Views.block_of _ Hbody findings Hwf).
      rewrite !append_assoc. reflexivity. }
  destruct Hf as [fh ->]. cbn [bind].
  assert (Hq : exists q,
             (if truthy (VDict kvs)
              then
                bind (get (VDict kvs) "overall_quality_score" (VStr "N/A")) (fun v =>
                bind (get (VDict kvs) "confidence_assessment" (VStr "N/A")) (fun v0 =>
                bind (get (VDict kvs) "total_findings" (VInt 0)) (fun v1 =>
                bind (get (VDict kvs) "external_sources_used" (VInt 0)) (fun v2 =>
                Ok (((((((head ++ p ++ fh) ++ cat (map Views.block_of findings)) ++
                        nl ++ "## Quality Assessment" ++ nl) ++
                       "- Overall Quality Score: " ++ str v ++ "/10" ++ nl) ++
                      "- Confidence Level: " ++ str v0 ++ nl) ++
                     "- Total Findings: " ++ str v1 ++ nl) ++
                    "- External Sources Used: " ++ str v2 ++ nl)))))
              else Ok ((head ++ p ++ fh) ++ cat (map Views.block_of findings)))
             = Ok ((head ++ p ++ fh) ++ cat (map Views.block_of findings) ++ q)).
  { destruct kvs as [|kv kvs]; cbn [truthy].
    - exists "". now rewrite !append_nil_r.
    - cbn [get bind].
      exists (nl ++ "## Quality Assessment" ++ nl ++
              "- Overall Quality Score: " ++
                str (match lookup "overall_quality_score" (kv :: kvs) with
                     | Some v => v | None => VStr "N/A" end) ++ "/10" ++ nl ++
              "- Confidence Level: " ++
                str (match lookup "confidence_assessment" (kv :: kvs) with
                     | Some v => v | None => VStr "N/A" end) ++ nl ++
              "- Total Findings: " ++
                str (match lookup "total_findings" (kv :: kvs) with
                     | Some v => v | None => VInt 0 end) ++ nl ++
              "- External Sources Used: " ++
                str (match lookup "external_sources_used" (kv :: kvs) with
                     | Some v => v | None => VInt 0 end) ++ nl).
      now rewrite !append_assoc. }
  destruct Hq as [q ->]. cbn [bind].
  exists (head ++ p ++ fh), (map Views.block_of findings),
    (q ++ nl ++ "---" ++ nl ++ "*Generated by AI Research Agent on " ++ now ++ "*" ++ nl).
  split; [now rewrite !append_assoc|].
  clear -Hwf. induction Hwf as [|f fs (step & d & a & Hf) _ IH]; cbn [map]; constructor;
    [|exact IH].
  intros step' d' a' Hf'.
  destruct (finding_has_unique f step step' d d' a a' Hf Hf') as (<- & <- & <-).
  rewrite (block_of_has f step d a Hf). split; [|split].
  - intros Habsent. rewrite (key_findings_absent a Habsent). now rewrite append_nil_r.
  - intros pre seg rest -> Hpre Hseg Hnew Hend.
    now rewrite (key_findings_segment pre seg rest Hpre Hseg Hnew Hend).
  - apply key_findings_shape.
Qed.

Lemma markdown_report_key_findings_up_to_next_marker_witness :
  exists before block after,
    Streamlit.generate_markdown_report "2026-01-01 10:00:00" Scenario.entanglement
      "What is quantum entanglement?"
    = Ok (before ++ block ++ after)
    /\ block = nl ++ "#### Step 1: Define terms" ++ nl ++ "entanglement is..." ++ nl.
Proof.
  destruct (markdown_report_key_findings_up_to_next_marker
              "2026-01-01 10:00:00" Scenario.entanglement
              "What is quantum entanglement?"
              [VStr "Define terms"; VStr "Survey literature"]
              [Scenario.entanglement_finding] _ eq_refl eq_refl eq_refl)
    as (before & blocks & after & Hreport & Hblocks).
  - repeat constructor.
    exists 0%Z, (VStr "Define terms"),
      "KEY_FINDINGS: entanglement is... NEW_CONCEPTS: none".
    repeat split.
  - inversion Hblocks as [|f block fs bs Hblock Hrest]; subst.
    inversion Hrest; subst.
    exists before, block, after. split.
    + rewrite Hreport. cbn [cat]. now rewrite append_nil_r.
    + destruct (Hblock 0%Z (VStr "Define terms") _ (conj eq_refl (conj eq_refl eq_refl)))
        as (_ & Hsome & _).
      apply (Hsome "" " entanglement is... " "NEW_CONCEPTS: none"); reflexivity.
Defined.

(** C7, counterexample: an analysis that opens its key findings and has no
    [NEW_CONCEPTS:] still gets its block, the text up to the end; a
    [NEW_CONCEPTS:] in front of the [KEY_FINDINGS:] closes nothing, and of two
    [KEY_FINDINGS:] the first segment is taken.  A finding without a step
    index makes the generation fail, markers or not, and so does one whose
    analysis is no text. *)
Lemma key_findings_need_no_closing_marker :
  Streamlit.generate_markdown_report "2026-01-01 10:00:00" Scenario.unclosed
    "What is quantum entanglement?"
  = Ok ("# Research Report" ++ nl ++ nl ++
        "## Research Question" ++ nl ++
        "What is quantum entanglement?" ++ nl ++ nl ++
        "## Final Answer" ++ nl ++
        "No final answer generated" ++ nl ++ nl ++
        "## Research Process" ++ nl ++ nl ++
        "### Key Findings" ++ nl ++ nl ++
        "#### Step 1: Define terms" ++ nl ++
        "entanglement is..." ++ nl ++ nl ++
        "---" ++ nl ++
        "*Generated by AI Research Agent on 2026-01-01 10:00:00*" ++ nl)
  /\ contains "NEW_CONCEPTS:" "KEY_FINDINGS: entanglement is..." = false
  /\ Streamlit.key_findings (VStr "NEW_CONCEPTS: none KEY_FINDINGS: entanglement is...")
     = Ok (Some "entanglement is...")
  /\ Streamlit.key_findings (VStr "KEY_FINDINGS: one KEY_FINDINGS: two NEW_CONCEPTS: none")
     = Ok (Some "one")
  /\ Streamlit.generate_markdown_report "2026-01-01 10:00:00" Scenario.unnumbered
       "What is quantum entanglement?"
     = Raise {| exn_type := KeyError; exn_text := "'step'" |}
  /\ (exists text,
        Streamlit.generate_markdown_report "2026-01-01 10:00:00" Scenario.unanalysed
          "What is quantum entanglement?"
        = Raise {| exn_type := TypeError; exn_text := text |}).
Proof. repeat split; try (vm_compute; reflexivity). eexists. vm_compute. reflexivity. Qed.

(** ** UTF-8 texts and their code points *)

Lemma code_range (c : ascii) : (0 <= Json.code c < 256)%Z.
Proof.
  unfold Json.code. pose proof (nat_ascii_bounded c). lia.
Qed.

Lemma chr_code (c : ascii) : Json.chr (Json.code c) = c.
Proof.
  unfold Json.chr, Json.code. rewrite Nat2Z.id. apply ascii_nat_embedding.
Qed.

Lemma code_chr (n : Z) : (0 <= n < 256)%Z -> Json.code (Json.chr n) = n.
Proof.
  intros H. unfold Json.chr, Json.code. rewrite nat_ascii_embedding; lia.
Qed.

Lemma byte_code (c : ascii) : Json.byte (Json.code c) = String c "".
Proof. unfold Json.byte. now rewrite chr_code. Qed.

Ltac bools :=
  repeat match goal with
         | H : (_ && _)%bool = true |- _ => apply andb_prop in H as [? ?]
         | H : negb _ = true |- _ => apply negb_true_iff in H
         | H : (_ && _)%bool = false |- _ => apply andb_false_iff in H
         | H : (_ <=? _)%Z = true |- _ => apply Z.leb_le in H
         | H : (_ <=? _)%Z = false |- _ => apply Z.leb_gt in H
         | H : (_ <? _)%Z = true |- _ => apply Z.ltb_lt in H
         | H : (_ <? _)%Z = false |- _ => apply Z.ltb_ge in H
         | H : (_ =? _)%Z = true |- _ => apply Z.eqb_eq in H
         | H : (_ =? _)%Z = false |- _ => apply Z.eqb_neq in H
         end.

Lemma scalar_at_spec (s : string) (cp : Z) (len : nat) :
  Json.scalar_at s = Some (cp, len) ->
  Json.scalar cp /\ String.length (Json.encode_cp cp) = len /\
  exists rest, s = Json.encode_cp cp ++ rest.
Proof.
  unfold Json.scalar_at, Json.is_continuation.
  destruct s as [|b0 s1]; [discriminate|].
  pose proof (code_range b0) as R0.
  destruct (Json.code b0 <? 128)%Z eqn:E0.
  { intros H. inversion H; subst. bools. unfold Json.scalar, Json.encode_cp.
    apply Z.ltb_lt in E0 as E0'. rewrite E0'. rewrite byte_code.
    repeat split; try lia. now exists s1. }
  destruct s1 as [|b1 s2]; [discriminate|].
  pose proof (code_range b1) as R1.
  destruct ((194 <=? Json.code b0) && (Json.code b0 <=? 223))%Z%bool eqn:E1.
  { destruct ((128 <=? Json.code b1) && (Json.code b1 <=? 191))%Z%bool eqn:C1;
      [|discriminate].
    intros H. inversion H; subst. clear H. bools.
    set (cp := ((Json.code b0 - 192) * 64 + (Json.code b1 - 128))%Z).
    assert (Hcp : (128 <= cp < 2048)%Z) by (unfold cp; lia).
    assert (Hd : (cp / 64 = Json.code b0 - 192)%Z)
      by (unfold cp; Z.div_mod_to_equations; lia).
    assert (Hm : (cp mod 64 = Json.code b1 - 128)%Z)
      by (unfold cp; Z.div_mod_to_equations; lia).
    unfold Json.scalar, Json.encode_cp.
    replace (cp <? 128)%Z with false by (symmetry; apply Z.ltb_ge; lia).
    replace (cp <? 2048)%Z with true by (symmetry; apply Z.ltb_lt; lia).
    rewrite Hd, Hm.
    replace (192 + (Json.code b0 - 192))%Z with (Json.code b0) by lia.
    replace (128 + (Json.code b1 - 128))%Z with (Json.code b1) by lia.
    rewrite !byte_code. repeat split; try lia. now exists s2. }
  destruct s2 as [|b2 s3]; [discriminate|].
  pose proof (code_range b2) as R2.
  destruct ((224 <=? Json.code b0) && (Json.code b0 <=? 239))%Z%bool eqn:E2.
  { match goal with |- context [if ?c then _ else _] => destruct c eqn:C end;
      [|discriminate].
    intros H. inversion H; subst. clear H. bools.
    set (cp := ((Json.code b0 - 224) * 4096 + (Json.code b1 - 128) * 64
                + (Json.code b2 - 128))%Z) in *.
    assert (Hcp : (2048 <= cp < 65536)%Z) by (unfold cp in *; lia).
    assert (Hd : (cp / 4096 = Json.code b0 - 224)%Z)
      by (unfold cp; Z.div_mod_to_equations; lia).
    assert (Hm1 : ((cp / 64) mod 64 = Json.code b1 - 128)%Z)
      by (unfold cp; Z.div_mod_to_equations; lia).
    assert (Hm : (cp mod 64 = Json.code b2 - 128)%Z)
      by (unfold cp; Z.div_mod_to_equations; lia).
    unfold Json.scalar, Json.encode_cp.
    replace (cp <? 128)%Z with false by (symmetry; apply Z.ltb_ge; lia).
    replace (cp <? 2048)%Z with false by (symmetry; apply Z.ltb_ge; lia).
    replace (cp <? 65536)%Z with true by (symmetry; apply Z.ltb_lt; lia).
    rewrite Hd, Hm1, Hm.
    replace (224 + (Json.code b0 - 224))%Z with (Json.code b0) by lia.
    replace (128 + (Json.code b1 - 128))%Z with (Json.code b1) by lia.
    replace (128 + (Json.code b2 - 128))%Z with (Json.code b2) by lia.
    rewrite !byte_code. repeat split; try lia. now exists s3. }
  destruct s3 as [|b3 s4]; [discriminate|].
  pose proof (code_range b3) as R3.
  match goal with |- context [if ?c then _ else _] => destruct c eqn:C end;
    [|discriminate].
  intros H. inversion H; subst. clear H. bools.
  set (cp := ((Json.code b0 - 240) * 262144 + (Json.code b1 - 128) * 4096
              + (Json.code b2 - 128) * 64 + (Json.code b3 - 128))%Z) in *.
  assert (Hd : (cp / 262144 = Json.code b0 - 240)%Z)
    by (unfold cp; Z.div_mod_to_equations; lia).
  assert (Hm2 : ((cp / 4096) mod 64 = Json.code b1 - 128)%Z)
    by (unfold cp; Z.div_mod_to_equations; lia).
  assert (Hm1 : ((cp / 64) mod 64 = Json.code b2 - 128)%Z)
    by (unfold cp; Z.div_mod_to_equations; lia).
  assert (Hm : (cp mod 64 = Json.code b3 - 128)%Z)
    by (unfold cp; Z.div_mod_to_equations; lia).
  unfold Json.scalar, Json.encode_cp.
  replace (cp <? 128)%Z with false by (symmetry; apply Z.ltb_ge; lia).
  replace (cp <? 2048)%Z with false by (symmetry; apply Z.ltb_ge; lia).
  replace (cp <? 65536)%Z with false by (symmetry; apply Z.ltb_ge; lia).
  rewrite Hd, Hm2, Hm1, Hm.
  replace (240 + (Json.code b0 - 240))%Z with (Json.code b0) by lia.
  replace (128 + (Json.code b1 - 128))%Z with (Json.code b1) by lia.
  replace (128 + (Json.code b2 - 128))%Z with (Json.code b2) by lia.
  replace (128 + (Json.code b3 - 128))%Z with (Json.code b3) by lia.
  rewrite !byte_code. repeat split; try lia. now exists s4.
Qed.

Lemma decode_go_skip (pre rest : string) :
  Json.decode_go (String.length pre) (pre ++ rest) = Json.decode_go 0 rest.
Proof. induction pre as [|c pre IH]; [reflexivity | exact IH]. Qed.

Lemma valid_go_skip (pre rest : string) :
  Json.valid_go (String.length pre) (pre ++ rest) = Json.valid_go 0 rest.
Proof. induction pre as [|c pre IH]; [reflexivity | exact IH]. Qed.

Lemma encode_cp_nonempty (cp : Z) : Json.encode_cp cp <> "".
Proof.
  unfold Json.encode_cp, Json.byte. repeat destruct (_ <? _)%Z; discriminate.
Qed.

(** A well-formed text is the encoding of its code points, which are all
    scalar values. *)
Lemma decode_valid (s : string) :
  Json.valid_utf8 s = true ->
  cat (map Json.encode_cp (Json.decode s)) = s /\ Forall Json.scalar (Json.decode s).
Proof.
  unfold Json.valid_utf8, Json.decode.
  remember (String.length s) as n eqn:Hn.
  assert (Hle : (String.length s <= n)%nat) by lia. clear Hn.
  revert s Hle. induction n as [|n IH]; intros s Hle Hvalid.
  - destruct s; [now split | cbn in Hle; lia].
  - destruct s as [|b s']; [now split|].
    cbn [Json.valid_go Json.decode_go] in *.
    destruct (Json.scalar_at (String b s')) as [[cp len]|] eqn:Hat; [|discriminate].
    apply scalar_at_spec in Hat as (Hscalar & Hlen & rest & Hs).
    destruct (Json.encode_cp cp) as [|b' pre] eqn:Henc;
      [now apply encode_cp_nonempty in Henc|].
    + cbn in Hs. inversion Hs; subst b' s'. cbn in Hlen. subst len.
      cbn [Nat.sub] in *. rewrite Nat.sub_0_r in *.
      rewrite valid_go_skip in Hvalid. rewrite decode_go_skip.
      assert (Hrest : (String.length rest <= n)%nat).
      { cbn in Hle. rewrite length_append in Hle. lia. }
      destruct (IH rest Hrest Hvalid) as [Htext Hall].
      split.
      * cbn [map cat]. rewrite Henc, Htext. reflexivity.
      * now constructor.
Qed.

(** ** Escaped strings are read back *)

Lemma hex_digit_value (d : Z) :
  (0 <= d < 16)%Z ->
  exists c, Json.hex_digit d = String c "" /\ Json.hex_value c = Some d.
Proof.
  intros H.
  assert (Hd : (d = 0 \/ d = 1 \/ d = 2 \/ d = 3 \/ d = 4 \/ d = 5 \/ d = 6 \/ d = 7 \/
                d = 8 \/ d = 9 \/ d = 10 \/ d = 11 \/ d = 12 \/ d = 13 \/ d = 14 \/
                d = 15)%Z) by lia.
  repeat destruct Hd as [-> | Hd]; try subst d; eexists; split; reflexivity.
Qed.

Lemma scan_hex4 (high : option Z) (n : Z) (out t : string) :
  (0 <= n < 65536)%Z ->
  Json.scan (Json.Hex high 4 0) out (Json.hex4 n ++ t)
  = Json.scan (snd (Json.finish_unit high n out)) (fst (Json.finish_unit high n out)) t.
Proof.
  intros Hn. unfold Json.hex4.
  destruct (hex_digit_value (n / 4096)) as (c3 & -> & H3);
    [Z.div_mod_to_equations; lia|].
  destruct (hex_digit_value ((n / 256) mod 16)) as (c2 & -> & H2);
    [Z.div_mod_to_equations; lia|].
  destruct (hex_digit_value ((n / 16) mod 16)) as (c1 & -> & H1);
    [Z.div_mod_to_equations; lia|].
  destruct (hex_digit_value (n mod 16)) as (c0 & -> & H0);
    [Z.div_mod_to_equations; lia|].
  cbn [append Json.scan]. rewrite H3, H2, H1, H0.
  replace ((((0 * 16 + n / 4096) * 16 + (n / 256) mod 16) * 16 + (n / 16) mod 16) * 16
           + n mod 16)%Z with n by (Z.div_mod_to_equations; lia).
  destruct (Json.finish_unit high n out). reflexivity.
Qed.

Lemma eqb_chr_false (n : Z) (c : ascii) :
  (0 <= n < 256)%Z -> n <> Json.code c -> Ascii.eqb (Json.chr n) c = false.
Proof.
  intros Hn Hne. apply Ascii.eqb_neq. intros <-. now rewrite code_chr in Hne.
Qed.

Lemma scan_escape_cp (cp : Z) (out t : string) :
  Json.scalar cp ->
  Json.scan Json.Plain out (Json.escape_cp cp ++ t)
  = Json.scan Json.Plain (out ++ Json.encode_cp cp) t.
Proof.
  intros [Hrange Hsur]. unfold Json.escape_cp.
  destruct (cp =? 34)%Z eqn:E34; [bools; subst; reflexivity|].
  destruct (cp =? 92)%Z eqn:E92; [bools; subst; reflexivity|].
  destruct (cp =? 10)%Z eqn:E10; [bools; subst; reflexivity|].
  destruct (cp =? 13)%Z eqn:E13; [bools; subst; reflexivity|].
  destruct (cp =? 9)%Z eqn:E9; [bools; subst; reflexivity|].
  destruct (cp =? 8)%Z eqn:E8; [bools; subst; reflexivity|].
  destruct (cp =? 12)%Z eqn:E12; [bools; subst; reflexivity|].
  bools.
  destruct ((32 <=? cp) && (cp <=? 126))%Z%bool eqn:Eprint.
  - bools. unfold Json.byte. cbn [append Json.scan].
    rewrite (eqb_chr_false cp "034") by (try change (Json.code "034") with 34%Z; lia).
    rewrite (eqb_chr_false cp "\") by (try change (Json.code "\") with 92%Z; lia).
    rewrite code_chr by lia.
    replace (cp <? 32)%Z with false by (symmetry; apply Z.ltb_ge; lia).
    unfold Json.encode_cp, Json.byte.
    replace (cp <? 128)%Z with true by (symmetry; apply Z.ltb_lt; lia).
    reflexivity.
  - destruct (cp <? 65536)%Z eqn:Ebmp; bools.
    + change ("\u" ++ Json.hex4 cp) with (String "\" (String "u" (Json.hex4 cp))).
      cbn [append Json.scan]. cbn [Ascii.eqb Bool.eqb andb].
      rewrite scan_hex4 by lia. unfold Json.finish_unit, Json.is_high.
      replace ((55296 <=? cp) && (cp <=? 56319))%Z%bool with false; [reflexivity|].
      symmetry. apply andb_false_iff. destruct (55296 <=? cp)%Z eqn:E; [right | now left].
      bools. apply Z.leb_gt. lia.
    + set (hi := (55296 + (cp - 65536) / 1024)%Z).
      set (lo := (56320 + (cp - 65536) mod 1024)%Z).
      assert (Hhi : (55296 <= hi <= 56319)%Z)
        by (unfold hi; Z.div_mod_to_equations; lia).
      assert (Hlo : (56320 <= lo <= 57343)%Z)
        by (unfold lo; Z.div_mod_to_equations; lia).
      change ("\u" ++ Json.hex4 hi ++ "\u" ++ Json.hex4 lo)
        with (String "\" (String "u" (Json.hex4 hi ++ String "\" (String "u" (Json.hex4 lo))))).
      cbn [append Json.scan]. cbn [Ascii.eqb Bool.eqb andb].
      rewrite !append_assoc.
      rewrite scan_hex4 by lia. unfold Json.finish_unit at 1 2, Json.is_high.
      replace ((55296 <=? hi) && (hi <=? 56319))%Z%bool with true
        by (symmetry; apply andb_true_intro; split; apply Z.leb_le; lia).
      cbn [fst snd append Json.scan]. cbn [Ascii.eqb Bool.eqb andb].
      rewrite scan_hex4 by lia. unfold Json.finish_unit, Json.is_low.
      replace ((56320 <=? lo) && (lo <=? 57343))%Z%bool with true
        by (symmetry; apply andb_true_intro; split; apply Z.leb_le; lia).
      cbn [fst snd].
      replace (65536 + (hi - 55296) * 1024 + (lo - 56320))%Z with cp
        by (unfold hi, lo; Z.div_mod_to_equations; lia).
      reflexivity.
Qed.

Lemma scan_escaped (cps : list Z) :
  Forall Json.scalar cps ->
  forall out rest,
    Json.scan Json.Plain out (cat (map Json.escape_cp cps) ++ dquote ++ rest)
    = Some (out ++ cat (map Json.encode_cp cps), rest).
Proof.
  induction 1 as [|cp cps Hcp _ IH]; intros out rest.
  - cbn. now rewrite append_nil_r.
  - cbn [map cat]. rewrite append_assoc, scan_escape_cp by assumption.
    rewrite IH. now rewrite append_assoc.
Qed.

(** The text [encode_basestring_ascii] writes, without its opening quote, is
    scanned back to the original. *)
Lemma scan_basestring (s rest : string) :
  Json.valid_utf8 s = true ->
  exists tail,
    Json.encode_basestring_ascii s ++ rest = String "034" tail
    /\ Json.scan Json.Plain "" tail = Some (s, rest).
Proof.
  intros Hvalid. destruct (decode_valid s Hvalid) as [Htext Hall].
  exists (cat (map Json.escape_cp (Json.decode s)) ++ dquote ++ rest). split.
  - unfold Json.encode_basestring_ascii. now rewrite !append_assoc.
  - rewrite (scan_escaped _ Hall). now rewrite Htext.
Qed.

(** ** Numbers are read back *)

Lemma uint_digits (d : Decimal.uint) :
  Json.all_chars Json.is_digit (NilEmpty.string_of_uint d) = true.
Proof. induction d; cbn [NilEmpty.string_of_uint Json.all_chars]; auto. Qed.

Lemma to_uint_head (p : positive) (d : Decimal.uint) : Pos.to_uint p <> Decimal.D0 d.
Proof.
  intros H.
  assert (Hn : Decimal.unorm (Pos.to_uint p) = Pos.to_uint p).
  { rewrite <- DecimalPos.Unsigned.to_of, DecimalPos.Unsigned.of_to. reflexivity. }
  unfold Decimal.unorm in Hn.
  destruct (Decimal.nzhead (Pos.to_uint p)) eqn:Hh;
    try (rewrite <- Hn in H; discriminate H).
  - rewrite <- Hn in H. inversion H. subst d.
    apply (DecimalPos.Unsigned.to_uint_nonzero p). now rewrite <- Hn.
  - now apply DecimalFacts.nzhead_nonzero in Hh.
Qed.

(** The text of a positive integer: digits, the first of them not [0]. *)
Lemma pos_text (p : positive) :
  exists c r,
    PyStr.of_Z (Zpos p) = String c r
    /\ Json.is_digit c = true /\ c <> "0"%char
    /\ Json.all_chars Json.is_digit r = true.
Proof.
  unfold PyStr.of_Z. cbn [Z.to_int NilZero.string_of_int].
  pose proof (uint_digits (Pos.to_uint p)) as Hall.
  pose proof (to_uint_head p) as Hhead.
  pose proof (DecimalPos.Unsigned.to_uint_nonnil p) as Hnil.
  destruct (Pos.to_uint p) eqn:E; try contradiction;
    try (now elim (Hhead u));
    cbn [NilZero.string_of_uint NilEmpty.string_of_uint Json.all_chars] in *;
    apply andb_prop in Hall as [Hc Hr];
    eexists _, _; (split; [reflexivity|]); repeat split; auto; discriminate.
Qed.

Lemma neg_text (p : positive) : PyStr.of_Z (Zneg p) = String "-" (PyStr.of_Z (Zpos p)).
Proof. reflexivity. Qed.

Lemma all_chars_weaken (p q : ascii -> bool) (s : string) :
  (forall c, p c = true -> q c = true) ->
  Json.all_chars p s = true -> Json.all_chars q s = true.
Proof.
  intros Hpq. induction s as [|c s IH]; [reflexivity|]. cbn.
  intros H. apply andb_prop in H as [Hc Hs]. now rewrite (Hpq c Hc), IH.
Qed.

Lemma digit_is_number_char (c : ascii) :
  Json.is_digit c = true -> Json.is_number_char c = true.
Proof. intros H. unfold Json.is_number_char. now rewrite H. Qed.

Lemma span_all (p : ascii -> bool) (t rest : string) :
  Json.all_chars p t = true ->
  match rest with EmptyString => True | String c _ => p c = false end ->
  Json.span p (t ++ rest) = (t, rest).
Proof.
  intros Hall Hrest. induction t as [|c t IH].
  - cbn. destruct rest as [|c r]; [reflexivity|]. cbn. now rewrite Hrest.
  - cbn in Hall. apply andb_prop in Hall as [Hc Ht]. cbn. rewrite Hc, IH; auto.
Qed.

Lemma span_digits_all (t : string) :
  Json.all_chars Json.is_digit t = true -> Json.span Json.is_digit t = (t, "").
Proof.
  intros H. rewrite <- (append_nil_r t) at 1. now apply span_all.
Qed.

Lemma number_of_int_token (z : Z) : Json.number_of_token (PyStr.of_Z z) = Some (VInt z).
Proof.
  assert (Hback : option_map (fun d => VInt (Z.of_int d))
                    (NilZero.int_of_string (PyStr.of_Z z)) = Some (VInt z)).
  { unfold PyStr.of_Z. rewrite NilZero.isi.
    - cbn. now rewrite DecimalZ.of_to.
    - destruct z; cbn; try discriminate.
      intros H. inversion H. now apply (DecimalPos.Unsigned.to_uint_nonnil p).
    - destruct z; cbn; try discriminate.
      intros H. inversion H. now apply (DecimalPos.Unsigned.to_uint_nonnil p). }
  unfold Json.number_of_token.
  destruct z as [|p|p].
  - reflexivity.
  - destruct (pos_text p) as (c & r & Ht & Hc & Hz & Hr).
    rewrite Ht in *.
    assert (Hminus : c <> "-"%char) by (intros ->; discriminate).
    destruct (Ascii.eqb_spec c "-") as [|_]; [contradiction|].
    replace (match c with
             | "-"%char => (true, r)
             | _ => (false, String c r)
             end) with (false, String c r).
    2:{ destruct c as [[] [] [] [] [] [] [] []]; try reflexivity. now elim Hminus. }
    rewrite span_digits_all by (cbn; now rewrite Hc, Hr).
    cbn [Json.int_part_ok]. destruct (Ascii.eqb_spec c "0") as [|_]; [contradiction|].
    cbn [negb orb]. exact Hback.
  - rewrite neg_text in *. destruct (pos_text p) as (c & r & Ht & Hc & Hz & Hr).
    rewrite Ht in *.
    rewrite span_digits_all by (cbn; now rewrite Hc, Hr).
    cbn [Json.int_part_ok]. destruct (Ascii.eqb_spec c "0") as [|_]; [contradiction|].
    cbn [negb orb]. exact Hback.
Qed.

Lemma int_number_chars (z : Z) :
  Json.all_chars Json.is_number_char (PyStr.of_Z z) = true.
Proof.
  destruct z as [|p|p]; [reflexivity| |rewrite neg_text];
    destruct (pos_text p) as (c & r & -> & Hc & _ & Hr); cbn;
    rewrite (digit_is_number_char c Hc),
      (all_chars_weaken _ _ r digit_is_number_char Hr); reflexivity.
Qed.

Lemma float_eqb_eq (f g : spec_float) : Json.float_eqb f g = true -> f = g.
Proof.
  destruct f, g; cbn; try discriminate; intros H; bools;
    repeat match goal with
           | H : Bool.eqb _ _ = true |- _ => apply Bool.eqb_prop in H
           | H : Pos.eqb _ _ = true |- _ => apply Pos.eqb_eq in H
           end; subst; reflexivity.
Qed.

Lemma not_number_char (c x : ascii) :
  Json.is_number_char c = true -> Json.is_number_char x = false -> Ascii.eqb c x = false.
Proof.
  intros Hc Hx. destruct (Ascii.eqb_spec c x) as [->|]; [congruence | reflexivity].
Qed.

(** A number token is read as the value it stands for. *)
Lemma parse_number (t : string) (v : value) (rest : string) (fuel : nat) :
  Json.all_chars Json.is_number_char t = true ->
  Json.number_of_token t = Some v ->
  Json.ends_number rest ->
  Json.parse_value (S fuel) (t ++ rest) = Some (v, rest).
Proof.
  intros Hall Htoken Hrest.
  destruct t as [|c t]; [discriminate|].
  cbn in Hall. apply andb_prop in Hall as [Hc Ht].
  cbn [append Json.parse_value].
  rewrite !(not_number_char c _ Hc) by reflexivity.
  assert (Hinf : String.prefix "-Infinity" (String c (t ++ rest)) = false).
  { cbn [String.prefix]. destruct (ascii_dec "-" c) as [<-|]; [|reflexivity].
    destruct t as [|c2 t]; [discriminate|].
    cbn in Ht. apply andb_prop in Ht as [Hc2 _].
    cbn [append String.prefix]. destruct (ascii_dec "I" c2) as [<-|]; [discriminate | reflexivity]. }
  rewrite Hinf.
  change (String c (t ++ rest)) with (String c t ++ rest).
  rewrite span_all; [now rewrite Htoken | cbn; now rewrite Hc, Ht | exact Hrest].
Qed.

(** ** Arrays and objects are read back *)

(** Induction over payloads, with the items of a list and the values of a
    dict as smaller payloads. *)
Lemma value_ind_nested (P : value -> Prop) :
  P VNone -> (forall b, P (VBool b)) -> (forall z, P (VInt z)) ->
  (forall f, P (VFloat f)) -> (forall s, P (VStr s)) ->
  (forall l, Forall P l -> P (VList l)) ->
  (forall d, Forall (fun kv => P (snd kv)) d -> P (VDict d)) ->
  (forall o, P (VObj o)) ->
  forall v, P v.
Proof.
  intros HNone HBool HInt HFloat HStr HList HDict HObj.
  fix IH 1. intros [|b|z|f|s|l|d|o].
  - exact HNone.
  - apply HBool.
  - apply HInt.
  - apply HFloat.
  - apply HStr.
  - apply HList. induction l as [|x l IHl]; constructor; [apply IH | exact IHl].
  - apply HDict. induction d as [|kv d IHd]; constructor; [apply IH | exact IHd].
  - apply HObj.
Qed.

Lemma skip_ws_spaces (n : nat) (t : string) :
  Json.skip_ws (PyStr.repeat " " n ++ t) = Json.skip_ws t.
Proof. induction n as [|n IH]; [reflexivity | exact IH]. Qed.

Lemma skip_ws_indent (level : nat) (t : string) :
  Json.skip_ws (Json.newline_indent level ++ t) = Json.skip_ws t.
Proof.
  unfold Json.newline_indent. rewrite append_assoc.
  change (nl ++ PyStr.repeat " " (2 * level) ++ t)
    with (String "010" (PyStr.repeat " " (2 * level) ++ t)).
  cbn [Json.skip_ws Json.is_ws Ascii.eqb Bool.eqb orb andb].
  apply skip_ws_spaces.
Qed.

Lemma begins_value_app (s t : string) : Json.begins_value s -> Json.begins_value (s ++ t).
Proof. intros (c & r & -> & H). exists c, (r ++ t). now split. Qed.

Lemma skip_ws_begins (s : string) : Json.begins_value s -> Json.skip_ws s = s.
Proof. intros (c & t & -> & Hws & _). cbn. now rewrite Hws. Qed.

Lemma closes_begins (bracket : ascii) (s : string) :
  Json.begins_value s -> bracket = "]"%char \/ bracket = "}"%char -> Json.closes bracket s = None.
Proof.
  intros (c & t & -> & _ & H1 & H2) [-> | ->]; cbn; [now rewrite H1 | now rewrite H2].
Qed.

Lemma number_char_begins (c : ascii) (t : string) :
  Json.is_number_char c = true -> Json.begins_value (String c t).
Proof.
  intros H. exists c, t. split; [reflexivity|].
  repeat split;
    destruct (_ : bool) eqn:E in |- *; try reflexivity; exfalso;
    [ unfold Json.is_ws in E;
      repeat (apply orb_prop in E as [E|E]);
      apply Ascii.eqb_eq in E; subst c; discriminate
    | apply Ascii.eqb_eq in E; subst c; discriminate
    | apply Ascii.eqb_eq in E; subst c; discriminate ].
Qed.

Lemma basestring_begins (s : string) : Json.begins_value (Json.encode_basestring_ascii s).
Proof.
  unfold Json.encode_basestring_ascii. eexists _, _. split; [reflexivity|]. now repeat split.
Qed.

Lemma encode_begins (v : value) (level : nat) :
  Json.well_formed v = true -> Json.begins_value (Json.encode level v).
Proof.
  intros Hwf. destruct v as [|b|z|f|s|l|d|o]; cbn [Json.encode].
  - eexists _, _. split; [reflexivity|]. now repeat split.
  - destruct b; eexists _, _; (split; [reflexivity|]); now repeat split.
  - pose proof (int_number_chars z) as H.
    destruct (PyStr.of_Z z) as [|c t] eqn:E.
    + pose proof (number_of_int_token z) as Hn. rewrite E in Hn. discriminate.
    + cbn in H. apply andb_prop in H as [Hc _]. now apply number_char_begins.
  - cbn in Hwf. unfold Json.reads_back in Hwf. unfold Json.floatstr.
    destruct f as [s|s| |s m e];
      try (destruct s; eexists _, _; (split; [reflexivity|]); now repeat split);
      try (eexists _, _; (split; [reflexivity|]); now repeat split);
      apply andb_prop in Hwf as [Hall Htok];
      destruct (PyFloat.repr _) as [|c t]; try discriminate;
      cbn in Hall; apply andb_prop in Hall as [Hc _]; now apply number_char_begins.
  - apply basestring_begins.
  - destruct l; eexists _, _; (split; [reflexivity|]); now repeat split.
  - destruct d; eexists _, _; (split; [reflexivity|]); now repeat split.
  - apply basestring_begins.
Qed.

Lemma join_cons (sep x y : string) (tl : list string) :
  PyStr.join sep (x :: y :: tl) = x ++ sep ++ PyStr.join sep (y :: tl).
Proof. reflexivity. Qed.

Lemma join_length_in (sep x : string) (xs : list string) :
  In x xs -> (String.length x <= String.length (PyStr.join sep xs))%nat.
Proof.
  induction xs as [|y ys IH]; [contradiction|].
  intros [-> | Hin].
  - destruct ys; [cbn; lia|]. rewrite join_cons, !length_append. lia.
  - destruct ys as [|z zs]; [contradiction|].
    rewrite join_cons, !length_append. specialize (IH Hin). lia.
Qed.

Lemma join_count (sep : string) (xs : list string) :
  (1 <= String.length sep)%nat ->
  (List.length xs <= String.length (PyStr.join sep xs) + 1)%nat.
Proof.
  intros Hsep. induction xs as [|y ys IH]; [cbn; lia|].
  destruct ys as [|z zs]; [cbn; lia|].
  rewrite join_cons, !length_append. cbn [List.length] in *. lia.
Qed.

Lemma indent_ends_number (level : nat) (t : string) :
  Json.ends_number (Json.newline_indent level ++ t).
Proof. reflexivity. Qed.

Lemma parse_items_encode (level f : nat) (items : list value) :
  Forall (fun x => Json.reads_back_at x /\ Json.well_formed x = true
                   /\ (String.length (Json.encode (S level) x) < f)%nat) items ->
  items <> [] ->
  forall fuel acc rest,
    (List.length items <= fuel)%nat ->
    Json.parse_items (Json.parse_value f) fuel
      (PyStr.join ("," ++ Json.newline_indent (S level))
         (map (Json.encode (S level)) items)
       ++ Json.newline_indent level ++ "]" ++ rest) acc
    = Some (VList (acc ++ map Json.document items), rest).
Proof.
  induction 1 as [|x xs (Hx & Hwf & Hlen) Hxs IH]; [contradiction|].
  intros _ fuel acc rest Hfuel.
  destruct fuel as [|fuel]; [cbn in Hfuel; lia|].
  destruct xs as [|y ys].
  - cbn [map PyStr.join Json.parse_items].
    rewrite (Hx _ _ _ Hlen (indent_ends_number _ _)).
    rewrite skip_ws_indent. reflexivity.
  - cbn [map]. rewrite join_cons, !append_assoc. cbn [Json.parse_items].
    rewrite (Hx (S level) f _ Hlen) by reflexivity.
    cbn [append Json.skip_ws Json.is_ws Ascii.eqb Bool.eqb orb andb].
    rewrite skip_ws_indent, skip_ws_begins.
    + refine (eq_trans (IH _ fuel (acc ++ [Json.document x])%list rest _) _).
      * discriminate.
      * cbn [List.length] in *. lia.
      * now rewrite <- app_assoc.
    + inversion Hxs as [|? ? (_ & Hwfy & _) _]; subst.
      destruct ys; cbn [map PyStr.join];
        repeat apply begins_value_app; now apply encode_begins.
Qed.

Lemma dict_set_fresh (acc : list (string * value)) (k : string) (v : value) :
  existsb (String.eqb k) (map fst acc) = false ->
  Json.dict_set acc k v = (acc ++ [(k, v)])%list.
Proof.
  induction acc as [|[k' v'] acc IH]; [reflexivity|].
  cbn. intros H. apply orb_false_elim in H as [Hk Hacc].
  now rewrite Hk, IH.
Qed.

Lemma distinct_fresh (before : list string) (k : string) (after : list string) :
  Json.distinct (before ++ k :: after) = true ->
  existsb (String.eqb k) before = false.
Proof.
  induction before as [|a before IH]; [reflexivity|].
  cbn. intros H. apply andb_prop in H as [Ha Hrest].
  rewrite (IH Hrest), orb_false_r.
  apply negb_true_iff in Ha. rewrite existsb_app in Ha.
  apply orb_false_elim in Ha as [_ Ha]. cbn in Ha.
  apply orb_false_elim in Ha as [Ha _]. now rewrite String.eqb_sym.
Qed.

Lemma parse_member_encode (level f : nat) (k : string) (v : value) (rest : string) :
  Json.reads_back_at v ->
  Json.valid_utf8 k = true ->
  Json.well_formed v = true ->
  (String.length (Json.encode (S level) v) < f)%nat ->
  Json.ends_number rest ->
  Json.parse_member (Json.parse_value f)
    (Json.encode_basestring_ascii k ++ ": " ++ Json.encode (S level) v ++ rest)
  = Some (k, Json.document v, rest).
Proof.
  intros Hv Hk Hwf Hlen Hrest.
  destruct (scan_basestring k (": " ++ Json.encode (S level) v ++ rest) Hk)
    as (tail & -> & Hscan).
  cbn [Json.parse_member Ascii.eqb Bool.eqb andb]. rewrite Hscan.
  cbn [append Json.skip_ws Json.is_ws Ascii.eqb Bool.eqb orb andb].
  rewrite skip_ws_begins by (apply begins_value_app; now apply encode_begins).
  now rewrite (Hv _ _ _ Hlen Hrest).
Qed.

Lemma parse_members_encode (level f : nat) (members : list (string * value)) :
  Forall (fun kv => Json.reads_back_at (snd kv) /\ Json.valid_utf8 (fst kv) = true
                    /\ Json.well_formed (snd kv) = true
                    /\ (String.length (Json.encode (S level) (snd kv)) < f)%nat) members ->
  members <> [] ->
  forall fuel acc rest,
    (List.length members <= fuel)%nat ->
    Json.distinct (map fst acc ++ map fst members) = true ->
    Json.parse_members (Json.parse_value f) fuel
      (PyStr.join ("," ++ Json.newline_indent (S level))
         (map (fun kv => Json.encode_basestring_ascii (fst kv) ++ ": " ++
                         Json.encode (S level) (snd kv)) members)
       ++ Json.newline_indent level ++ "}" ++ rest) acc
    = Some (VDict (acc ++ map (fun kv => (fst kv, Json.document (snd kv))) members), rest).
Proof.
  induction 1 as [|[k v] xs (Hv & Hk & Hwf & Hlen) Hxs IH]; [contradiction|].
  intros _ fuel acc rest Hfuel Hdistinct.
  destruct fuel as [|fuel]; [cbn in Hfuel; lia|].
  cbn [fst snd] in *.
  assert (Hfresh : Json.dict_set acc k (Json.document v)
                   = (acc ++ [(k, Json.document v)])%list).
  { apply dict_set_fresh. cbn [map fst] in Hdistinct. eapply distinct_fresh, Hdistinct. }
  destruct xs as [|y ys].
  - cbn [map PyStr.join Json.parse_members fst snd]. rewrite !append_assoc.
    rewrite (parse_member_encode level f k v _ Hv Hk Hwf Hlen (indent_ends_number _ _)).
    rewrite skip_ws_indent, Hfresh. reflexivity.
  - cbn [map fst snd]. rewrite join_cons. cbn [Json.parse_members].
    rewrite !append_assoc.
    rewrite (parse_member_encode level f k v _ Hv Hk Hwf Hlen) by reflexivity.
    cbn [append Json.skip_ws Json.is_ws Ascii.eqb Bool.eqb orb andb].
    rewrite skip_ws_indent, skip_ws_begins, Hfresh.
    + refine (eq_trans (IH _ fuel (acc ++ [(k, Json.document v)])%list rest _ _) _).
      * discriminate.
      * cbn [List.length] in *. lia.
      * rewrite map_app, <- app_assoc. exact Hdistinct.
      * now rewrite <- app_assoc.
    + destruct ys; cbn [map PyStr.join fst snd];
        repeat first [apply basestring_begins | apply begins_value_app].
Qed.

Lemma separator_length (level : nat) :
  (1 <= String.length ("," ++ Json.newline_indent level))%nat.
Proof. cbn [append String.length]. lia. Qed.

Lemma indent_length (level : nat) : (1 <= String.length (Json.newline_indent level))%nat.
Proof. unfold Json.newline_indent. cbn [PyStr.nl append String.length]. lia. Qed.

Lemma parse_array (fuel level : nat) (body : string) :
  Json.begins_value body ->
  Json.parse_value (S fuel) ("[" ++ Json.newline_indent level ++ body)
  = Json.parse_items (Json.parse_value fuel) fuel body [].
Proof.
  intros Hbody. cbn [append Json.parse_value Ascii.eqb Bool.eqb andb].
  rewrite skip_ws_indent, (skip_ws_begins _ Hbody), (closes_begins _ _ Hbody) by now left.
  reflexivity.
Qed.

Lemma parse_object (fuel level : nat) (body : string) :
  Json.begins_value body ->
  Json.parse_value (S fuel) ("{" ++ Json.newline_indent level ++ body)
  = Json.parse_members (Json.parse_value fuel) fuel body [].
Proof.
  intros Hbody. cbn [append Json.parse_value Ascii.eqb Bool.eqb andb].
  rewrite skip_ws_indent, (skip_ws_begins _ Hbody), (closes_begins _ _ Hbody) by now right.
  reflexivity.
Qed.

(** Every well-formed payload is read back from its text as its document. *)
Lemma encode_reads_back (v : value) : Json.well_formed v = true -> Json.reads_back_at v.
Proof.
  induction v as [|b|z|f|s|l IH|d IH|o] using value_ind_nested;
    intros Hwf level fuel rest Hlen Hrest;
    (destruct fuel as [|fuel]; [inversion Hlen|]).
  - destruct rest; reflexivity.
  - destruct b, rest; reflexivity.
  - cbn [Json.encode Json.document].
    apply parse_number; [apply int_number_chars | apply number_of_int_token | exact Hrest].
  - cbn [Json.well_formed] in Hwf. unfold Json.reads_back in Hwf.
    destruct f as [sg|sg| |sg m e]; try (try destruct sg; destruct rest; reflexivity);
      apply andb_prop in Hwf as [Hall Htok];
      cbn [Json.encode Json.floatstr Json.document];
      (destruct (Json.number_of_token _) as [[| | |g| | | |]|] eqn:E in Htok;
         try discriminate);
      apply float_eqb_eq in Htok; subst g; now apply parse_number.
  - cbn [Json.well_formed] in Hwf. cbn [Json.encode Json.document].
    destruct (scan_basestring s rest Hwf) as (tail & -> & Hscan).
    cbn [Json.parse_value Ascii.eqb Bool.eqb andb]. now rewrite Hscan.
  - cbn [Json.well_formed] in Hwf.
    destruct l as [|x xs]; [reflexivity|].
    set (items := x :: xs) in *.
    cbn [Json.document].
    change (Json.encode level (VList items))
      with ("[" ++ Json.newline_indent (S level) ++
            PyStr.join ("," ++ Json.newline_indent (S level))
              (map (Json.encode (S level)) items) ++
            Json.newline_indent level ++ "]") in *.
    rewrite !length_append in Hlen. cbn [String.length] in Hlen.
    pose proof (indent_length level) as Hi0.
    pose proof (indent_length (S level)) as Hi1.
    rewrite !append_assoc.
    assert (Hbegin : Json.begins_value
              (PyStr.join ("," ++ Json.newline_indent (S level))
                 (map (Json.encode (S level)) items) ++
               Json.newline_indent level ++ "]" ++ rest)).
    { subst items. cbn [forallb] in Hwf. apply andb_prop in Hwf as [Hx _].
      destruct xs; cbn [map PyStr.join];
        repeat apply begins_value_app; now apply encode_begins. }
    rewrite (parse_array fuel (S level) _ Hbegin).
    apply (parse_items_encode level fuel items).
    + apply Forall_forall. intros y Hy. split; [|split].
      * rewrite Forall_forall in IH. apply IH; [exact Hy|].
        rewrite forallb_forall in Hwf. now apply Hwf.
      * rewrite forallb_forall in Hwf. now apply Hwf.
      * pose proof (join_length_in ("," ++ Json.newline_indent (S level))
                      (Json.encode (S level) y) (map (Json.encode (S level)) items)
                      (in_map _ _ _ Hy)). lia.
    + discriminate.
    + pose proof (join_count ("," ++ Json.newline_indent (S level))
                    (map (Json.encode (S level)) items)
                    (separator_length (S level))) as Hc.
      rewrite length_map in Hc. lia.
  - cbn [Json.well_formed] in Hwf. apply andb_prop in Hwf as [Hkeys Hwf].
    destruct d as [|m ms]; [reflexivity|].
    set (members := m :: ms) in *.
    cbn [Json.document].
    change (Json.encode level (VDict members))
      with ("{" ++ Json.newline_indent (S level) ++
            PyStr.join ("," ++ Json.newline_indent (S level))
              (map (fun kv => Json.encode_basestring_ascii (fst kv) ++ ": " ++
                              Json.encode (S level) (snd kv)) members) ++
            Json.newline_indent level ++ "}") in *.
    rewrite !length_append in Hlen. cbn [String.length] in Hlen.
    pose proof (indent_length level) as Hi0.
    pose proof (indent_length (S level)) as Hi1.
    rewrite !append_assoc.
    assert (Hbegin : Json.begins_value
              (PyStr.join ("," ++ Json.newline_indent (S level))
                 (map (fun kv => Json.encode_basestring_ascii (fst kv) ++ ": " ++
                                 Json.encode (S level) (snd kv)) members) ++
               Json.newline_indent level ++ "}" ++ rest)).
    { subst members. destruct ms; cbn [map PyStr.join];
        repeat first [apply basestring_begins | apply begins_value_app]. }
    rewrite (parse_object fuel (S level) _ Hbegin).
    apply (parse_members_encode level fuel members).
    + apply Forall_forall. intros y Hy.
      rewrite forallb_forall in Hwf. specialize (Hwf y Hy).
      apply andb_prop in Hwf as [Hk Hv].
      split; [|split; [|split]]; auto.
      * rewrite Forall_forall in IH. now apply IH.
      * pose proof (join_length_in ("," ++ Json.newline_indent (S level)) _ _
                      (in_map (fun kv => Json.encode_basestring_ascii (fst kv) ++ ": " ++
                                         Json.encode (S level) (snd kv)) _ _ Hy)) as Hin.
        cbn beta in Hin. rewrite !length_append in Hin. lia.
    + discriminate.
    + pose proof (join_count ("," ++ Json.newline_indent (S level))
                    (map (fun kv => Json.encode_basestring_ascii (fst kv) ++ ": " ++
                                    Json.encode (S level) (snd kv)) members)
                    (separator_length (S level))) as Hc.
      rewrite length_map in Hc. lia.
    + exact Hkeys.
  - cbn [Json.well_formed] in Hwf. cbn [Json.encode Json.document].
    destruct (scan_basestring (ob_str o) rest Hwf) as (tail & -> & Hscan).
    cbn [Json.parse_value Ascii.eqb Bool.eqb andb]. now rewrite Hscan.
Qed.

(** [json.loads(json.dumps(v, indent=2, default=str))] *)
Lemma loads_dumps (v : value) :
  Json.well_formed v = true -> Json.loads (Json.dumps v) = Some (Json.document v).
Proof.
  intros Hwf. unfold Json.loads, Json.dumps.
  rewrite (skip_ws_begins _ (encode_begins v 0 Hwf)).
  rewrite <- (append_nil_r (Json.encode 0 v)) at 2.
  rewrite (encode_reads_back v Hwf 0 _ "") by (exact I || lia).
  reflexivity.
Qed.

Lemma plain_document (v : value) : Json.plain v = true -> Json.document v = v.
Proof.
  induction v as [|b|z|f|s|l IH|d IH|o] using value_ind_nested;
    cbn [Json.plain Json.document]; intros Hplain; try reflexivity; try discriminate.
  - f_equal. induction IH as [|x xs Hx _ IHxs]; [reflexivity|].
    cbn [forallb] in Hplain. apply andb_prop in Hplain as [Hp Hps].
    cbn [map]. now rewrite (Hx Hp), (IHxs Hps).
  - f_equal. induction IH as [|[k x] xs Hx _ IHxs]; [reflexivity|].
    cbn [forallb snd] in Hplain. apply andb_prop in Hplain as [Hp Hps].
    cbn [map fst snd] in *. now rewrite (Hx Hp), (IHxs Hps).
Qed.

Lemma lookup_document (k : string) (d : list (string * value)) :
  lookup k (map (fun kv => (fst kv, Json.document (snd kv))) d)
  = option_map Json.document (lookup k d).
Proof.
  induction d as [|[k' v] d IH]; [reflexivity|].
  cbn [map lookup fst snd]. destruct (String.eqb k k'); [reflexivity | exact IH].
Qed.

Lemma getitem_document (v : value) (k : string) (x : value) :
  getitem v k = Ok x -> getitem (Json.document v) k = Ok (Json.document x).
Proof.
  destruct v as [|b|z|f|s|l|d|o]; try discriminate.
  cbn [getitem Json.document]. rewrite lookup_document.
  destruct (lookup k d) as [y|]; [|discriminate].
  intros H. inversion H. reflexivity.
Qed.

Lemma len_document (v : value) (n : Z) :
  len v = Ok n -> len (Json.document v) = Ok n.
Proof.
  destruct v as [|b|z|f|s|l|d|o]; try discriminate;
    cbn [len Json.document]; rewrite ?length_map; auto.
Qed.

(** ** JSON export *)

(** The JSON export of a well-formed result is read back as the result with
    every foreign object replaced by its [str()]: as the result itself when
    it holds no such object.  Every field of the result is found again after
    reading back, with the same length, and unchanged when it holds no
    foreign object. *)
Lemma json_round_trip (stamp : string) (result : value) (question : string) :
  Json.well_formed result = true ->
  let text := Streamlit.data (Streamlit.export_as_json stamp result question) in
  Json.loads text = Some (Json.document result)
  /\ (Json.plain result = true -> Json.loads text = Some result)
  /\ (forall k x, getitem result k = Ok x ->
        getitem (Json.document result) k = Ok (Json.document x)
        /\ (Json.plain x = true -> Json.document x = x)
        /\ (forall n, len x = Ok n -> len (Json.document x) = Ok n)).
Proof.
  intros Hwf text. subst text. cbn [Streamlit.export_as_json Streamlit.data].
  split; [now apply loads_dumps|]. split.
  - intros Hplain. rewrite (loads_dumps _ Hwf). f_equal. now apply plain_document.
  - intros k x Hx. split; [now apply getitem_document|].
    split; [apply plain_document | apply len_document].
Qed.


(** ** Export gate *)

(** C10: the export is the fixed no-results text exactly when the final answer
    is empty or starts with one of the two in-band error prefixes; in every
    other case the report holds the four sections verbatim. *)
Theorem export_research_results_gate :
  forall now fa ps isum qs,
    let out := Gradio.export_research_results now fa ps isum qs in
    (out = Gradio.NO_RESULTS <->
       fa = "" \/ startswith fa "Please enter" = true
               \/ startswith fa "Research failed" = true) /\
    (out = Gradio.NO_RESULTS \/
       contains fa out = true /\ contains ps out = true /\
       contains isum out = true /\ contains qs out = true).
Proof.
  intros now fa ps isum qs out. subst out.
  unfold Gradio.export_research_results.
  destruct (is_empty fa) eqn:He.
  - split; [|now left]. split; [|reflexivity].
    intros _. left. destruct fa; [reflexivity | discriminate].
  - destruct (startswith fa "Please enter") eqn:Hp;
      [split; [|now left]; split; auto|].
    destruct (startswith fa "Research failed") eqn:Hr;
      [split; [|now left]; split; auto|].
    cbn [orb]. split.
    + split.
      * intros H. apply (f_equal (fun s => String.get 0 s)) in H.
        discriminate H.
      * intros [H|[H|H]]; try discriminate.
        subst fa. discriminate.
    + right. repeat split.
      * apply contains_mid.
      * do 2 apply contains_app_l. apply contains_mid.
      * do 4 apply contains_app_l. apply contains_mid.
      * do 6 apply contains_app_l. apply contains_mid.
Qed.

Lemma export_research_results_gate_witness :
  Gradio.export_research_results "2026-01-03 10:00:00" "" "plan" "insights" "quality"
  = Gradio.NO_RESULTS.
Proof.
  destruct (export_research_results_gate "2026-01-03 10:00:00" "" "plan" "insights" "quality")
    as [[_ Hgate] _].
  apply Hgate. left. reflexivity.
Defined.

(** * Further properties of the two front ends *)

Local Open Scope py_scope.

(** ** The life of the Gradio interface *)

Lemma research_record_of (question : string) (result : value) (now_iso : string)
    (qa : list (string * value)) :
  get result "quality_assessment" (VDict []) = Ok (VDict qa) ->
  research_record question result now_iso
  = Ok (record_of question result now_iso (Views.score_of qa)).
Proof.
  intros Hqa. unfold research_record. rewrite Hqa. cbn [bind get].
  unfold Views.score_of. reflexivity.
Qed.

(** X1: a run the agent answers is archived, whatever becomes of the
    summaries: the history grows by one record holding the question as typed,
    the result, the time and the score ('N/A' without one), and the agent is
    kept for the next run. *)
Theorem conduct_research_archives_answered_run
    (a : agent) (now_iso : string) (self : Gradio.interface) (question : string)
    (result : value) (qa : list (string * value)) :
  is_empty (strip question) = false ->
  Gradio.self_agent self = None \/ Gradio.self_agent self = Some a ->
  invoke a (initial_state question) = Ok result ->
  get result "quality_assessment" (VDict []) = Ok (VDict qa) ->
  exists out,
    Gradio.conduct_research (Ok a) now_iso self question
    = (out,
       {| Gradio.self_agent := Some a;
          Gradio.research_history :=
            (Gradio.research_history self
             ++ [record_of question result now_iso (Views.score_of qa)])%list |},
       (match Gradio.self_agent self with
        | Some _ => []
        | None => [CreateAgent]
        end ++ [Invoke (initial_state question)])%list).
Proof.
  intros Hq Hagent Hinvoke Hqa.
  unfold Gradio.conduct_research. rewrite Hq.
  unfold Gradio.initialize_agent, Gradio.research_body.
  destruct Hagent as [Hnone | Hsome]; [rewrite Hnone | rewrite Hsome];
    cbn [Gradio.self_agent Gradio.research_history];
    rewrite Hinvoke, (research_record_of _ _ _ _ Hqa);
    match goal with
    | |- context [match ?body with Ok _ => _ | Raise _ => _ end] => destruct body
    end; eexists; try rewrite Hsome; reflexivity.
Qed.

Lemma conduct_research_archives_answered_run_witness :
  exists out,
    Gradio.conduct_research (Ok Scenario.score_only_agent) "2026-01-01T10:00:00"
      Scenario.fresh "  What is quantum entanglement? "
    = (out,
       {| Gradio.self_agent := Some Scenario.score_only_agent;
          Gradio.research_history :=
            [record_of "  What is quantum entanglement? " Scenario.score_only
               "2026-01-01T10:00:00" (VInt 7)] |},
       [CreateAgent; Invoke (initial_state "  What is quantum entanglement? ")]).
Proof.
  exact (conduct_research_archives_answered_run Scenario.score_only_agent
           "2026-01-01T10:00:00" Scenario.fresh "  What is quantum entanglement? "
           Scenario.score_only [("overall_quality_score", VInt 7)]
           eq_refl (or_introl eq_refl) eq_refl eq_refl).
Defined.
Lemma quality_summary_without_confidence (result : value) (kvs : list (string * value)) :
  get result "quality_assessment" (VDict []) = Ok (VDict kvs) ->
  kvs <> [] ->
  lookup "confidence_assessment" kvs = None ->
  Gradio.quality_summary result
  = raise ValueError "Unknown format code 'f' for object of type 'str'".
Proof.
  intros Hqa Hkvs Hconfidence. unfold Gradio.quality_summary.
  rewrite Hqa. cbn [bind truthy].
  destruct kvs as [|kv kvs]; [contradiction|].
  cbn [get bind]. rewrite Hconfidence. reflexivity.
Qed.

(** X2: when the quality assessment is there without a confidence, the
    quality summary raises on the 'N/A' it formats with two decimals; the run
    is then reported as failed and cannot be exported, yet it is in the
    history. *)
Theorem missing_confidence_fails_an_archived_run
    (a : agent) (now_iso : string) (self : Gradio.interface) (question : string)
    (result : value) (kvs : list (string * value)) (process intelligence : string) :
  is_empty (strip question) = false ->
  Gradio.self_agent self = None \/ Gradio.self_agent self = Some a ->
  invoke a (initial_state question) = Ok result ->
  get result "quality_assessment" (VDict []) = Ok (VDict kvs) ->
  kvs <> [] ->
  lookup "confidence_assessment" kvs = None ->
  Gradio.process_summary result = Ok process ->
  Gradio.intelligence_summary result = Ok intelligence ->
  let failure := "Research failed: Unknown format code 'f' for object of type 'str'" in
  exists self' events,
    Gradio.conduct_research (Ok a) now_iso self question
    = ((VStr failure, "", "", ""), self', events)
    /\ Gradio.research_history self'
       = (Gradio.research_history self
          ++ [record_of question result now_iso (Views.score_of kvs)])%list
    /\ Gradio.export_research_results now_iso failure "" "" "" = Gradio.NO_RESULTS.
Proof.
  intros Hq Hagent Hinvoke Hqa Hkvs Hconfidence Hprocess Hintelligence failure.
  assert (Hfinal : exists fa, get result "final_answer" (VStr "No final answer generated") = Ok fa).
  { destruct result; try discriminate. eexists. reflexivity. }
  destruct Hfinal as [fa Hfinal].
  unfold Gradio.conduct_research. rewrite Hq.
  unfold Gradio.initialize_agent, Gradio.research_body.
  destruct Hagent as [Hnone | Hsome]; [rewrite Hnone | rewrite Hsome];
    cbn [Gradio.self_agent Gradio.research_history];
    rewrite Hinvoke, (research_record_of _ _ _ _ Hqa), Hfinal, Hprocess, Hintelligence,
      (quality_summary_without_confidence _ _ Hqa Hkvs Hconfidence);
    cbn [bind raise exn_text];
    eexists _, _; (split; [reflexivity|]); split; reflexivity.
Qed.

Lemma missing_confidence_fails_an_archived_run_witness :
  exists self' events,
    Gradio.conduct_research (Ok Scenario.score_only_agent) "2026-01-01T10:00:00"
      Scenario.fresh "What is quantum entanglement?"
    = ((VStr "Research failed: Unknown format code 'f' for object of type 'str'", "", "", ""),
       self', events)
    /\ Gradio.research_history self'
       = [record_of "What is quantum entanglement?" Scenario.score_only
            "2026-01-01T10:00:00" (VInt 7)].
Proof.
  destruct (missing_confidence_fails_an_archived_run Scenario.score_only_agent
              "2026-01-01T10:00:00" Scenario.fresh "What is quantum entanglement?"
              Scenario.score_only [("overall_quality_score", VInt 7)]
              ("## Research Process" ++ nl ++ nl ++ "### Research Plan:" ++ nl ++ nl ++
               "### Findings Summary:" ++ nl ++
               "- Total research steps completed: 0" ++ nl ++
               "- External sources consulted: 0" ++ nl)
              ("## Intelligence Analysis" ++ nl ++ nl)
              eq_refl (or_introl eq_refl) eq_refl eq_refl
              ltac:(discriminate) eq_refl eq_refl eq_refl)
    as (self' & events & Hrun & Hhistory & _).
  exists self', events. split; [exact Hrun | exact Hhistory].
Defined.
Lemma research_body_keeps_agent (now_iso : string) (a : agent) (self : Gradio.interface)
    (question : string) :
  Gradio.self_agent (snd (Gradio.research_body now_iso a self question))
  = Gradio.self_agent self.
Proof.
  unfold Gradio.research_body.
  destruct (invoke a (initial_state question)) as [result|e]; [|reflexivity].
  destruct (research_record question result now_iso); reflexivity.
Qed.

Lemma conduct_research_with_agent (factory : outcome agent) (a : agent) (now_iso : string)
    (self : Gradio.interface) (question : string) :
  Gradio.self_agent self = Some a ->
  Gradio.conduct_research factory now_iso self question
  = Gradio.conduct_research (Ok a) now_iso self question
  /\ Gradio.self_agent (snd (fst (Gradio.conduct_research factory now_iso self question)))
     = Some a
  /\ filter Views.is_create
       (snd (Gradio.conduct_research factory now_iso self question)) = [].
Proof.
  intros Hagent. unfold Gradio.conduct_research, Gradio.initialize_agent.
  rewrite Hagent.
  destruct (is_empty (strip question)); [now repeat split|].
  pose proof (research_body_keeps_agent now_iso a self question) as Hkept.
  destruct (Gradio.research_body now_iso a self question) as [body self2].
  cbn [snd] in Hkept. rewrite Hagent in Hkept.
  destruct body; now repeat split.
Qed.

(** X3: the agent is created by the first run that needs one and never
    again: a later run, blank or not, uses the kept agent and does not call
    the factory, even one that would fail. *)
Theorem agent_is_created_once
    (a : agent) (factory : outcome agent) (first_time second_time : string)
    (self : Gradio.interface) (first_question second_question : string) :
  is_empty (strip first_question) = false ->
  Gradio.self_agent self = None ->
  let '(_, self1, first_events) :=
    Gradio.conduct_research (Ok a) first_time self first_question in
  let '(_, self2, second_events) :=
    Gradio.conduct_research factory second_time self1 second_question in
  Gradio.self_agent self1 = Some a
  /\ Gradio.self_agent self2 = Some a
  /\ filter Views.is_create (first_events ++ second_events)%list = [CreateAgent]
  /\ Gradio.conduct_research factory second_time self1 second_question
     = Gradio.conduct_research (Ok a) second_time self1 second_question.
Proof.
  intros Hq Hnone.
  assert (Hfirst : exists out self1 rest,
             Gradio.conduct_research (Ok a) first_time self first_question
             = (out, self1, CreateAgent :: rest)
             /\ Gradio.self_agent self1 = Some a
             /\ filter Views.is_create rest = []).
  { unfold Gradio.conduct_research, Gradio.initialize_agent. rewrite Hq, Hnone.
    set (kept := {| Gradio.self_agent := Some a;
                    Gradio.research_history := Gradio.research_history self |}).
    pose proof (research_body_keeps_agent first_time a kept first_question) as Hkept.
    destruct (Gradio.research_body first_time a kept first_question) as [body self1].
    cbn [snd] in Hkept.
    destruct body; eexists _, _, _; (split; [reflexivity|]); now split. }
  destruct Hfirst as (out1 & self1 & rest & -> & Hself1 & Hrest).
  destruct (conduct_research_with_agent factory a second_time self1 second_question Hself1)
    as (Hsame & Hkept & Hnew).
  destruct (Gradio.conduct_research factory second_time self1 second_question)
    as [[out2 self2] second_events].
  cbn [fst snd] in Hkept, Hnew.
  repeat split; auto.
  cbn [List.app filter Views.is_create]. now rewrite filter_app, Hrest, Hnew.
Qed.

Lemma agent_is_created_once_witness :
  let '(_, self1, first_events) :=
    Gradio.conduct_research (Ok Scenario.quiet_agent) "2026-01-01T10:00:00"
      Scenario.fresh "first question" in
  let '(_, self2, second_events) :=
    Gradio.conduct_research (Raise Scenario.timeout_error) "2026-01-02T10:00:00"
      self1 "second question" in
  filter Views.is_create (first_events ++ second_events)%list = [CreateAgent].
Proof.
  pose proof (agent_is_created_once Scenario.quiet_agent (Raise Scenario.timeout_error)
                "2026-01-01T10:00:00" "2026-01-02T10:00:00" Scenario.fresh
                "first question" "second question" eq_refl eq_refl) as H.
  destruct (Gradio.conduct_research (Ok Scenario.quiet_agent) "2026-01-01T10:00:00"
              Scenario.fresh "first question") as [[out1 self1] first_events].
  destruct (Gradio.conduct_research (Raise Scenario.timeout_error) "2026-01-02T10:00:00"
              self1 "second question") as [[out2 self2] second_events].
  exact (proj1 (proj2 (proj2 H))).
Defined.

(** X4: a factory that raises is reported as a failed run: nothing is
    archived, the agent is not invoked and no agent is kept, so the next run
    calls the factory again. *)
Theorem failed_creation_is_not_kept
    (e : exn) (a : agent) (now_iso later : string) (self : Gradio.interface)
    (question next_question : string) :
  is_empty (strip question) = false ->
  is_empty (strip next_question) = false ->
  Gradio.self_agent self = None ->
  Gradio.conduct_research (Raise e) now_iso self question
  = ((VStr ("Research failed: " ++ exn_text e), "", "", ""), self, [CreateAgent])
  /\ exists out self2,
       Gradio.conduct_research (Ok a) later self next_question
       = (out, self2, [CreateAgent; Invoke (initial_state next_question)])
       /\ Gradio.self_agent self2 = Some a.
Proof.
  intros Hq Hnext Hnone. split.
  - unfold Gradio.conduct_research, Gradio.initialize_agent. now rewrite Hq, Hnone.
  - unfold Gradio.conduct_research, Gradio.initialize_agent. rewrite Hnext, Hnone.
    set (kept := {| Gradio.self_agent := Some a;
                    Gradio.research_history := Gradio.research_history self |}).
    pose proof (research_body_keeps_agent later a kept next_question) as Hkept.
    destruct (Gradio.research_body later a kept next_question) as [body self2].
    cbn [snd] in Hkept.
    destruct body; eexists _, _; (split; [reflexivity | exact Hkept]).
Qed.

Lemma failed_creation_is_not_kept_witness :
  Gradio.conduct_research (Raise Scenario.timeout_error) "2026-01-01T10:00:00"
    Scenario.fresh "What is quantum entanglement?"
  = ((VStr "Research failed: model endpoint timed out", "", "", ""),
     Scenario.fresh, [CreateAgent]).
Proof.
  exact (proj1 (failed_creation_is_not_kept Scenario.timeout_error Scenario.quiet_agent
                  "2026-01-01T10:00:00" "2026-01-02T10:00:00" Scenario.fresh
                  "What is quantum entanglement?" "again" eq_refl eq_refl eq_refl)).
Defined.
(** ** The life of the Streamlit session *)



Lemma run_makes_result_current
    (a : agent) (now_iso : string) (st : Streamlit.session_state) (question : string)
    (result : value) (qa : list (string * value)) :
  is_empty (strip question) = false ->
  invoke a (initial_state question) = Ok result ->
  truthy result = true ->
  get result "quality_assessment" (VDict []) = Ok (VDict qa) ->
  let '(_, st1, _, _) := Streamlit.run (Ok a) now_iso st question true in
  Streamlit.current_research st1
  = Some (record_of question result now_iso (Views.score_of qa)).
Proof.
  intros Hq Hinvoke Htruthy Hqa.
  unfold Streamlit.run, Streamlit.run_research_with_progress.
  rewrite Hq, Hinvoke, Htruthy, (research_record_of _ _ _ _ Hqa). reflexivity.
Qed.

(** X6: what a run archived stays on display: a script run in which the
    button was not pressed, or the question is blank, leaves the session as it
    is and neither creates nor invokes an agent, so the current research is
    still the archived record, with the result and the question of that
    run. *)
Theorem rerun_keeps_the_archived_run
    (a : agent) (factory : outcome agent) (now_iso later : string)
    (st : Streamlit.session_state) (question typed : string) (pressed : bool)
    (result : value) (qa : list (string * value)) :
  is_empty (strip question) = false ->
  invoke a (initial_state question) = Ok result ->
  truthy result = true ->
  get result "quality_assessment" (VDict []) = Ok (VDict qa) ->
  pressed = false \/ is_empty (strip typed) = true ->
  let '(_, st1, _, _) := Streamlit.run (Ok a) now_iso st question true in
  let '(_, st2, _, called) := Streamlit.run factory later st1 typed pressed in
  st2 = st1
  /\ called = []
  /\ exists current,
       Streamlit.current_research st2 = Some current
       /\ getitem current "result" = Ok result
       /\ getitem current "question" = Ok (VStr question).
Proof.
  intros Hq Hinvoke Htruthy Hqa Hidle.
  pose proof (run_makes_result_current a now_iso st question result qa
                Hq Hinvoke Htruthy Hqa) as Hcurrent.
  destruct (Streamlit.run (Ok a) now_iso st question true) as [[[o st1] shown] called].
  unfold Streamlit.run.
  replace (pressed && negb (is_empty (strip typed))) with false
    by (destruct Hidle as [-> | ->]; [reflexivity | now rewrite andb_false_r]).
  unfold Streamlit.show_current. rewrite Hcurrent. cbn.
  split; [reflexivity|]. split; [reflexivity|].
  eexists. split; [exact Hcurrent|]. split; reflexivity.
Qed.

Lemma rerun_keeps_the_archived_run_witness :
  let '(_, st1, _, _) :=
    Streamlit.run (Ok Scenario.score_only_agent) "2026-01-01T10:00:00" Scenario.fresh_state
      "What is quantum entanglement?" true in
  let '(_, st2, _, called) :=
    Streamlit.run (Raise Scenario.timeout_error) "2026-01-02T10:00:00" st1 "" false in
  st2 = st1
  /\ called = []
  /\ exists current,
       Streamlit.current_research st2 = Some current
       /\ getitem current "result" = Ok Scenario.score_only
       /\ getitem current "question" = Ok (VStr "What is quantum entanglement?").
Proof.
  exact (rerun_keeps_the_archived_run Scenario.score_only_agent (Raise Scenario.timeout_error)
           "2026-01-01T10:00:00" "2026-01-02T10:00:00" Scenario.fresh_state
           "What is quantum entanglement?" "" false Scenario.score_only
           [("overall_quality_score", VInt 7)] eq_refl eq_refl eq_refl eq_refl
           (or_introl eq_refl)).
Defined.

(** ** Histories *)

Lemma research_record_is_record (question : string) (result : value) (now_iso : string)
    (record : value) :
  research_record question result now_iso = Ok record -> Views.is_record record.
Proof.
  unfold research_record.
  destruct (get result "quality_assessment" (VDict [])) as [qa|]; [|discriminate].
  cbn [bind].
  destruct (get qa "overall_quality_score" (VStr "N/A")) as [score|]; [|discriminate].
  cbn [bind]. intros H. inversion H. now exists question, result, now_iso, score.
Qed.

Lemma research_body_history (now_iso : string) (a : agent) (self : Gradio.interface)
    (question : string) :
  exists added,
    Gradio.research_history (snd (Gradio.research_body now_iso a self question))
    = (Gradio.research_history self ++ added)%list
    /\ (List.length added <= 1)%nat
    /\ Forall Views.is_record added.
Proof.
  unfold Gradio.research_body.
  destruct (invoke a (initial_state question)) as [result|e].
  - destruct (research_record question result now_iso) as [record|e] eqn:Hrecord.
    + exists [record]. cbn [snd Gradio.research_history List.length].
      repeat split; [lia|]. constructor; [|constructor].
      now apply research_record_is_record in Hrecord.
    + exists []. cbn [snd]. rewrite app_nil_r. now repeat split; [cbn; lia|].
  - exists []. cbn [snd]. rewrite app_nil_r. now repeat split; [cbn; lia|].
Qed.

Lemma conduct_research_history (factory : outcome agent) (now_iso : string)
    (self : Gradio.interface) (question : string) :
  exists added,
    Gradio.research_history
      (snd (fst (Gradio.conduct_research factory now_iso self question)))
    = (Gradio.research_history self ++ added)%list
    /\ (List.length added <= 1)%nat
    /\ Forall Views.is_record added.
Proof.
  assert (Hsame : exists added : list value,
             Gradio.research_history self = (Gradio.research_history self ++ added)%list
             /\ (List.length added <= 1)%nat /\ Forall Views.is_record added).
  { exists []. rewrite app_nil_r. now repeat split; [cbn; lia|]. }
  unfold Gradio.conduct_research, Gradio.initialize_agent.
  destruct (is_empty (strip question)); [exact Hsame|].
  destruct (Gradio.self_agent self) as [a|] eqn:Hagent.
  - pose proof (research_body_history now_iso a self question) as Hbody.
    destruct (Gradio.research_body now_iso a self question) as [body self2].
    destruct body; exact Hbody.
  - destruct factory as [a|e].
    + set (kept := {| Gradio.self_agent := Some a;
                      Gradio.research_history := Gradio.research_history self |}).
      pose proof (research_body_history now_iso a kept question) as Hbody.
      destruct (Gradio.research_body now_iso a kept question) as [body self2].
      destruct body; exact Hbody.
    + exact Hsame.
Qed.

Lemma run_history (factory : outcome agent) (now_iso : string)
    (st : Streamlit.session_state) (question : string) (pressed : bool) :
  exists added,
    Streamlit.research_history
      (snd (fst (fst (Streamlit.run factory now_iso st question pressed))))
    = (Streamlit.research_history st ++ added)%list
    /\ (List.length added <= 1)%nat
    /\ Forall Views.is_record added.
Proof.
  assert (Hsame : exists added : list value,
             Streamlit.research_history st = (Streamlit.research_history st ++ added)%list
             /\ (List.length added <= 1)%nat /\ Forall Views.is_record added).
  { exists []. rewrite app_nil_r. now repeat split; [cbn; lia|]. }
  unfold Streamlit.run.
  destruct (pressed && negb (is_empty (strip question))).
  - destruct (Streamlit.run_research_with_progress factory question)
      as [[result shown] events].
    destruct (truthy result); [|exact Hsame].
    destruct (research_record question result now_iso) as [record|e] eqn:Hrecord;
      [|exact Hsame].
    exists [record]. cbn [fst snd Streamlit.research_history List.length].
    repeat split; [lia|]. constructor; [|constructor].
    now apply research_record_is_record in Hrecord.
  - unfold Streamlit.show_current.
    destruct (Streamlit.current_research st) as [current|]; [|exact Hsame].
    destruct (bind (getitem current "result") _) as [[r q]|]; exact Hsame.
Qed.

Lemma for_each_returns {A S : Type} (body : S -> A -> outcome S) (xs : list A) :
  Forall (fun x => forall acc, exists acc', body acc x = Ok acc') xs ->
  forall acc, exists r, for_each xs acc body = Ok r.
Proof.
  induction 1 as [|x xs Hx _ IH]; intros acc; [now exists acc|].
  cbn [for_each]. destruct (Hx acc) as [acc' ->]. cbn [bind]. apply IH.
Qed.

Lemma enumerate_forall {A : Type} (P : A -> Prop) (xs : list A) :
  Forall P xs -> forall k, Forall (fun p => P (snd p)) (enumerate k xs).
Proof.
  induction 1 as [|x xs Hx _ IH]; intros k; cbn [enumerate]; constructor; auto.
Qed.

Lemma last_n_forall {A : Type} (P : A -> Prop) (n : nat) (xs : list A) :
  Forall P xs -> Forall P (last_n n xs).
Proof.
  intros H. unfold last_n.
  rewrite <- (firstn_skipn (List.length xs - n) xs) in H.
  now apply Forall_app in H.
Qed.

Lemma history_text_returns (self : Gradio.interface) :
  Forall Views.is_record (Gradio.research_history self) ->
  exists text, Gradio.get_research_history self = Ok text.
Proof.
  intros Hrecords. unfold Gradio.get_research_history.
  destruct (Gradio.research_history self) as [|r rs] eqn:Hh; [now eexists|].
  apply for_each_returns.
  eapply Forall_impl; [|apply enumerate_forall, last_n_forall, Hrecords].
  intros [i research] (q & res & t & s & Hrecord) acc. cbn [snd] in Hrecord. subst research.
  eexists. reflexivity.
Qed.

Lemma history_view_returns (st : Streamlit.session_state) :
  Forall Views.is_record (Streamlit.research_history st) ->
  exists shown, Streamlit.render_history st = Ok shown.
Proof.
  intros Hrecords. unfold Streamlit.render_history.
  destruct (Streamlit.research_history st) as [|r rs] eqn:Hh; [now eexists|].
  apply for_each_returns.
  eapply Forall_impl; [|apply enumerate_forall, last_n_forall, Hrecords].
  intros [i research] (q & res & t & s & Hrecord) acc. cbn [snd] in Hrecord. subst research.
  eexists. reflexivity.
Qed.

(** X7: the histories only grow, by at most one record a run, and hold
    nothing but records the front ends built; so the history views never fail
    on a history the front ends filled. *)
Theorem histories_only_grow_by_records :
  (forall (factory : outcome agent) (now_iso : string) (self : Gradio.interface)
          (question : string),
      Forall Views.is_record (Gradio.research_history self) ->
      let '(_, self', _) := Gradio.conduct_research factory now_iso self question in
      (exists added,
          Gradio.research_history self' = (Gradio.research_history self ++ added)%list
          /\ (List.length added <= 1)%nat)
      /\ Forall Views.is_record (Gradio.research_history self')
      /\ exists text, Gradio.get_research_history self' = Ok text)
  /\ (forall (factory : outcome agent) (now_iso : string) (st : Streamlit.session_state)
             (question : string) (pressed : bool),
        Forall Views.is_record (Streamlit.research_history st) ->
        let '(_, st', _, _) := Streamlit.run factory now_iso st question pressed in
        (exists added,
            Streamlit.research_history st' = (Streamlit.research_history st ++ added)%list
            /\ (List.length added <= 1)%nat)
        /\ Forall Views.is_record (Streamlit.research_history st')
        /\ exists shown, Streamlit.render_history st' = Ok shown).
Proof.
  split.
  - intros factory now_iso self question Hrecords.
    destruct (conduct_research_history factory now_iso self question)
      as (added & Hgrown & Hone & Hadded).
    destruct (Gradio.conduct_research factory now_iso self question) as [[out self'] events].
    cbn [fst snd] in Hgrown.
    assert (Hall : Forall Views.is_record (Gradio.research_history self'))
      by (rewrite Hgrown; apply Forall_app; now split).
    split; [now exists added|]. split; [exact Hall | now apply history_text_returns].
  - intros factory now_iso st question pressed Hrecords.
    destruct (run_history factory now_iso st question pressed)
      as (added & Hgrown & Hone & Hadded).
    destruct (Streamlit.run factory now_iso st question pressed)
      as [[[out st'] shown] events].
    cbn [fst snd] in Hgrown.
    assert (Hall : Forall Views.is_record (Streamlit.research_history st'))
      by (rewrite Hgrown; apply Forall_app; now split).
    split; [now exists added|]. split; [exact Hall | now apply history_view_returns].
Qed.

Lemma histories_only_grow_by_records_witness :
  (let '(_, self', _) :=
     Gradio.conduct_research (Ok Scenario.score_only_agent) "2026-01-01T10:00:00"
       Scenario.fresh "What is quantum entanglement?" in
   exists text, Gradio.get_research_history self' = Ok text)
  /\ (let '(_, st', _, _) :=
        Streamlit.run (Ok Scenario.score_only_agent) "2026-01-01T10:00:00"
          Scenario.fresh_state "What is quantum entanglement?" true in
      exists shown, Streamlit.render_history st' = Ok shown).
Proof.
  destruct histories_only_grow_by_records as [Hgradio Hstreamlit].
  split.
  - pose proof (Hgradio (Ok Scenario.score_only_agent) "2026-01-01T10:00:00"
                  Scenario.fresh "What is quantum entanglement?" (Forall_nil _)) as H.
    destruct (Gradio.conduct_research (Ok Scenario.score_only_agent) "2026-01-01T10:00:00"
                Scenario.fresh "What is quantum entanglement?") as [[out self'] events].
    exact (proj2 (proj2 H)).
  - pose proof (Hstreamlit (Ok Scenario.score_only_agent) "2026-01-01T10:00:00"
                  Scenario.fresh_state "What is quantum entanglement?" true (Forall_nil _))
      as H.
    destruct (Streamlit.run (Ok Scenario.score_only_agent) "2026-01-01T10:00:00"
                Scenario.fresh_state "What is quantum entanglement?" true)
      as [[[out st'] shown] events].
    exact (proj2 (proj2 H)).
Defined.
(** ** The Markdown report *)

Lemma ok_inj {A : Type} (a b : A) : Ok a = Ok b -> a = b.
Proof. intros H. now inversion H. Qed.

Lemma grows_none (acc : string) : exists u, acc = acc ++ u.
Proof. exists "". now rewrite append_nil_r. Qed.

Lemma grows_first (acc t : string) : exists u, acc ++ t = acc ++ u.
Proof. now exists t. Qed.

Lemma grows_more (acc r t : string) :
  (exists u, r = acc ++ u) -> exists u, r ++ t = acc ++ u.
Proof. intros [u ->]. exists (u ++ t). now rewrite append_assoc. Qed.

Ltac grows := repeat first [apply grows_none | apply grows_first | apply grows_more].

Lemma for_each_extends {A : Type} (body : string -> A -> outcome string) :
  (forall acc x r, body acc x = Ok r -> exists t, r = acc ++ t) ->
  forall xs acc r, for_each xs acc body = Ok r -> exists t, r = acc ++ t.
Proof.
  intros Hbody. induction xs as [|x xs IH]; intros acc r H; cbn [for_each] in H.
  - inversion H. exists "". now rewrite append_nil_r.
  - destruct (body acc x) as [acc'|e] eqn:Hx; cbn [bind] in H; [|discriminate].
    destruct (Hbody _ _ _ Hx) as [t ->].
    destruct (IH _ _ H) as [u ->]. exists (t ++ u). now rewrite append_assoc.
Qed.

Lemma finding_block_extends (report : string) (finding : value) (r : string) :
  Streamlit.finding_block report finding = Ok r -> exists t, r = report ++ t.
Proof.
  unfold Streamlit.finding_block. intros H.
  repeat (bind_step H; [|discriminate]).
  match type of H with
  | context [match ?extracted with Some _ => _ | None => _ end] => destruct extracted
  end; apply ok_inj in H; rewrite <- H; grows.
Qed.

(** X8: whenever the Markdown report is produced it opens with the question
    and the final answer under their headings and closes with the line that
    carries the time; whatever else the result holds comes in between. *)
Theorem markdown_report_frame (now : string) (result : value) (question report : string) :
  Streamlit.generate_markdown_report now result question = Ok report ->
  exists final_answer body,
    get result "final_answer" (VStr "No final answer generated") = Ok final_answer
    /\ report
       = "# Research Report" ++ nl ++
         nl ++
         "## Research Question" ++ nl ++
         question ++ nl ++
         nl ++
         "## Final Answer" ++ nl ++
         str final_answer ++ nl ++
         nl ++
         "## Research Process" ++ nl ++
         body ++
         nl ++ "---" ++ nl ++ "*Generated by AI Research Agent on " ++ now ++ "*" ++ nl.
Proof.
  unfold Streamlit.generate_markdown_report. intros H.
  bind_step H; [|discriminate]. rename a into final_answer.
  exists final_answer.
  set (head := "# Research Report" ++ nl ++ nl ++ "## Research Question" ++ nl ++
               question ++ nl ++ nl ++ "## Final Answer" ++ nl ++
               str final_answer ++ nl ++ nl ++ "## Research Process" ++ nl) in *.
  bind_step H; [|discriminate]. rename a into research_plan.
  bind_step H; [|discriminate]. rename a into with_plan.
  assert (Hplan : exists t, with_plan = head ++ t).
  { destruct (truthy research_plan).
    - bind_step E1; [|discriminate].
      apply for_each_extends in E1.
      + destruct E1 as [t ->]. grows.
      + intros acc [i step] r Hr. apply ok_inj in Hr. rewrite <- Hr. grows.
    - rewrite <- (ok_inj _ _ E1). grows. }
  destruct Hplan as [t1 ->].
  bind_step H; [|discriminate]. rename a into findings.
  bind_step H; [|discriminate]. rename a into with_findings.
  assert (Hfindings : exists t, with_findings = (head ++ t1) ++ t).
  { destruct (truthy findings).
    - bind_step E3; [|discriminate].
      apply (for_each_extends _ finding_block_extends) in E3.
      destruct E3 as [t ->]. grows.
    - rewrite <- (ok_inj _ _ E3). grows. }
  destruct Hfindings as [t2 ->].
  bind_step H; [|discriminate]. rename a into quality_assessment.
  bind_step H; [|discriminate]. rename a into with_quality.
  assert (Hquality : exists t, with_quality = ((head ++ t1) ++ t2) ++ t).
  { destruct (truthy quality_assessment).
    - repeat (bind_step E5; [|discriminate]).
      rewrite <- (ok_inj _ _ E5). grows.
    - rewrite <- (ok_inj _ _ E5). grows. }
  destruct Hquality as [t3 ->].
  rewrite <- (ok_inj _ _ H). exists (t1 ++ t2 ++ t3). split; [reflexivity|].
  subst head. now rewrite !append_assoc.
Qed.

Lemma markdown_report_frame_witness :
  exists final_answer body,
    get Scenario.unassessed "final_answer" (VStr "No final answer generated") = Ok final_answer
    /\ "# Research Report" ++ nl ++ nl ++ "## Research Question" ++ nl ++
       "What is quantum entanglement?" ++ nl ++ nl ++ "## Final Answer" ++ nl ++
       "..." ++ nl ++ nl ++ "## Research Process" ++ nl ++
       nl ++ "---" ++ nl ++ "*Generated by AI Research Agent on 2026-01-03 10:00:00*" ++ nl
       = "# Research Report" ++ nl ++ nl ++ "## Research Question" ++ nl ++
         "What is quantum entanglement?" ++ nl ++ nl ++ "## Final Answer" ++ nl ++
         str final_answer ++ nl ++ nl ++ "## Research Process" ++ nl ++
         body ++
         nl ++ "---" ++ nl ++ "*Generated by AI Research Agent on " ++
         "2026-01-03 10:00:00" ++ "*" ++ nl.
Proof.
  exact (markdown_report_frame "2026-01-03 10:00:00" Scenario.unassessed
           "What is quantum entanglement?" _ eq_refl).
Defined.
Lemma for_each_raises {A S : Type} (body : S -> A -> outcome S) (x : A) (xs : list A) :
  In x xs ->
  (forall acc, exists e, body acc x = Raise e) ->
  forall acc, exists e, for_each xs acc body = Raise e.
Proof.
  intros Hin Hx. induction xs as [|y ys IH]; [contradiction|].
  intros acc. cbn [for_each].
  destruct Hin as [-> | Hin].
  - destruct (Hx acc) as [e ->]. now exists e.
  - destruct (body acc y) as [acc'|e]; cbn [bind]; [now apply IH | now exists e].
Qed.

(** X9: a finding without a [step] (or whose [step] cannot be read) breaks the
    Streamlit views that number the steps: neither the Markdown report nor the
    timeline is produced, each raises. *)
Theorem finding_without_step_breaks_report_and_timeline
    (now : string) (result : value) (question : string)
    (findings : list value) (finding : value) (e : exn) :
  get result "findings" (VList []) = Ok (VList findings) ->
  In finding findings ->
  getitem finding "step" = Raise e ->
  (exists e', Streamlit.generate_markdown_report now result question = Raise e')
  /\ (exists e', Streamlit.create_research_timeline result = Raise e').
Proof.
  intros Hfindings Hin Hstep.
  assert (Htruthy : truthy (VList findings) = true)
    by (destruct findings; [contradiction | reflexivity]).
  split.
  - unfold Streamlit.generate_markdown_report.
    destruct (get result "final_answer" (VStr "No final answer generated"));
      cbn [bind]; [|now eexists].
    destruct (get result "research_plan" (VList [])); cbn [bind]; [|now eexists].
    match goal with
    | |- context [bind ?plan _] => destruct plan as [report|]; cbn [bind]; [|now eexists]
    end.
    rewrite Hfindings. cbn [bind]. rewrite Htruthy. cbn [iterate bind].
    destruct (for_each_raises Streamlit.finding_block finding findings Hin) with
      (acc := report ++ nl ++ "### Key Findings" ++ nl) as [e' ->]; [|now exists e'].
    intros acc. unfold Streamlit.finding_block. rewrite Hstep. now exists e.
  - unfold Streamlit.create_research_timeline.
    rewrite Hfindings. cbn [bind]. rewrite Htruthy. cbn [negb iterate bind].
    match goal with
    | |- context [for_each findings [] ?body] =>
        destruct (for_each_raises body finding findings Hin) with (acc := @nil (value * value * value))
          as [e' ->]; [|now exists e']
    end.
    intros acc. cbn beta. rewrite Hstep. now exists e.
Qed.

Lemma finding_without_step_breaks_report_and_timeline_witness :
  (exists e', Streamlit.generate_markdown_report "2026-01-03 10:00:00"
                (VDict [("findings", VList [VDict [("analysis", VStr "KEY_FINDINGS: x")]])])
                "What is quantum entanglement?" = Raise e')
  /\ (exists e', Streamlit.create_research_timeline
                   (VDict [("findings", VList [VDict [("analysis", VStr "KEY_FINDINGS: x")]])])
                 = Raise e').
Proof.
  exact (finding_without_step_breaks_report_and_timeline "2026-01-03 10:00:00"
           (VDict [("findings", VList [VDict [("analysis", VStr "KEY_FINDINGS: x")]])])
           "What is quantum entanglement?"
           [VDict [("analysis", VStr "KEY_FINDINGS: x")]]
           (VDict [("analysis", VStr "KEY_FINDINGS: x")])
           {| exn_type := KeyError; exn_text := "'step'" |}
           eq_refl (or_introl eq_refl) eq_refl).
Defined.

Lemma str_get_field (kvs : list (string * value)) (k : string) (default : value) :
  str (match lookup k kvs with Some v => v | None => default end)
  = Views.field kvs k (str default).
Proof. unfold Views.field. now destruct (lookup k kvs). Qed.

(** X10: when the result carries a quality assessment the report ends with
    its section and the closing line; a missing score or confidence is
    printed as N/A and a missing count as 0, and nothing in the section can
    fail. *)
Theorem markdown_report_quality_section
    (now : string) (result : value) (question report : string)
    (kvs : list (string * value)) :
  get result "quality_assessment" (VDict []) = Ok (VDict kvs) ->
  kvs <> [] ->
  Streamlit.generate_markdown_report now result question = Ok report ->
  exists body,
    report
    = body ++
      nl ++ "## Quality Assessment" ++ nl ++
      "- Overall Quality Score: " ++ Views.field kvs "overall_quality_score" "N/A" ++
        "/10" ++ nl ++
      "- Confidence Level: " ++ Views.field kvs "confidence_assessment" "N/A" ++ nl ++
      "- Total Findings: " ++ Views.field kvs "total_findings" "0" ++ nl ++
      "- External Sources Used: " ++ Views.field kvs "external_sources_used" "0" ++ nl ++
      nl ++ "---" ++ nl ++ "*Generated by AI Research Agent on " ++ now ++ "*" ++ nl.
Proof.
  intros Hqa Hkvs. unfold Streamlit.generate_markdown_report. intros H.
  bind_step H; [|discriminate].
  bind_step H; [|discriminate].
  bind_step H; [|discriminate]. clear E1.
  bind_step H; [|discriminate].
  bind_step H; [|discriminate]. clear E2.
  rewrite Hqa in H. cbn [bind] in H.
  destruct kvs as [|kv kvs]; [contradiction|].
  cbn [truthy get bind] in H.
  rewrite <- (ok_inj _ _ H), !str_get_field. cbn [str]. rewrite !append_assoc.
  eexists. reflexivity.
Qed.

Lemma markdown_report_quality_section_witness :
  exists body,
    "# Research Report" ++ nl ++ nl ++ "## Research Question" ++ nl ++
    "What is quantum entanglement?" ++ nl ++ nl ++ "## Final Answer" ++ nl ++
    "..." ++ nl ++ nl ++ "## Research Process" ++ nl ++
    nl ++ "## Quality Assessment" ++ nl ++
    "- Overall Quality Score: 7/10" ++ nl ++
    "- Confidence Level: N/A" ++ nl ++
    "- Total Findings: 0" ++ nl ++
    "- External Sources Used: 0" ++ nl ++
    nl ++ "---" ++ nl ++ "*Generated by AI Research Agent on 2026-01-03 10:00:00*" ++ nl
    = body ++
      nl ++ "## Quality Assessment" ++ nl ++
      "- Overall Quality Score: " ++
        Views.field [("overall_quality_score", VInt 7)] "overall_quality_score" "N/A" ++
        "/10" ++ nl ++
      "- Confidence Level: " ++
        Views.field [("overall_quality_score", VInt 7)] "confidence_assessment" "N/A" ++ nl ++
      "- Total Findings: " ++
        Views.field [("overall_quality_score", VInt 7)] "total_findings" "0" ++ nl ++
      "- External Sources Used: " ++
        Views.field [("overall_quality_score", VInt 7)] "external_sources_used" "0" ++ nl ++
      nl ++ "---" ++ nl ++ "*Generated by AI Research Agent on " ++
      "2026-01-03 10:00:00" ++ "*" ++ nl.
Proof.
  exact (markdown_report_quality_section "2026-01-03 10:00:00" Scenario.score_only
           "What is quantum entanglement?" _ [("overall_quality_score", VInt 7)]
           eq_refl ltac:(discriminate) eq_refl).
Defined.
(** ** The exported JSON text *)

Lemma all_chars_app (p : ascii -> bool) (s t : string) :
  Json.all_chars p (s ++ t) = Json.all_chars p s && Json.all_chars p t.
Proof.
  induction s as [|c s IH]; [reflexivity|]. cbn. now rewrite IH, andb_assoc.
Qed.

Lemma all_chars_cat (p : ascii -> bool) (l : list string) :
  Forall (fun s => Json.all_chars p s = true) l -> Json.all_chars p (cat l) = true.
Proof.
  induction 1 as [|s l Hs _ IH]; [reflexivity|].
  cbn [cat]. now rewrite all_chars_app, Hs, IH.
Qed.

Lemma all_chars_join (p : ascii -> bool) (sep : string) (l : list string) :
  Json.all_chars p sep = true ->
  Forall (fun s => Json.all_chars p s = true) l ->
  Json.all_chars p (join sep l) = true.
Proof.
  intros Hsep. induction 1 as [|s l Hs Hl IH]; [reflexivity|].
  destruct l as [|t l]; [exact Hs|].
  change (join sep (s :: t :: l)) with (s ++ sep ++ join sep (t :: l)).
  now rewrite !all_chars_app, Hs, Hsep, IH.
Qed.

Lemma all_chars_repeat (p : ascii -> bool) (s : string) (n : nat) :
  Json.all_chars p s = true -> Json.all_chars p (PyStr.repeat s n) = true.
Proof.
  intros Hs. induction n as [|n IH]; [reflexivity|].
  cbn [PyStr.repeat]. now rewrite all_chars_app, Hs, IH.
Qed.

Lemma all_chars_substring (p : ascii -> bool) (s : string) :
  Json.all_chars p s = true ->
  forall n m, Json.all_chars p (String.substring n m s) = true.
Proof.
  induction s as [|c s IH]; intros H n m.
  - destruct n, m; reflexivity.
  - cbn in H. apply andb_prop in H as [Hc Hs].
    destruct n as [|n]; cbn [String.substring].
    + destruct m as [|m]; [reflexivity|]. cbn. now rewrite Hc, IH.
    + now apply IH.
Qed.

Lemma hex_digit_ascii (d : Z) : Json.all_chars Views.is_ascii (Json.hex_digit d) = true.
Proof. unfold Json.hex_digit. now apply all_chars_substring. Qed.

Lemma hex4_ascii (n : Z) : Json.all_chars Views.is_ascii (Json.hex4 n) = true.
Proof. unfold Json.hex4. now rewrite !all_chars_app, !hex_digit_ascii. Qed.

Lemma escape_cp_ascii (cp : Z) : Json.all_chars Views.is_ascii (Json.escape_cp cp) = true.
Proof.
  unfold Json.escape_cp.
  repeat match goal with
         | |- context [if ?b then _ else _] => destruct b eqn:?; try reflexivity
         end;
    rewrite ?all_chars_app, ?hex4_ascii; try reflexivity.
  match goal with
  | H : ((32 <=? cp) && (cp <=? 126))%Z = true |- _ => apply andb_prop in H as [Hlow Hhigh]
  end.
  apply Z.leb_le in Hlow, Hhigh.
  cbn. unfold Views.is_ascii. rewrite code_chr by lia.
  now replace (cp <? 128)%Z with true by (symmetry; apply Z.ltb_lt; lia).
Qed.

Lemma basestring_ascii (s : string) :
  Json.all_chars Views.is_ascii (Json.encode_basestring_ascii s) = true.
Proof.
  unfold Json.encode_basestring_ascii. rewrite !all_chars_app.
  rewrite all_chars_cat; [reflexivity|].
  apply Forall_map, Forall_forall. intros cp _. apply escape_cp_ascii.
Qed.

Lemma number_char_ascii (c : ascii) :
  Json.is_number_char c = true -> Views.is_ascii c = true.
Proof.
  unfold Json.is_number_char, Json.is_digit, Views.is_ascii. intros H.
  repeat (apply orb_prop in H as [H | H]);
    try (apply Ascii.eqb_eq in H; subst c; reflexivity).
  apply andb_prop in H as [_ H]. apply Z.leb_le in H. apply Z.ltb_lt. lia.
Qed.

Lemma indent_ascii (level : nat) :
  Json.all_chars Views.is_ascii (Json.newline_indent level) = true.
Proof.
  unfold Json.newline_indent. rewrite all_chars_app.
  now rewrite all_chars_repeat.
Qed.

Lemma encode_ascii (v : value) :
  Json.well_formed v = true ->
  forall level, Json.all_chars Views.is_ascii (Json.encode level v) = true.
Proof.
  induction v as [|b|z|f|s|l IH|d IH|o] using value_ind_nested; intros Hwf level.
  - reflexivity.
  - now destruct b.
  - apply (all_chars_weaken _ _ _ number_char_ascii), int_number_chars.
  - cbn [Json.well_formed] in Hwf. unfold Json.reads_back in Hwf.
    cbn [Json.encode]. unfold Json.floatstr.
    destruct f as [sg|sg| |sg m e]; try (try destruct sg; reflexivity);
      apply andb_prop in Hwf as [Hall _];
      exact (all_chars_weaken _ _ _ number_char_ascii Hall).
  - apply basestring_ascii.
  - cbn [Json.well_formed] in Hwf. destruct l as [|x xs]; [reflexivity|].
    set (items := x :: xs) in *.
    change (Json.encode level (VList items))
      with ("[" ++ Json.newline_indent (S level) ++
            join ("," ++ Json.newline_indent (S level))
              (map (Json.encode (S level)) items) ++
            Json.newline_indent level ++ "]").
    rewrite !all_chars_app, !indent_ascii, all_chars_join; [reflexivity| |].
    + change ("," ++ Json.newline_indent (S level))
        with (String "," (Json.newline_indent (S level))).
      cbn [Json.all_chars]. now rewrite indent_ascii.
    + apply Forall_map, Forall_forall. intros y Hy.
      rewrite Forall_forall in IH. rewrite forallb_forall in Hwf. auto.
  - cbn [Json.well_formed] in Hwf. apply andb_prop in Hwf as [_ Hwf].
    destruct d as [|m ms]; [reflexivity|].
    set (members := m :: ms) in *.
    change (Json.encode level (VDict members))
      with ("{" ++ Json.newline_indent (S level) ++
            join ("," ++ Json.newline_indent (S level))
              (map (fun kv => Json.encode_basestring_ascii (fst kv) ++ ": " ++
                              Json.encode (S level) (snd kv)) members) ++
            Json.newline_indent level ++ "}").
    rewrite !all_chars_app, !indent_ascii, all_chars_join; [reflexivity| |].
    + change ("," ++ Json.newline_indent (S level))
        with (String "," (Json.newline_indent (S level))).
      cbn [Json.all_chars]. now rewrite indent_ascii.
    + apply Forall_map, Forall_forall. intros y Hy.
      rewrite Forall_forall in IH. rewrite forallb_forall in Hwf.
      specialize (Hwf y Hy). apply andb_prop in Hwf as [_ Hy'].
      rewrite !all_chars_app, basestring_ascii, (IH y Hy Hy'). reflexivity.
  - apply basestring_ascii.
Qed.

(** X11: the exported JSON text is pure ASCII whatever texts the result
    holds: every character outside that range is written as an escape. *)
Theorem json_export_is_ascii (stamp : string) (result : value) (question : string) :
  Json.well_formed result = true ->
  Json.all_chars Views.is_ascii
    (Streamlit.data (Streamlit.export_as_json stamp result question)) = true.
Proof. intros Hwf. now apply encode_ascii. Qed.

Lemma json_export_is_ascii_witness :
  Json.all_chars Views.is_ascii
    (Streamlit.data
       (Streamlit.export_as_json "20260103_100000"
          (VDict [("final_answer", VStr "naïve – ✅")]) "What is quantum entanglement?"))
  = true.
Proof.
  apply json_export_is_ascii. vm_compute. reflexivity.
Defined.
(** ** Memory statistics *)

(** X12: the memory statistics are always a text.  For statistics held in a
    dict it is the table of the seven counts, each missing count shown as 0;
    when the memory system raises, or returns something that is not a dict,
    it is the error line with the message. *)
Theorem memory_statistics_defaults_and_errors :
  (forall kvs : list (string * value),
      Gradio.get_memory_statistics (Ok (VDict kvs))
      = "## Memory System Statistics" ++ nl ++ nl ++
        "- **Short-term Memory:** " ++ Views.field kvs "short_term_count" "0" ++
          " items" ++ nl ++
        "- **Long-term Memory:** " ++ Views.field kvs "long_term_count" "0" ++
          " items" ++ nl ++
        "- **Episodic Memory:** " ++ Views.field kvs "episodic_count" "0" ++
          " episodes" ++ nl ++
        "- **Knowledge Graph Nodes:** " ++ Views.field kvs "knowledge_graph_nodes" "0" ++ nl ++
        "- **Knowledge Graph Edges:** " ++ Views.field kvs "knowledge_graph_edges" "0" ++ nl ++
        "- **Concepts Tracked:** " ++ Views.field kvs "concepts_tracked" "0" ++ nl ++
        "- **Citations Tracked:** " ++ Views.field kvs "citations_tracked" "0" ++ nl)
  /\ (forall e : exn,
        Gradio.get_memory_statistics (Raise e)
        = "Error retrieving memory statistics: " ++ exn_text e)
  /\ (forall stats : value,
        (forall kvs, stats <> VDict kvs) ->
        Gradio.get_memory_statistics (Ok stats)
        = "Error retrieving memory statistics: '" ++ type_name stats ++
          "' object has no attribute 'get'").
Proof.
  split; [|split].
  - intros kvs. unfold Gradio.get_memory_statistics. cbn [bind get].
    rewrite !str_get_field. cbn [str]. now rewrite !append_assoc.
  - reflexivity.
  - intros stats Hstats.
    destruct stats; try reflexivity. now elim (Hstats d).
Qed.

Lemma memory_statistics_defaults_and_errors_witness :
  Gradio.get_memory_statistics (Ok VNone)
  = "Error retrieving memory statistics: 'NoneType' object has no attribute 'get'".
Proof.
  apply (proj2 (proj2 memory_statistics_defaults_and_errors) VNone).
  discriminate.
Defined.
(** ** The summary report *)

Lemma take_characters (n : nat) (s : string) : (Views.characters (take n s) <= n)%nat.
Proof.
  revert n. induction s as [|c s IH]; intros n; cbn [take Views.characters]; [lia|].
  destruct (is_continuation c) eqn:Hc.
  - cbn [Views.characters]. rewrite Hc. apply IH.
  - destruct n as [|n]; cbn [Views.characters]; [lia|]. rewrite Hc.
    specialize (IH n). lia.
Qed.

Lemma take_all (n : nat) (s : string) : (Views.characters s <= n)%nat -> take n s = s.
Proof.
  revert n. induction s as [|c s IH]; intros n; cbn [take Views.characters]; [reflexivity|].
  destruct (is_continuation c).
  - intros H. now rewrite IH.
  - destruct n as [|n]; [lia|]. intros H. rewrite IH; [reflexivity | lia].
Qed.

(** X13: the summary report counts the findings and the hypotheses, prints
    the score before /10 (N/A/10 without one) and previews the final answer:
    its first 300 characters, the whole answer when it is no longer, always
    followed by three dots. *)
Theorem summary_report_counts_and_preview
    (result : value) (question answer : string) (findings hypotheses : list value)
    (qa : list (string * value)) :
  get result "quality_assessment" (VDict []) = Ok (VDict qa) ->
  get result "findings" (VList []) = Ok (VList findings) ->
  get result "hypotheses" (VList []) = Ok (VList hypotheses) ->
  get result "final_answer" (VStr "No final answer") = Ok (VStr answer) ->
  Streamlit.generate_summary_report result question
  = Ok (nl ++
        "        **Research Summary**" ++ nl ++
        "        " ++ nl ++
        "        **Question:** " ++ question ++ nl ++
        "        " ++ nl ++
        "        **Key Metrics:**" ++ nl ++
        "        - Research Steps Completed: " ++
          PyStr.of_Z (Z.of_nat (List.length findings)) ++ nl ++
        "        - Quality Score: " ++ Views.field qa "overall_quality_score" "N/A" ++
          "/10" ++ nl ++
        "        - Hypotheses Generated: " ++
          PyStr.of_Z (Z.of_nat (List.length hypotheses)) ++ nl ++
        "        " ++ nl ++
        "        **Final Answer Preview:**" ++ nl ++
        "        " ++ take 300 answer ++ "..." ++ nl ++
        "        ")
  /\ (Views.characters (take 300 answer) <= 300)%nat
  /\ ((Views.characters answer <= 300)%nat -> take 300 answer = answer).
Proof.
  intros Hqa Hfindings Hhypotheses Hanswer.
  split; [|split; [apply take_characters | apply take_all]].
  unfold Streamlit.generate_summary_report.
  rewrite Hqa, Hfindings, Hhypotheses, Hanswer.
  cbn [bind get len Streamlit.slice_to]. rewrite str_get_field.
  reflexivity.
Qed.

Lemma summary_report_counts_and_preview_witness :
  Streamlit.generate_summary_report Scenario.entanglement "What is quantum entanglement?"
  = Ok (nl ++
        "        **Research Summary**" ++ nl ++
        "        " ++ nl ++
        "        **Question:** What is quantum entanglement?" ++ nl ++
        "        " ++ nl ++
        "        **Key Metrics:**" ++ nl ++
        "        - Research Steps Completed: 1" ++ nl ++
        "        - Quality Score: 7/10" ++ nl ++
        "        - Hypotheses Generated: 0" ++ nl ++
        "        " ++ nl ++
        "        **Final Answer Preview:**" ++ nl ++
        "        ......" ++ nl ++
        "        ").
Proof.
  exact (proj1 (summary_report_counts_and_preview Scenario.entanglement
                  "What is quantum entanglement?" "..." [Scenario.entanglement_finding] []
                  _ eq_refl eq_refl eq_refl eq_refl)).
Defined.
(** ** Charts *)

Lemma counted (k : string) (used : list (string * value)) :
  Views.integer_or_absent k used = true ->
  forall a,
    bind (get (VDict used) k (VInt 0)) (fun v => iadd (VInt a) v)
    = Ok (VInt (a + match lookup k used with
                    | Some (VInt n) => n
                    | _ => 0
                    end)).
Proof.
  unfold Views.integer_or_absent. intros H a. cbn [get bind].
  destruct (lookup k used) as [[]|]; try discriminate; reflexivity.
Qed.

Lemma source_totals_step (finding : value) (a b c : Z) :
  Views.integer_sources finding = true ->
  (let '(basic, advanced, external) := (VInt a, VInt b, VInt c) in
   sources_used <- get finding "sources_used" (VDict []) ;;
   v <- get sources_used "memory_basic" (VInt 0) ;;
   basic <- iadd basic v ;;
   v <- get sources_used "memory_advanced" (VInt 0) ;;
   advanced <- iadd advanced v ;;
   v <- get sources_used "external_sources" (VInt 0) ;;
   external <- iadd external v ;;
   Ok (basic, advanced, external))
  = Ok (VInt (a + Views.source_count "memory_basic" finding),
        VInt (b + Views.source_count "memory_advanced" finding),
        VInt (c + Views.source_count "external_sources" finding)).
Proof.
  unfold Views.integer_sources, Views.source_count.
  destruct finding as [| | | | | |kvs|]; try discriminate.
  cbn [get bind].
  destruct (lookup "sources_used" kvs) as [[| | | | | |used|]|]; try discriminate.
  - intros H. apply andb_prop in H as [H Hexternal]. apply andb_prop in H as [Hbasic Hadvanced].
    pose proof (counted _ _ Hbasic a) as H1.
    pose proof (counted _ _ Hadvanced b) as H2.
    pose proof (counted _ _ Hexternal c) as H3.
    cbn [get bind] in H1, H2, H3 |- *.
    rewrite H1. cbn [bind]. rewrite H2. cbn [bind]. rewrite H3. reflexivity.
  - intros _. reflexivity.
Qed.

Lemma source_totals (findings : list value) :
  forallb Views.integer_sources findings = true ->
  forall a b c,
    for_each findings (VInt a, VInt b, VInt c)
      (fun source_totals finding =>
         let '(basic, advanced, external) := source_totals in
         sources_used <- get finding "sources_used" (VDict []) ;;
         v <- get sources_used "memory_basic" (VInt 0) ;;
         basic <- iadd basic v ;;
         v <- get sources_used "memory_advanced" (VInt 0) ;;
         advanced <- iadd advanced v ;;
         v <- get sources_used "external_sources" (VInt 0) ;;
         external <- iadd external v ;;
         Ok (basic, advanced, external))
    = Ok (VInt (a + Views.total_of "memory_basic" findings),
          VInt (b + Views.total_of "memory_advanced" findings),
          VInt (c + Views.total_of "external_sources" findings)).
Proof.
  induction findings as [|f fs IH]; intros Hall a b c.
  - cbn. now rewrite !Z.add_0_r.
  - cbn [forallb] in Hall. apply andb_prop in Hall as [Hf Hfs].
    cbn [for_each].
    rewrite (source_totals_step f a b c Hf). cbn [bind].
    rewrite (IH Hfs). cbn [Views.total_of fold_right].
    now rewrite !Z.add_assoc.
Qed.

(** X14: the source distribution chart adds up, over the findings, the three
    counts of [sources_used]; a finding without [sources_used], or without one
    of the counts, adds 0.  Without any finding there is no chart. *)
Theorem source_distribution_sums_the_counts (result : value) (findings : list value) :
  get result "findings" (VList []) = Ok (VList findings) ->
  (findings = [] -> Streamlit.create_source_distribution_chart result = Ok None)
  /\ (findings <> [] ->
      forallb Views.integer_sources findings = true ->
      Streamlit.create_source_distribution_chart result
      = Ok (Some [("Memory (Basic)", VInt (Views.total_of "memory_basic" findings));
                  ("Memory (Advanced)", VInt (Views.total_of "memory_advanced" findings));
                  ("External Sources", VInt (Views.total_of "external_sources" findings))])).
Proof.
  intros Hfindings. unfold Streamlit.create_source_distribution_chart.
  rewrite Hfindings. cbn [bind]. split.
  - intros ->. reflexivity.
  - intros Hsome Hall. destruct findings as [|f fs]; [contradiction|].
    cbn [truthy negb iterate bind].
    now rewrite (source_totals _ Hall 0 0 0).
Qed.

Lemma source_distribution_sums_the_counts_witness :
  Streamlit.create_source_distribution_chart
    (VDict [("findings", VList [Scenario.entanglement_finding;
                                VDict [("step", VInt 1)];
                                Scenario.entanglement_finding])])
  = Ok (Some [("Memory (Basic)", VInt 2);
              ("Memory (Advanced)", VInt 0);
              ("External Sources", VInt 4)]).
Proof.
  exact (proj2 (source_distribution_sums_the_counts
                  (VDict [("findings", VList [Scenario.entanglement_finding;
                                              VDict [("step", VInt 1)];
                                              Scenario.entanglement_finding])])
                  [Scenario.entanglement_finding; VDict [("step", VInt 1)];
                   Scenario.entanglement_finding] eq_refl)
               ltac:(discriminate) eq_refl).
Defined.
Lemma for_each_collect2 {A B C : Type} (P : A -> B -> Prop) (g : B -> C)
    (body : list C -> A -> outcome (list C)) :
  (forall x y, P x y -> forall acc, body acc x = Ok (acc ++ [g y])%list) ->
  forall xs ys, Forall2 P xs ys ->
  forall acc, for_each xs acc body = Ok (acc ++ map g ys)%list.
Proof.
  intros Hbody. induction 1 as [|x y xs ys Hxy _ IH]; intros acc.
  - cbn. now rewrite app_nil_r.
  - cbn [for_each map]. rewrite (Hbody _ _ Hxy). cbn [bind].
    rewrite IH, <- app_assoc. reflexivity.
Qed.

Lemma timeline_data_of (findings : list value) (points : list (Z * string * Z)) :
  Forall2 (fun finding p => Views.timeline_point finding (fst (fst p)) (snd (fst p)) (snd p))
          findings points ->
  forall acc,
    for_each findings acc
      (fun timeline_data finding =>
         step <- getitem finding "step" ;;
         step <- add step (VInt 1) ;;
         description <- getitem finding "step_description" ;;
         sources_used <- get finding "sources_used" (VDict []) ;;
         sources <- get sources_used "external_sources" (VInt 0) ;;
         Ok (List.app timeline_data [(step, description, sources)]))
    = Ok (acc ++ map (fun p : Z * string * Z =>
                        (VInt (fst (fst p) + 1), VStr (snd (fst p)), VInt (snd p)))
                     points)%list.
Proof.
  apply for_each_collect2.
  intros finding p (Hstep & Hdescription & used & Hused & Hsources) acc.
  cbn beta. rewrite Hstep. cbn [bind add to_number]. rewrite Hdescription. cbn [bind].
  rewrite Hused. cbn [bind]. rewrite Hsources. reflexivity.
Qed.

(** X15: the timeline has one marker per finding: at the step number (the
    index plus one), of size 20 plus ten times the external sources of the
    finding and labelled with the first 50 characters of the description
    followed by three dots. *)
Theorem timeline_has_one_marker_per_finding
    (result : value) (findings : list value) (points : list (Z * string * Z)) :
  get result "findings" (VList []) = Ok (VList findings) ->
  findings <> [] ->
  Forall2 (fun finding p => Views.timeline_point finding (fst (fst p)) (snd (fst p)) (snd p))
          findings points ->
  Streamlit.create_research_timeline result
  = Ok (Some {| Streamlit.tl_x := map (fun p => VInt (fst (fst p) + 1)) points;
                Streamlit.tl_y := List.repeat (VInt 1) (List.length findings);
                Streamlit.tl_size := map (fun p => VInt (20 + snd p * 10)) points;
                Streamlit.tl_color := map (fun p => VInt (snd p)) points;
                Streamlit.tl_text :=
                  map (fun p => VStr (take 50 (snd (fst p)) ++ "...")) points |}).
Proof.
  intros Hfindings Hsome Hpoints.
  unfold Streamlit.create_research_timeline. rewrite Hfindings. cbn [bind].
  destruct findings as [|f fs] eqn:Hfs; [contradiction|]. rewrite <- Hfs in *.
  replace (truthy (VList findings)) with true by now rewrite Hfs.
  cbn [negb iterate bind].
  rewrite (timeline_data_of _ _ Hpoints).
  cbn [List.app bind]. rewrite !for_each_map.
  rewrite (for_each_collect (fun p : Z * string * Z => VStr (take 50 (snd (fst p)) ++ "...")))
    by (intros acc p; reflexivity).
  cbn [List.app bind].
  rewrite (for_each_collect (fun p : Z * string * Z => VInt (20 + snd p * 10)))
    by (intros acc p; reflexivity).
  cbn [List.app bind]. rewrite !map_map, !length_map.
  rewrite (Forall2_length Hpoints). reflexivity.
Qed.

Lemma timeline_has_one_marker_per_finding_witness :
  Streamlit.create_research_timeline Scenario.entanglement
  = Ok (Some {| Streamlit.tl_x := [VInt 1];
                Streamlit.tl_y := [VInt 1];
                Streamlit.tl_size := [VInt 40];
                Streamlit.tl_color := [VInt 2];
                Streamlit.tl_text := [VStr "Define terms..."] |}).
Proof.
  apply (timeline_has_one_marker_per_finding Scenario.entanglement
           [Scenario.entanglement_finding] [(0%Z, "Define terms", 2%Z)]).
  - reflexivity.
  - discriminate.
  - constructor; [|constructor].
    split; [reflexivity|]. split; [reflexivity|].
    eexists. split; reflexivity.
Defined.
(** ** The progress display *)

(** X16: the progress of a run is staged.  The bars never go back; once the
    factory has made the agent the page walks through all its stages, up to
    nine tenths and six seconds of pauses, before the agent is invoked at all;
    and the completion marks are shown exactly when the agent returned.  The
    result, the error box and the calls are those of the run without its
    display. *)
Theorem progress_display_is_staged (factory : outcome agent) (question : string) :
  let '(r, log) := Streamlit.Progress.run_research_with_progress factory question [] in
  (exists v,
      r = Ok v
      /\ Streamlit.run_research_with_progress factory question
         = (v, Views.errors log, Views.calls log))
  /\ Views.nondecreasing (Views.bar_values Streamlit.Progress.Overall log) = true
  /\ Views.nondecreasing (Views.bar_values Streamlit.Progress.CurrentStep log) = true
  /\ (forall a, factory = Ok a ->
        Views.seconds (Views.until_invoke log) = 6%Z
        /\ Views.bar_values Streamlit.Progress.Overall (Views.until_invoke log)
           = [VInt 0; Streamlit.Progress.tenths 1; Streamlit.Progress.tenths 3;
              Streamlit.Progress.tenths 7; Streamlit.Progress.tenths 9]
        /\ Views.successes (Views.until_invoke log) = ["📋 Planning"])
  /\ (In "✅ Research completed successfully!" (Views.successes log)
      <-> exists a result,
            factory = Ok a /\ invoke a (initial_state question) = Ok result).
Proof.
  destruct factory as [a|e].
  - vm_compute.
    match goal with
    | |- context [match ?called with Ok _ => _ | Raise _ => _ end] =>
        destruct called as [result|e] eqn:Hinvoke
    end.
    + split; [eexists; split; reflexivity|].
      split; [reflexivity|]. split; [reflexivity|].
      split; [intros _ _; repeat split|].
      split; [intros _; now exists a, result | intros _; tauto].
    + split; [eexists; split; reflexivity|].
      split; [reflexivity|]. split; [reflexivity|].
      split; [intros _ _; repeat split|].
      split.
      * intros [H | []]; discriminate H.
      * intros (a' & result & Ha & Hresult). inversion Ha. subst a'.
        rewrite Hinvoke in Hresult. discriminate.
  - vm_compute.
    split; [eexists; split; reflexivity|].
    split; [reflexivity|]. split; [reflexivity|].
    split; [intros a Ha; discriminate|].
    split; [intros [] | intros (a & result & Ha & _); discriminate].
Qed.

Lemma progress_display_is_staged_witness :
  let '(r, log) :=
    Streamlit.Progress.run_research_with_progress (Ok Scenario.failing_agent)
      "What is quantum entanglement?" [] in
  Views.seconds (Views.until_invoke log) = 6%Z
  /\ Views.successes log = ["📋 Planning"]
  /\ Views.errors log = [Streamlit.Error "Research failed: model endpoint timed out"].
Proof.
  pose proof (progress_display_is_staged (Ok Scenario.failing_agent)
                "What is quantum entanglement?") as H.
  destruct (Streamlit.Progress.run_research_with_progress (Ok Scenario.failing_agent)
              "What is quantum entanglement?" []) as [r log] eqn:Hrun.
  destruct H as (_ & _ & _ & Hstaged & _).
  destruct (Hstaged Scenario.failing_agent eq_refl) as (Hseconds & _ & _).
  split; [exact Hseconds|].
  vm_compute in Hrun. inversion Hrun. split; reflexivity.
Defined.
(** ** The overview of a result *)

(** X17: the overview shows the numbers of findings and hypotheses, the score
    before /10 and the confidence with two decimals; a missing score or
    confidence is shown as N/A without being formatted, so only a confidence
    that is there and is no number makes the overview raise. *)
Theorem overview_guards_missing_values
    (result : value) (findings hypotheses : list value) (qa : list (string * value)) :
  get result "findings" (VList []) = Ok (VList findings) ->
  get result "hypotheses" (VList []) = Ok (VList hypotheses) ->
  get result "quality_assessment" (VDict []) = Ok (VDict qa) ->
  let quality :=
    match lookup "overall_quality_score" qa with
    | Some score => if eq_text score "N/A" then "N/A" else str score ++ "/10"
    | None => "N/A"
    end in
  let overview confidence :=
    [("Research Steps", VInt (Z.of_nat (List.length findings)));
     ("Quality Score", VStr quality);
     ("Hypotheses", VInt (Z.of_nat (List.length hypotheses)));
     ("Confidence", VStr confidence)] in
  (lookup "confidence_assessment" qa = None ->
   Streamlit.research_overview result = Ok (overview "N/A"))
  /\ (forall c shown,
        lookup "confidence_assessment" qa = Some c ->
        format_2f c = Ok shown ->
        Streamlit.research_overview result = Ok (overview shown))
  /\ (forall c e,
        lookup "confidence_assessment" qa = Some c ->
        eq_text c "N/A" = false ->
        format_2f c = Raise e ->
        Streamlit.research_overview result = Raise e).
Proof.
  intros Hfindings Hhypotheses Hqa quality overview.
  assert (Hquality :
            (let v := match lookup "overall_quality_score" qa with
                      | Some v => v
                      | None => VStr "N/A"
                      end in
             if negb (eq_text v "N/A") then str v ++ "/10" else "N/A") = quality).
  { subst quality. destruct (lookup "overall_quality_score" qa) as [score|]; [|reflexivity].
    cbn zeta. now destruct (eq_text score "N/A"). }
  unfold Streamlit.research_overview.
  rewrite Hfindings, Hhypotheses, Hqa. cbn [bind len get]. cbn zeta in Hquality.
  rewrite Hquality. repeat split.
  - intros ->. reflexivity.
  - intros c shown -> Hshown.
    destruct (eq_text c "N/A") eqn:Hna; cbn [negb bind].
    + destruct c; discriminate.
    + now rewrite Hshown.
  - intros c e -> Hna Hraise. rewrite Hna. cbn [negb]. now rewrite Hraise.
Qed.

Lemma overview_guards_missing_values_witness :
  Streamlit.research_overview Scenario.score_only
  = Ok [("Research Steps", VInt 0); ("Quality Score", VStr "7/10");
        ("Hypotheses", VInt 0); ("Confidence", VStr "N/A")]
  /\ Streamlit.research_overview Scenario.entanglement
     = Ok [("Research Steps", VInt 1); ("Quality Score", VStr "7/10");
           ("Hypotheses", VInt 0); ("Confidence", VStr "0.80")]
  /\ Streamlit.research_overview
       (VDict [("quality_assessment", VDict [("confidence_assessment", VStr "high")])])
     = raise ValueError "Unknown format code 'f' for object of type 'str'".
Proof.
  split; [|split].
  - exact (proj1 (overview_guards_missing_values Scenario.score_only [] []
                    [("overall_quality_score", VInt 7)] eq_refl eq_refl eq_refl) eq_refl).
  - refine (proj1 (proj2 (overview_guards_missing_values Scenario.entanglement
                            [Scenario.entanglement_finding] [] _ eq_refl eq_refl eq_refl))
                  _ "0.80" eq_refl _).
    vm_compute. reflexivity.
  - exact (proj2 (proj2 (overview_guards_missing_values
                           (VDict [("quality_assessment",
                                    VDict [("confidence_assessment", VStr "high")])])
                           [] [] [("confidence_assessment", VStr "high")]
                           eq_refl eq_refl eq_refl))
                 (VStr "high") _ eq_refl eq_refl eq_refl).
Defined.
(** ** The intelligence summary *)

Lemma for_each_append2 {A B : Type} (P : A -> B -> Prop) (g : B -> string)
    (body : string -> A -> outcome string) :
  (forall x y, P x y -> forall acc, body acc x = Ok (acc ++ g y)) ->
  forall xs ys, Forall2 P xs ys ->
  forall acc, for_each xs acc body = Ok (acc ++ cat (map g ys)).
Proof.
  intros Hbody. induction 1 as [|x y xs ys Hxy _ IH]; intros acc.
  - cbn. now rewrite append_nil_r.
  - cbn [for_each map cat]. rewrite (Hbody _ _ Hxy). cbn [bind].
    now rewrite IH, append_assoc.
Qed.

Lemma enumerate_forall2 {A B : Type} (P : A -> B -> Prop) (xs : list A) (ys : list B) :
  Forall2 P xs ys ->
  forall k, Forall2 (fun p q => fst p = fst q /\ P (snd p) (snd q))
                    (enumerate k xs) (enumerate k ys).
Proof.
  induction 1 as [|x y xs ys Hxy _ IH]; intros k; cbn [enumerate]; constructor; auto.
Qed.

Lemma hypothesis_entries (hypotheses : list value) (entries : list (value * value * string)) :
  Forall2 Views.hypothesis_has hypotheses entries ->
  forall k text,
    for_each (enumerate k hypotheses) text
      (fun text '(i, hyp) =>
         v <- getitem hyp "statement" ;;
         let text := text ++ PyStr.of_Z i ++ ". **" ++ str v ++ "**" ++ nl in
         v <- getitem hyp "type" ;;
         let text := text ++ "   - Type: " ++ str v ++ nl in
         v <- getitem hyp "confidence" ;;
         s <- format_2f v ;;
         Ok (text ++ "   - Confidence: " ++ s ++ nl ++ nl))
    = Ok (text ++ cat (map Views.hypothesis_entry (enumerate k entries))).
Proof.
  intros Hentries k text.
  apply (for_each_append2
           (fun (p : Z * value) (q : Z * (value * value * string)) =>
              fst p = fst q /\ Views.hypothesis_has (snd p) (snd q))).
  - intros [i hyp] [j [[statement kind] confidence]] [Hi Hhas] acc.
    cbn [fst snd] in Hi, Hhas. subst j.
    destruct Hhas as (Hstatement & Hkind & c & Hconfidence & Hformat).
    rewrite Hstatement. cbn [bind]. rewrite Hkind. cbn [bind].
    rewrite Hconfidence. cbn [bind]. rewrite Hformat. cbn [bind Views.hypothesis_entry].
    now rewrite !append_assoc.
  - now apply enumerate_forall2.
Qed.

(** X18: without a multi-agent analysis the intelligence summary is its
    heading followed, when there are hypotheses, by their numbered entries:
    statement, type and confidence with two decimals.  With an analysis that
    carries no confidence score, the three confidences are printed as 0.00. *)
Theorem intelligence_summary_lists_hypotheses (result : value) :
  (forall (analysis : value) (hypotheses : list value)
          (entries : list (value * value * string)),
      get result "multi_agent_analysis" (VDict []) = Ok analysis ->
      truthy analysis = false ->
      get result "hypotheses" (VList []) = Ok (VList hypotheses) ->
      Forall2 Views.hypothesis_has hypotheses entries ->
      Gradio.intelligence_summary result
      = Ok ("## Intelligence Analysis" ++ nl ++ nl ++
            match entries with
            | [] => ""
            | _ => nl ++ "### Generated Hypotheses:" ++ nl ++
                   cat (map Views.hypothesis_entry (enumerate 1 entries))
            end))
  /\ (forall (analysis scores : list (string * value)),
        get result "multi_agent_analysis" (VDict []) = Ok (VDict analysis) ->
        analysis <> [] ->
        get (VDict analysis) "confidence_scores" (VDict []) = Ok (VDict scores) ->
        lookup "researcher_avg" scores = None ->
        lookup "critic_avg" scores = None ->
        lookup "synthesis_confidence" scores = None ->
        get result "hypotheses" (VList []) = Ok (VList []) ->
        Gradio.intelligence_summary result
        = Ok ("## Intelligence Analysis" ++ nl ++ nl ++
              "### Multi-Agent Collaboration:" ++ nl ++
              "- Researcher Confidence: 0.00" ++ nl ++
              "- Critic Confidence: 0.00" ++ nl ++
              "- Synthesizer Confidence: 0.00" ++ nl)).
Proof.
  split.
  - intros analysis hypotheses entries Hanalysis Hnone Hhypotheses Hentries.
    unfold Gradio.intelligence_summary.
    rewrite Hanalysis. cbn [bind]. rewrite Hnone. cbn [bind].
    rewrite Hhypotheses. cbn [bind].
    destruct Hentries as [|h entry hs entries Hh Hhs]; [reflexivity|].
    cbn [truthy iterate bind].
    rewrite (hypothesis_entries (h :: hs) (entry :: entries)) by now constructor.
    now rewrite !append_assoc.
  - intros analysis scores Hanalysis Hsome Hscores Hresearcher Hcritic Hsynthesis Hhypotheses.
    unfold Gradio.intelligence_summary.
    rewrite Hanalysis. cbn [bind].
    replace (truthy (VDict analysis)) with true by (destruct analysis; [contradiction | reflexivity]).
    rewrite Hscores. cbn [bind get].
    rewrite Hresearcher, Hcritic, Hsynthesis, Hhypotheses.
    vm_compute. reflexivity.
Qed.

Lemma intelligence_summary_lists_hypotheses_witness :
  Gradio.intelligence_summary
    (VDict [("hypotheses",
             VList [VDict [("statement", VStr "Entanglement is monogamous");
                           ("type", VStr "causal");
                           ("confidence", VFloat (PyFloat.of_decimal false 8 (-1)))]])])
  = Ok ("## Intelligence Analysis" ++ nl ++ nl ++
        nl ++ "### Generated Hypotheses:" ++ nl ++
        "1. **Entanglement is monogamous**" ++ nl ++
        "   - Type: causal" ++ nl ++
        "   - Confidence: 0.80" ++ nl ++ nl).
Proof.
  apply (proj1 (intelligence_summary_lists_hypotheses _) (VDict [])
           [VDict [("statement", VStr "Entanglement is monogamous");
                   ("type", VStr "causal");
                   ("confidence", VFloat (PyFloat.of_decimal false 8 (-1)))]]
           [(VStr "Entanglement is monogamous", VStr "causal", "0.80")]).
  - reflexivity.
  - reflexivity.
  - reflexivity.
  - constructor; [|constructor].
    split; [reflexivity|]. split; [reflexivity|].
    eexists. split; [reflexivity|]. vm_compute. reflexivity.
Defined.
(** ** The radar chart, its last two axes *)

Ltac bind_as H x E :=
  match type of H with
  | context [bind ?e _] => destruct e as [x|] eqn:E; cbn [bind] in H; [|discriminate]
  end.

(** X19: the radar chart has its five axes in a fixed order.  Confidence is
    ten times the confidence of the assessment (0 without one) and Overall
    Quality is the score as it stands (0 without one): neither is clamped to
    the range of the chart, and a confidence given as a text is repeated ten
    times instead of being refused. *)
Theorem radar_confidence_and_overall_are_passed_on :
  (forall (result : value) (metrics : list (string * value)),
      Streamlit.create_quality_radar_chart result = Ok (Some metrics) ->
      exists qa c confidence overall,
        get result "quality_assessment" (VDict []) = Ok qa
        /\ get qa "confidence_assessment" (VInt 0) = Ok c
        /\ mul c (VInt 10) = Ok confidence
        /\ get qa "overall_quality_score" (VInt 0) = Ok overall
        /\ map fst metrics
           = ["Completeness"; "Source Diversity"; "External Validation";
              "Confidence"; "Overall Quality"]
        /\ lookup "Confidence" metrics = Some confidence
        /\ lookup "Overall Quality" metrics = Some overall)
  /\ (forall s : string, mul (VStr s) (VInt 10) = Ok (VStr (PyStr.repeat s 10)))
  /\ (forall z : Z, mul (VInt z) (VInt 10) = Ok (VInt (z * 10))).
Proof.
  split; [|split; reflexivity].
  intros result metrics H. unfold Streamlit.create_quality_radar_chart in H.
  bind_as H qa Hqa.
  destruct (truthy qa); cbn [negb] in H; [|discriminate].
  do 13 (bind_step H; [|discriminate]).
  bind_as H c Hc. bind_as H confidence Hconfidence. bind_as H overall Hoverall.
  apply ok_inj in H. inversion H.
  exists qa, c, confidence, overall. now repeat split.
Qed.

Lemma radar_confidence_and_overall_are_passed_on_witness :
  exists metrics,
    Streamlit.create_quality_radar_chart Scenario.entanglement = Ok (Some metrics)
    /\ map fst metrics
       = ["Completeness"; "Source Diversity"; "External Validation";
          "Confidence"; "Overall Quality"]
    /\ lookup "Overall Quality" metrics = Some (VInt 7).
Proof.
  destruct (Streamlit.create_quality_radar_chart Scenario.entanglement)
    as [[metrics|]|] eqn:Hchart; try (vm_compute in Hchart; discriminate).
  destruct (proj1 radar_confidence_and_overall_are_passed_on Scenario.entanglement
              metrics Hchart)
    as (qa & c & confidence & overall & Hqa & _ & _ & Hoverall & Hlabels & _ & Hshown).
  exists metrics. split; [reflexivity|]. split; [exact Hlabels|].
  vm_compute in Hqa. inversion Hqa. subst qa.
  vm_compute in Hoverall. inversion Hoverall. subst overall. exact Hshown.
Defined.

(** ** Blank questions *)

Lemma match_len_found (pats : list string) (s : string) (k : nat) :
  match_len pats s = S k ->
  exists p, In p pats /\ String.prefix p s = true /\ String.length p = S k.
Proof.
  induction pats as [|p pats IH]; [discriminate|].
  cbn [match_len]. destruct (String.prefix p s) eqn:Hp.
  - intros Hlen. exists p. repeat split; auto. now left.
  - intros H. destruct (IH H) as (q & Hin & Hq & Hlen). exists q. repeat split; auto. now right.
Qed.

Lemma match_len_some (pats : list string) (s p : string) :
  Views.prefix_free pats = true ->
  In p pats -> String.prefix p s = true ->
  exists k, match_len pats s = S k.
Proof.
  intros Hfree Hin Hp.
  assert (Hnonempty : forall q, In q pats -> exists k, String.length q = S k).
  { intros q Hq. unfold Views.prefix_free in Hfree. rewrite forallb_forall in Hfree.
    specialize (Hfree q Hq). apply andb_prop in Hfree as [Hq' _].
    destruct q; [discriminate | now eexists]. }
  clear Hfree. induction pats as [|q pats IH]; [contradiction|].
  cbn [match_len]. destruct (String.prefix q s) eqn:Hq.
  - apply Hnonempty. now left.
  - destruct Hin as [-> | Hin]; [congruence|].
    apply IH; auto. intros r Hr. apply Hnonempty. now right.
Qed.

Lemma prefix_of_prefixes (p q s : string) :
  String.prefix p s = true -> String.prefix q s = true ->
  String.prefix p q = true \/ String.prefix q p = true.
Proof.
  intros Hp Hq. apply prefix_split in Hq as [t ->].
  apply prefix_app_cases in Hp as [Hp | (r & -> & _)]; [now left | right].
  apply prefix_app.
Qed.

Lemma prefix_free_unique (pats : list string) (p q s : string) :
  Views.prefix_free pats = true ->
  In p pats -> In q pats ->
  String.prefix p s = true -> String.prefix q s = true -> p = q.
Proof.
  intros Hfree Hp Hq Hps Hqs.
  unfold Views.prefix_free in Hfree. rewrite forallb_forall in Hfree.
  destruct (prefix_of_prefixes p q s Hps Hqs) as [H | H].
  - specialize (Hfree p Hp). apply andb_prop in Hfree as [_ Hfree].
    rewrite forallb_forall in Hfree. specialize (Hfree q Hq).
    rewrite H in Hfree. now apply String.eqb_eq in Hfree.
  - specialize (Hfree q Hq). apply andb_prop in Hfree as [_ Hfree].
    rewrite forallb_forall in Hfree. specialize (Hfree p Hp).
    rewrite H in Hfree. cbn in Hfree. symmetry. now apply String.eqb_eq in Hfree.
Qed.

Lemma lstrip_go_skip (pats : list string) (a rest : string) :
  lstrip_go pats (String.length a) (a ++ rest) = lstrip_go pats 0 rest.
Proof.
  induction a as [|c a IH]; [reflexivity | exact IH].
Qed.

Lemma lstrip_go_pattern (pats : list string) (p rest : string) :
  Views.prefix_free pats = true -> In p pats ->
  lstrip_go pats 0 (p ++ rest) = lstrip_go pats 0 rest.
Proof.
  intros Hfree Hin.
  destruct (match_len_some pats (p ++ rest) p Hfree Hin (prefix_app p rest)) as [k Hk].
  destruct (match_len_found _ _ _ Hk) as (q & Hq & Hprefix & Hlen).
  assert (q = p) by (eapply prefix_free_unique; eauto using prefix_app). subst q.
  destruct p as [|c p]; [discriminate|].
  cbn [append lstrip_go]. cbn [append] in Hk. rewrite Hk.
  cbn [String.length] in Hlen. inversion Hlen. apply lstrip_go_skip.
Qed.

Lemma lstrip_go_patterns (pats : list string) (ws : list string) (rest : string) :
  Views.prefix_free pats = true ->
  Forall (fun w => In w pats) ws ->
  lstrip_go pats 0 (cat ws ++ rest) = lstrip_go pats 0 rest.
Proof.
  intros Hfree. induction 1 as [|w ws Hw _ IH]; [reflexivity|].
  cbn [cat]. rewrite append_assoc, lstrip_go_pattern; auto.
Qed.

Lemma lstrip_go_nil (pats : list string) (skip : nat) : lstrip_go pats skip "" = "".
Proof. reflexivity. Qed.

Lemma lstrip_go_spec (pats : list string) (n : nat) :
  forall s, (String.length s <= n)%nat ->
  exists ws, Forall (fun w => In w pats) ws /\ s = cat ws ++ lstrip_go pats 0 s.
Proof.
  induction n as [|n IH]; intros s Hlen.
  - destruct s; [|cbn in Hlen; lia]. now exists [].
  - destruct s as [|c s]; [now exists []|].
    cbn [lstrip_go]. destruct (match_len pats (String c s)) as [|k] eqn:Hk.
    + now exists [].
    + destruct (match_len_found _ _ _ Hk) as (p & Hin & Hprefix & Hp).
      apply prefix_split in Hprefix as [t Ht].
      destruct p as [|c' p]; [discriminate|].
      cbn [append] in Ht. inversion Ht. subst c' s.
      cbn [String.length] in Hp. inversion Hp. subst k.
      rewrite lstrip_go_skip.
      destruct (IH t) as (ws & Hws & Hrest).
      { cbn [String.length] in Hlen. rewrite length_append in Hlen. lia. }
      exists (String c p :: ws). split; [now constructor|].
      cbn [cat]. rewrite append_assoc. cbn [append]. now rewrite <- Hrest.
Qed.

Lemma text_rev_append (a b : string) : rev (a ++ b) = rev b ++ rev a.
Proof.
  induction a as [|c a IH]; cbn [append rev].
  - now rewrite append_nil_r.
  - now rewrite IH, append_assoc.
Qed.

Lemma text_rev_involutive (s : string) : rev (rev s) = s.
Proof.
  induction s as [|c s IH]; [reflexivity|].
  cbn [rev]. now rewrite text_rev_append, IH.
Qed.

Lemma text_rev_cat (ws : list string) : rev (cat ws) = cat (map rev (List.rev ws)).
Proof.
  induction ws as [|w ws IH]; [reflexivity|].
  cbn [cat List.rev]. rewrite text_rev_append, IH, map_app. cbn [map].
  clear IH. induction (map rev (List.rev ws)) as [|x xs IHx]; cbn [cat List.app].
  - now rewrite append_nil_r.
  - now rewrite append_assoc, IHx.
Qed.

Lemma cat_app (xs ys : list string) : cat (xs ++ ys) = cat xs ++ cat ys.
Proof.
  induction xs as [|x xs IH]; [reflexivity|].
  cbn [cat List.app]. now rewrite IH, append_assoc.
Qed.

Lemma whitespace_is_prefix_free :
  Views.prefix_free whitespace = true /\ Views.prefix_free (map rev whitespace) = true.
Proof. split; vm_compute; reflexivity. Qed.

(** Stripping a text leaves nothing exactly when the text is whitespace. *)
Lemma strip_blank (s : string) : is_empty (strip s) = true <-> Views.only_whitespace s.
Proof.
  destruct whitespace_is_prefix_free as [Hfree Hfree'].
  split.
  - intros Hempty.
    assert (Hstrip : strip s = "") by (destruct (strip s); [reflexivity | discriminate]).
    unfold strip, rstrip in Hstrip.
    apply (f_equal rev) in Hstrip. rewrite text_rev_involutive in Hstrip. cbn [rev] in Hstrip.
    destruct (lstrip_go_spec whitespace _ s (le_n _)) as (ws & Hws & Hs).
    destruct (lstrip_go_spec (map rev whitespace) _ (rev (lstrip s)) (le_n _))
      as (ws' & Hws' & Hs').
    rewrite Hstrip, append_nil_r in Hs'.
    apply (f_equal rev) in Hs'. rewrite text_rev_involutive, text_rev_cat in Hs'.
    fold (lstrip s) in Hs. rewrite Hs' in Hs.
    exists (ws ++ map rev (List.rev ws'))%list. split.
    + apply Forall_app. split; [exact Hws|].
      apply Forall_forall. intros w Hw. apply in_map_iff in Hw as (w' & <- & Hw').
      apply in_rev in Hw'. rewrite Forall_forall in Hws'.
      apply Hws' in Hw'. apply in_map_iff in Hw' as (v & <- & Hv).
      now rewrite text_rev_involutive.
    + now rewrite cat_app.
  - intros (ws & Hws & ->).
    unfold strip, lstrip.
    rewrite <- (append_nil_r (cat ws)), lstrip_go_patterns by assumption.
    reflexivity.
Qed.

(** X20: a question counts as blank exactly when it is made of whitespace
    characters only (the empty text is): then, and only then, the Gradio front
    end answers with its notice and the Streamlit page does not start a run;
    nothing is created, invoked or archived. *)
Theorem blank_means_whitespace_only (question : string) :
  (is_empty (strip question) = true <-> Views.only_whitespace question)
  /\ (Views.only_whitespace question ->
      forall (factory : outcome agent) (now_iso : string) (self : Gradio.interface)
             (st : Streamlit.session_state) (pressed : bool),
        Gradio.conduct_research factory now_iso self question
        = ((VStr "Please enter a research question.", "", "", ""), self, [])
        /\ Streamlit.run factory now_iso st question pressed = Streamlit.show_current st)
  /\ (~ Views.only_whitespace question ->
      forall (a : agent) (now_iso : string) (self : Gradio.interface)
             (st : Streamlit.session_state),
        snd (Gradio.conduct_research (Ok a) now_iso self question) <> []
        /\ snd (Streamlit.run (Ok a) now_iso st question true) <> []).
Proof.
  split; [apply strip_blank|]. split.
  - intros Hblank factory now_iso self st pressed.
    apply strip_blank in Hblank.
    unfold Gradio.conduct_research, Streamlit.run. rewrite Hblank.
    now rewrite andb_false_r.
  - intros Hsome a now_iso self st.
    assert (Hq : is_empty (strip question) = false).
    { destruct (is_empty (strip question)) eqn:E; [|reflexivity].
      now apply strip_blank in E. }
    split.
    + unfold Gradio.conduct_research, Gradio.initialize_agent. rewrite Hq.
      destruct (Gradio.self_agent self) as [kept|].
      * destruct (Gradio.research_body now_iso kept self question) as [[out|e] self'];
          discriminate.
      * destruct (Gradio.research_body now_iso a _ question) as [[out|e] self'];
          discriminate.
    + unfold Streamlit.run, Streamlit.run_research_with_progress. rewrite Hq.
      cbn [andb negb].
      destruct (invoke a (initial_state question)) as [result|e]; cbn [truthy].
      * destruct (truthy result); [|discriminate].
        destruct (research_record question result now_iso); discriminate.
      * discriminate.
Qed.

Lemma blank_means_whitespace_only_witness :
  Gradio.conduct_research (Ok Scenario.quiet_agent) "2026-01-01T10:00:00" Scenario.fresh
    (" " ++ byte 9 ++ byte 194 ++ byte 160 ++ nl)
  = ((VStr "Please enter a research question.", "", "", ""), Scenario.fresh, []).
Proof.
  assert (Hblank : Views.only_whitespace (" " ++ byte 9 ++ byte 194 ++ byte 160 ++ nl)).
  { apply (proj1 (proj1 (blank_means_whitespace_only _))). vm_compute. reflexivity. }
  exact (proj1 (proj1 (proj2 (blank_means_whitespace_only _)) Hblank
                  (Ok Scenario.quiet_agent) "2026-01-01T10:00:00" Scenario.fresh
                  Scenario.fresh_state true)).
Defined.
(** ** Indicator labels *)

Lemma prefix_one (c d : ascii) (s : string) :
  String.prefix (String c "") (String d s) = Ascii.eqb d c.
Proof.
  cbn [String.prefix]. destruct (ascii_dec c d) as [->|Hne].
  - rewrite Ascii.eqb_refl. now destruct s.
  - symmetry. apply Ascii.eqb_neq. congruence.
Qed.

Lemma split_one_free (c : ascii) (s : string) :
  forall cur, Views.char_free c cur = true ->
  Forall (fun piece => Views.char_free c piece = true) (split_go (String c "") 0 cur s).
Proof.
  induction s as [|d s IH]; intros cur Hcur; cbn [split_go].
  - now constructor.
  - rewrite prefix_one. destruct (Ascii.eqb d c) eqn:Hd.
    + constructor; [exact Hcur | now apply IH].
    + apply IH. rewrite char_free_app, Hcur. cbn. now rewrite Hd.
Qed.

Lemma split_one_nonempty (c : ascii) (s : string) :
  forall cur, split_go (String c "") 0 cur s <> [].
Proof.
  induction s as [|d s IH]; intros cur; cbn [split_go]; [discriminate|].
  rewrite prefix_one. destruct (Ascii.eqb d c); [discriminate | apply IH].
Qed.

Lemma split_one_length (c : ascii) (sep : string) (s : string) :
  String.length sep = 1%nat ->
  forall cur,
    String.length (join sep (split_go (String c "") 0 cur s))
    = (String.length cur + String.length s)%nat.
Proof.
  intros Hsep. induction s as [|d s IH]; intros cur; cbn [split_go].
  - cbn. lia.
  - rewrite prefix_one. destruct (Ascii.eqb d c).
    + cbn [String.length Nat.sub].
      destruct (split_go (String c "") 0 "" s) as [|x xs] eqn:Hpieces.
      * now elim (split_one_nonempty c s "").
      * change (join sep (cur :: x :: xs)) with (cur ++ sep ++ join sep (x :: xs)).
        rewrite !length_append, Hsep, <- Hpieces, IH. cbn. lia.
    + rewrite IH, length_append. cbn. lia.
Qed.

Lemma join_free (c : ascii) (sep : string) (l : list string) :
  Views.char_free c sep = true ->
  Forall (fun piece => Views.char_free c piece = true) l ->
  Views.char_free c (join sep l) = true.
Proof.
  intros Hsep. induction 1 as [|x xs Hx Hxs IH]; [reflexivity|].
  destruct xs as [|y ys]; [exact Hx|].
  change (join sep (x :: y :: ys)) with (x ++ sep ++ join sep (y :: ys)).
  now rewrite !char_free_app, Hx, Hsep, IH.
Qed.

Lemma title_char_free (c : ascii) (cased : bool) :
  Ascii.eqb c "_" = false ->
  Ascii.eqb (if is_lower c || is_upper c
             then (if cased then to_lower c else to_upper c)
             else c) "_" = false.
Proof.
  destruct c as [[] [] [] [] [] [] [] []], cased; vm_compute; auto.
Qed.

Lemma title_go_free (s : string) :
  forall cased, Views.char_free "_" s = true -> Views.char_free "_" (title_go cased s) = true.
Proof.
  induction s as [|c s IH]; intros cased H; [reflexivity|].
  cbn [Views.char_free] in H. apply andb_prop in H as [Hc Hs].
  apply negb_true_iff in Hc.
  pose proof (title_char_free c cased Hc) as Hshown.
  cbn [title_go]. destruct (is_lower c || is_upper c);
    cbn [Views.char_free]; rewrite Hshown; cbn [negb andb]; now apply IH.
Qed.

Lemma title_go_length (s : string) :
  forall cased, String.length (title_go cased s) = String.length s.
Proof.
  induction s as [|c s IH]; intros cased; [reflexivity|].
  cbn [title_go]. destruct (is_lower c || is_upper c); cbn [String.length]; now rewrite IH.
Qed.

Lemma split_one_all (p : ascii -> bool) (c : ascii) (s : string) :
  Json.all_chars p s = true ->
  forall cur, Json.all_chars p cur = true ->
  Forall (fun piece => Json.all_chars p piece = true) (split_go (String c "") 0 cur s).
Proof.
  induction s as [|d s IH]; intros Hs cur Hcur; cbn [split_go].
  - now constructor.
  - cbn [Json.all_chars] in Hs. apply andb_prop in Hs as [Hd Hs].
    rewrite prefix_one. destruct (Ascii.eqb d c).
    + constructor; [exact Hcur | now apply IH].
    + apply IH; [exact Hs|]. rewrite all_chars_app, Hcur. cbn. now rewrite Hd.
Qed.

Lemma join_all (p : ascii -> bool) (sep : string) (l : list string) :
  Json.all_chars p sep = true ->
  Forall (fun piece => Json.all_chars p piece = true) l ->
  Json.all_chars p (join sep l) = true.
Proof.
  intros Hsep. induction 1 as [|x xs Hx Hxs IH]; [reflexivity|].
  destruct xs as [|y ys]; [exact Hx|].
  change (join sep (x :: y :: ys)) with (x ++ sep ++ join sep (y :: ys)).
  now rewrite !all_chars_app, Hx, Hsep, IH.
Qed.

Lemma title_char_ascii (c : ascii) (cased : bool) :
  Views.is_ascii c = true ->
  Views.is_ascii (if is_lower c || is_upper c
                  then (if cased then to_lower c else to_upper c)
                  else c) = true.
Proof.
  destruct c as [[] [] [] [] [] [] [] []], cased; vm_compute; auto.
Qed.

Lemma title_go_ascii (s : string) :
  forall cased,
    Json.all_chars Views.is_ascii s = true ->
    Json.all_chars Views.is_ascii (title_go cased s) = true.
Proof.
  induction s as [|c s IH]; intros cased H; [reflexivity|].
  cbn [Json.all_chars] in H. apply andb_prop in H as [Hc Hs].
  pose proof (title_char_ascii c cased Hc) as Hshown.
  cbn [title_go]. destruct (is_lower c || is_upper c);
    cbn [Json.all_chars]; rewrite Hshown; cbn [andb]; now apply IH.
Qed.

(** X21: the label of a quality indicator with an ASCII name, the name with
    its underscores turned into spaces and in title case, holds no underscore,
    is as long as the name and is ASCII too. *)
Theorem indicator_labels_have_no_underscore (indicator : string) :
  Json.all_chars Views.is_ascii indicator = true ->
  let label := title (replace "_" " " indicator) in
  Views.char_free "_" label = true
  /\ String.length label = String.length indicator
  /\ Json.all_chars Views.is_ascii label = true.
Proof.
  intros Hascii label. subst label. split; [|split].
  - apply title_go_free, join_free; [reflexivity|].
    now apply split_one_free.
  - unfold title, replace, split.
    now rewrite title_go_length, split_one_length.
  - apply title_go_ascii, join_all; [reflexivity|].
    now apply split_one_all.
Qed.

Lemma indicator_labels_have_no_underscore_witness :
  let label := title (replace "_" " " "has_external_validation") in
  Views.char_free "_" label = true
  /\ String.length label = 23%nat
  /\ Json.all_chars Views.is_ascii label = true.
Proof.
  apply (indicator_labels_have_no_underscore "has_external_validation").
  vm_compute. reflexivity.
Defined.

(** ** The tabs of the results page *)

Lemma indicator_lines_of (indicators : list (string * value))
    (page : list Streamlit.Page.element) :
  Streamlit.Page.indicator_lines (VDict indicators) page
  = Ok (page ++ map Views.indicator_element indicators)%list.
Proof.
  unfold Streamlit.Page.indicator_lines. cbn [items bind].
  apply for_each_collect. intros acc [indicator status]. reflexivity.
Qed.

(** X22: the final answer tab is rendered for every result whose quality
    assessment and indicators are dicts, with or without a confidence: it
    shows the final answer and, when there is an assessment, one line per
    indicator and the three counts, a missing count as 0. *)
Theorem final_answer_tab_needs_no_confidence
    (result : value) (kvs indicators : list (string * value)) :
  get result "quality_assessment" (VDict []) = Ok (VDict kvs) ->
  get (VDict kvs) "quality_indicators" (VDict []) = Ok (VDict indicators) ->
  exists final_answer,
    get result "final_answer" (VStr "No final answer generated") = Ok final_answer
    /\ Streamlit.Page.render_final_answer result
       = Ok ([Streamlit.Page.Subheader "🎯 Final Answer";
              Streamlit.Page.Html ("<div class=" ++ dquote ++ "research-card" ++ dquote ++ ">");
              Streamlit.Page.Markdown final_answer;
              Streamlit.Page.Html "</div>"] ++
             match kvs with
             | [] => []
             | _ =>
                 [Streamlit.Page.Subheader "📊 Answer Quality Assessment";
                  Streamlit.Page.Write "**Quality Indicators:**"] ++
                 map Views.indicator_element indicators ++
                 [Streamlit.Page.Write "**Research Metrics:**";
                  Streamlit.Page.Write
                    ("• Total Findings: " ++ Views.field kvs "total_findings" "0");
                  Streamlit.Page.Write
                    ("• External Sources: " ++ Views.field kvs "external_sources_used" "0");
                  Streamlit.Page.Write
                    ("• Source Diversity: " ++ Views.field kvs "source_diversity" "0")]
             end)%list.
Proof.
  intros Hqa Hindicators.
  assert (Hfinal : exists fa, get result "final_answer" (VStr "No final answer generated") = Ok fa).
  { destruct result; try discriminate. eexists. reflexivity. }
  destruct Hfinal as [final_answer Hfinal]. exists final_answer. split; [exact Hfinal|].
  unfold Streamlit.Page.render_final_answer.
  rewrite Hfinal. cbn [bind]. rewrite Hqa. cbn [bind].
  destruct kvs as [|kv kvs]; [reflexivity|].
  set (qa := kv :: kvs) in *. cbn [truthy]. subst qa.
  rewrite Hindicators. cbn [bind]. rewrite indicator_lines_of. cbn [bind get].
  rewrite !str_get_field. cbn [str]. rewrite <- !app_assoc. reflexivity.
Qed.

Lemma final_answer_tab_needs_no_confidence_witness :
  exists page, Streamlit.Page.render_final_answer Scenario.score_only = Ok page.
Proof.
  destruct (final_answer_tab_needs_no_confidence Scenario.score_only
              [("overall_quality_score", VInt 7)] [] eq_refl eq_refl) as (fa & _ & Hpage).
  eexists. exact Hpage.
Defined.
Lemma finding_expander_of (finding : value) (view : Streamlit.Page.element) :
  Views.finding_seen finding view -> Streamlit.Page.finding_expander finding = Ok view.
Proof.
  intros (step & description & analysis & used & entries &
          (Hstep & Hdescription & Hanalysis) & Hused & Hentries & ->).
  unfold Streamlit.Page.finding_expander, Views.finding_view.
  rewrite Hstep. cbn [bind add to_number]. rewrite Hdescription. cbn [bind].
  rewrite Hanalysis. cbn [bind].
  destruct (key_findings_total analysis) as [extracted ->]. cbn [bind].
  rewrite Hused. cbn [bind].
  assert (Hsources :
            forall body : list Streamlit.Page.element,
              (if truthy (VDict used)
               then
                 let body := List.app body [Streamlit.Page.Write "**Sources Used:**"] in
                 v <- get (VDict used) "memory_basic" (VInt 0) ;;
                 let body := List.app body [Streamlit.Page.Metric "Memory" v] in
                 v <- get (VDict used) "memory_advanced" (VInt 0) ;;
                 let body := List.app body [Streamlit.Page.Metric "Advanced Memory" v] in
                 v <- get (VDict used) "external_sources" (VInt 0) ;;
                 Ok (List.app body [Streamlit.Page.Metric "External" v])
               else Ok body)
              = Ok (body ++
                    match used with
                    | [] => []
                    | _ => [Streamlit.Page.Write "**Sources Used:**";
                            Streamlit.Page.Metric "Memory"
                              (Views.count_shown used "memory_basic");
                            Streamlit.Page.Metric "Advanced Memory"
                              (Views.count_shown used "memory_advanced");
                            Streamlit.Page.Metric "External"
                              (Views.count_shown used "external_sources")]
                    end)%list).
  { intros body. destruct used as [|u used]; cbn [truthy].
    - now rewrite app_nil_r.
    - cbn [get bind]. unfold Views.count_shown. now rewrite <- !app_assoc. }
  rewrite Hsources. cbn [bind]. rewrite Hentries. cbn [bind].
  destruct entries as [|r rs].
  - cbn [map truthy]. now rewrite !app_nil_r.
  - set (all := r :: rs) in *. cbn [map truthy Streamlit.slice_to bind iterate].
    subst all. rewrite firstn_map, for_each_map.
    rewrite (for_each_collect
               (fun r => Streamlit.Page.Write ("• " ++ take 100 r ++ "...")))
      by (intros acc x; reflexivity).
    cbn [bind]. now rewrite <- !app_assoc.
Qed.

(** X23: for findings that carry an integer step, a description, a text as
    analysis, a dict of source counts and a list of external research texts,
    the process tab shows the numbered plan and one expander per finding, in
    order; an expander holds the key findings the Markdown report extracts,
    the three counts when there are any, and the first two external research
    texts only, each cut to 100 characters and followed by three dots. *)
Theorem process_tab_previews_two_sources
    (result : value) (plan findings : list value) (views : list Streamlit.Page.element) :
  get result "research_plan" (VList []) = Ok (VList plan) ->
  get result "findings" (VList []) = Ok (VList findings) ->
  Forall2 Views.finding_seen findings views ->
  Streamlit.Page.render_research_process result
  = Ok ([Streamlit.Page.Subheader "🔍 Research Process"] ++
        match plan with
        | [] => []
        | _ => Streamlit.Page.Write "**Research Plan:**" ::
               map (fun p => Streamlit.Page.Write (PyStr.of_Z (fst p) ++ ". " ++ str (snd p)))
                   (enumerate 1 plan)
        end ++
        [Streamlit.Page.Divider] ++
        match views with
        | [] => []
        | _ => Streamlit.Page.Write "**Research Findings:**" :: views
        end)%list.
Proof.
  intros Hplan Hfindings Hviews.
  unfold Streamlit.Page.render_research_process.
  rewrite Hplan. cbn [bind].
  match goal with
  | |- context [bind ?shown _] =>
      assert (Hsteps :
                shown
                = Ok ([Streamlit.Page.Subheader "🔍 Research Process"] ++
                      match plan with
                      | [] => []
                      | _ => Streamlit.Page.Write "**Research Plan:**" ::
                             map (fun p => Streamlit.Page.Write
                                             (PyStr.of_Z (fst p) ++ ". " ++ str (snd p)))
                                 (enumerate 1 plan)
                      end)%list)
  end.
  { destruct plan as [|s plan]; [reflexivity|].
    set (steps := s :: plan). cbn [truthy iterate bind]. subst steps.
    rewrite (for_each_collect
               (fun p : Z * value =>
                  Streamlit.Page.Write (PyStr.of_Z (fst p) ++ ". " ++ str (snd p))))
      by (intros acc [i step]; reflexivity).
    reflexivity. }
  rewrite Hsteps. cbn [bind]. rewrite Hfindings. cbn [bind].
  destruct Hviews as [|f v fs vs Hf Hfs].
  - cbn [truthy]. now rewrite <- !app_assoc.
  - cbn [truthy iterate bind].
    rewrite (for_each_collect2 Views.finding_seen (fun v => v))
      with (ys := v :: vs).
    + rewrite map_id, <- !app_assoc. reflexivity.
    + intros x y Hxy acc. now rewrite (finding_expander_of _ _ Hxy).
    + now constructor.
Qed.

Lemma process_tab_previews_two_sources_witness :
  Streamlit.Page.render_research_process
    (VDict [("findings",
             VList [VDict [("step", VInt 0);
                           ("step_description", VStr "Define terms");
                           ("external_research",
                            VList [VStr "first"; VStr "second"; VStr "third"])]])])
  = Ok [Streamlit.Page.Subheader "🔍 Research Process";
        Streamlit.Page.Divider;
        Streamlit.Page.Write "**Research Findings:**";
        Streamlit.Page.Expander "Step 1: Define terms"
          [Streamlit.Page.Write "**External Research:**";
           Streamlit.Page.Write "• first...";
           Streamlit.Page.Write "• second..."]].
Proof.
  apply (process_tab_previews_two_sources _ []
           [VDict [("step", VInt 0);
                   ("step_description", VStr "Define terms");
                   ("external_research",
                    VList [VStr "first"; VStr "second"; VStr "third"])]]
           [Views.finding_view 0 (VStr "Define terms") "" [] ["first"; "second"; "third"]]).
  - reflexivity.
  - reflexivity.
  - constructor; [|constructor].
    exists 0%Z, (VStr "Define terms"), "", (@nil (string * value)),
      ["first"; "second"; "third"].
    repeat split; reflexivity.
Defined.
Lemma listed_of (kvs : list (string * value)) (k heading : string) (l : list value)
    (body : list Streamlit.Page.element) :
  Views.kept_under kvs k l ->
  Streamlit.Page.listed (VDict kvs) k heading body
  = Ok (body ++ Views.up_to_three heading l)%list.
Proof.
  unfold Streamlit.Page.listed, Views.up_to_three. cbn [get getitem bind].
  intros [[-> ->] | ->].
  - cbn [truthy]. now rewrite app_nil_r.
  - destruct l as [|x xs]; cbn [truthy]; [now rewrite app_nil_r|].
    cbn [bind Streamlit.slice_to iterate].
    rewrite (for_each_collect (fun entry => Streamlit.Page.Write ("• " ++ str entry)))
      by (intros acc e; reflexivity).
    unfold Views.bullets. now rewrite <- app_assoc.
Qed.

Lemma hypothesis_expander_of (p : Z * value) (view : Streamlit.Page.element) :
  Views.hypothesis_seen p view ->
  Streamlit.Page.hypothesis_expander (fst p) (snd p) = Ok view.
Proof.
  intros (kvs & statement & kind & c & confidence & evidence & predictions &
          -> & Hstatement & Hkind & Hc & Hformat & Hevidence & Hpredictions & ->).
  unfold Streamlit.Page.hypothesis_expander, Views.hypothesis_view.
  cbn [getitem]. rewrite Hstatement, Hkind, Hc.
  cbn [bind Streamlit.slice_to]. rewrite Hformat. cbn [bind].
  rewrite (listed_of _ _ _ _ _ Hevidence). cbn [bind].
  rewrite (listed_of _ _ _ _ _ Hpredictions). cbn [bind].
  now rewrite <- !app_assoc.
Qed.

(** X24: the intelligence tab shows, for hypotheses that carry a text as
    statement, a type and a number as confidence, one expander per
    hypothesis, numbered from 1 and labelled with the first 80 characters of
    the statement followed by three dots; an expander lists at most three
    pieces of supporting evidence and three predictions.  With an analysis
    that holds no confidence score the tab shows no confidence at all. *)
Theorem intelligence_tab_lists_up_to_three (result : value) :
  (forall (analysis : value) (hypotheses : list value)
          (views : list Streamlit.Page.element),
      get result "multi_agent_analysis" (VDict []) = Ok analysis ->
      truthy analysis = false ->
      get result "hypotheses" (VList []) = Ok (VList hypotheses) ->
      Forall2 Views.hypothesis_seen (enumerate 1 hypotheses) views ->
      Streamlit.Page.render_intelligence_analysis result
      = Ok ([Streamlit.Page.Subheader "🧠 Intelligence Layer Analysis";
             Streamlit.Page.Divider] ++
            match views with
            | [] => []
            | _ => Streamlit.Page.Write "**Generated Hypotheses:**" :: views
            end)%list)
  /\ (forall (analysis : list (string * value)),
        get result "multi_agent_analysis" (VDict []) = Ok (VDict analysis) ->
        analysis <> [] ->
        lookup "confidence_scores" analysis = None ->
        lookup "collaboration_summary" analysis = None ->
        get result "hypotheses" (VList []) = Ok (VList []) ->
        Streamlit.Page.render_intelligence_analysis result
        = Ok [Streamlit.Page.Subheader "🧠 Intelligence Layer Analysis";
              Streamlit.Page.Write "**Multi-Agent Collaboration:**";
              Streamlit.Page.Divider]).
Proof.
  split.
  - intros analysis hypotheses views Hanalysis Hnone Hhypotheses Hviews.
    unfold Streamlit.Page.render_intelligence_analysis.
    rewrite Hanalysis. cbn [bind]. rewrite Hnone. cbn [bind List.app].
    rewrite Hhypotheses. cbn [bind].
    destruct hypotheses as [|h hs].
    + inversion Hviews. reflexivity.
    + set (all := h :: hs) in *. cbn [truthy iterate bind].
      rewrite (for_each_collect2 Views.hypothesis_seen (fun v => v))
        with (ys := views).
      * rewrite map_id. subst all. inversion Hviews. reflexivity.
      * intros [i x] y Hxy acc.
        pose proof (hypothesis_expander_of _ _ Hxy) as Hshown.
        cbn [fst snd] in Hshown. now rewrite Hshown.
      * exact Hviews.
  - intros analysis Hanalysis Hsome Hscores Hsummary Hhypotheses.
    unfold Streamlit.Page.render_intelligence_analysis.
    rewrite Hanalysis. cbn [bind].
    replace (truthy (VDict analysis)) with true
      by (destruct analysis; [contradiction | reflexivity]).
    cbn [get bind]. rewrite Hscores, Hsummary. cbn [truthy bind].
    rewrite Hhypotheses. reflexivity.
Qed.

Lemma intelligence_tab_lists_up_to_three_witness :
  Streamlit.Page.render_intelligence_analysis
    (VDict [("hypotheses",
             VList [VDict [("statement", VStr "Entanglement is monogamous");
                           ("type", VStr "causal");
                           ("confidence", VFloat (PyFloat.of_decimal false 8 (-1)));
                           ("predictions",
                            VList [VStr "one"; VStr "two"; VStr "three"; VStr "four"])]])])
  = Ok [Streamlit.Page.Subheader "🧠 Intelligence Layer Analysis";
        Streamlit.Page.Divider;
        Streamlit.Page.Write "**Generated Hypotheses:**";
        Streamlit.Page.Expander "Hypothesis 1: Entanglement is monogamous..."
          [Streamlit.Page.Write "**Type:** causal";
           Streamlit.Page.Write "**Confidence:** 0.80";
           Streamlit.Page.Write "**Predictions:**";
           Streamlit.Page.Write "• one";
           Streamlit.Page.Write "• two";
           Streamlit.Page.Write "• three"]].
Proof.
  apply (proj1 (intelligence_tab_lists_up_to_three _) (VDict [])
           [VDict [("statement", VStr "Entanglement is monogamous");
                   ("type", VStr "causal");
                   ("confidence", VFloat (PyFloat.of_decimal false 8 (-1)));
                   ("predictions",
                    VList [VStr "one"; VStr "two"; VStr "three"; VStr "four"])]]
           [Views.hypothesis_view 1 "Entanglement is monogamous" (VStr "causal") "0.80" []
              [VStr "one"; VStr "two"; VStr "three"; VStr "four"]]).
  - reflexivity.
  - reflexivity.
  - reflexivity.
  - constructor; [|constructor].
    eexists _, "Entanglement is monogamous", (VStr "causal"), _, "0.80", [],
      [VStr "one"; VStr "two"; VStr "three"; VStr "four"].
    split; [reflexivity|]. split; [reflexivity|]. split; [reflexivity|].
    split; [reflexivity|]. split; [vm_compute; reflexivity|].
    split; [left; split; reflexivity|]. split; [right; reflexivity | reflexivity].
Defined.
